(** * KJ Badminton Academy: membership administration

    A shallow embedding of the business logic of [streamlit.py]: the due-date
    calculator, the reminder classifier, the dashboard's active-subscription
    count, the cascading member delete, the phone helpers, the WhatsApp link
    generator and the message formatter, together with the properties the
    specification states about them. *)

From Stdlib Require Import ZArith NArith List String Ascii Bool Lia Floats.
From Stdlib Require Import Sorted Permutation.
Import ListNotations.
Local Open Scope Z_scope.

(** ** Python values

    A Python [str] is a sequence of Unicode code points; a code point is kept
    as its number.  [lit] reads a literal of the source. *)

Abbreviation pystr := (list N).

Definition lit (s : string) : pystr :=
  List.map N_of_ascii (list_ascii_of_string s).

Fixpoint str_eqb (a b : pystr) : bool :=
  match a, b with
  | [], [] => true
  | x :: a', y :: b' => N.eqb x y && str_eqb a' b'
  | _, _ => false
  end.

(** The exceptions the modelled code can raise. *)
Inductive exn :=
| OverflowError
| ValueError
| KeyError (key : pystr)
| IndexError
| UnicodeEncodeError.

Inductive result (A : Type) :=
| Ok (a : A)
| Raise (e : exn).
Arguments Ok {A} a.
Arguments Raise {A} e.

Definition bind {A B} (r : result A) (k : A -> result B) : result B :=
  match r with
  | Ok a => k a
  | Raise e => Raise e
  end.

Declare Scope py_scope.
Notation "x <- r ;; k" := (bind r (fun x => k))
  (at level 61, r at next level, right associativity) : py_scope.
Local Open Scope py_scope.

(** ** [datetime.date]

    A date is its proleptic Gregorian ordinal ([date.toordinal()]): day 1 is
    0001-01-01 and [MAXORDINAL] is 9999-12-31.  [date + timedelta(days=n)]
    goes through the ordinal and raises [OverflowError] outside that range;
    the difference of two dates is the difference of their ordinals. *)
Module PyDate.

Definition date := Z.

Definition MAXORDINAL : Z := 3652059.

Definition is_leap (year : Z) : bool :=
  (year mod 4 =? 0) && (negb (year mod 100 =? 0) || (year mod 400 =? 0)).

Definition days_before_year (year : Z) : Z :=
  let y := year - 1 in
  y * 365 + y / 4 - y / 100 + y / 400.

Definition DAYS_IN_MONTH : list Z :=
  [31; 28; 31; 30; 31; 30; 31; 31; 30; 31; 30; 31].

Definition days_in_month (year month : Z) : Z :=
  if (month =? 2) && is_leap year then 29
  else nth (Z.to_nat (month - 1)) DAYS_IN_MONTH 0.

Definition days_before_month (year month : Z) : Z :=
  fold_right Z.add 0 (firstn (Z.to_nat (month - 1)) DAYS_IN_MONTH)
  + (if (2 <? month) && is_leap year then 1 else 0).

Definition ymd2ord (year month day : Z) : date :=
  days_before_year year + days_before_month year month + day.

(** [date(year, month, day)]: the constructor checks its fields. *)
Definition mkdate (year month day : Z) : result date :=
  if (1 <=? year) && (year <=? 9999) && (1 <=? month) && (month <=? 12)
     && (1 <=? day) && (day <=? days_in_month year month)
  then Ok (ymd2ord year month day)
  else Raise ValueError.

Definition valid (d : date) : Prop := 1 <= d <= MAXORDINAL.

Definition in_range (o : Z) : bool := (0 <? o) && (o <=? MAXORDINAL).

(** [d + timedelta(days=n)] *)
Definition add_days (d : date) (n : Z) : result date :=
  let o := d + n in
  if in_range o then Ok o else Raise OverflowError.

(** [(a - b).days] *)
Definition days_between (a b : date) : Z := a - b.

End PyDate.
Import PyDate.

(** ** Due-date calculator *)

(** [DatabaseManager.calculate_next_due_date], on a [date] argument (for
    which the [isinstance(payment_date, str)] conversion is skipped). *)
Definition calculate_next_due_date (payment_date : date)
    (membership_type : pystr) : result date :=
  if str_eqb membership_type (lit "Monthly Subscriber") then
    add_days payment_date 30
  else if str_eqb membership_type (lit "Quarterly") then
    add_days payment_date 90
  else if str_eqb membership_type (lit "Half Yearly") then
    add_days payment_date 180
  else if str_eqb membership_type (lit "Annual") then
    add_days payment_date 365
  else
    add_days payment_date 30.

(** The membership tiers of the data model, with the labels under which the
    registration form stores them and the renewal period the specification
    gives each. *)
Inductive tier := Monthly | Quarterly | HalfYearly | Annual.

Definition tier_label (t : tier) : pystr :=
  match t with
  | Monthly => lit "Monthly Subscriber"
  | Quarterly => lit "Quarterly"
  | HalfYearly => lit "Half Yearly"
  | Annual => lit "Annual"
  end.

Definition tier_offset (t : tier) : Z :=
  match t with
  | Monthly => 30
  | Quarterly => 90
  | HalfYearly => 180
  | Annual => 365
  end.


(** The offset the calculator's branches select, as one table. *)
Definition offset_for (membership_type : pystr) : Z :=
  if str_eqb membership_type (lit "Quarterly") then 90
  else if str_eqb membership_type (lit "Half Yearly") then 180
  else if str_eqb membership_type (lit "Annual") then 365
  else 30.

(** ** The store

    The SQLite file is kept as its tables, each a list of rows in storage
    order.  Only the tables and columns read or written by the modelled
    operations are kept ([created_at] and [updated_at] stamps are left out).
    A DATE column holds the ISO text the [sqlite3] adapter writes for a
    [date] object; a row carries the date that text denotes.  REAL columns
    are binary64 floats; a nullable TEXT column is an [option]. *)

Module Members.
Record row := {
  id : Z;
  name : pystr;
  phone : pystr;
  email : option pystr;
  membership_type : pystr;
  amount : float;
  payment_date : date;
  reminder_days : Z;
  notes : option pystr
}.
End Members.

Module PaymentHistory.
Record row := {
  id : Z;
  member_id : Z;
  amount : float;
  payment_date : date;
  payment_method : option pystr;
  notes : option pystr
}.
End PaymentHistory.

Module ReminderLogs.
Record row := {
  id : Z;
  member_id : Z;
  reminder_type : pystr;
  message : pystr;
  success : bool
}.
End ReminderLogs.

Module MemberCheckins.
Record row := {
  id : Z;
  member_id : Z;
  member_name : pystr;
  phone : pystr;
  court_usage_type : option pystr;
  notes : option pystr
}.
End MemberCheckins.

Record database := {
  members : list Members.row;
  payment_history : list PaymentHistory.row;
  reminder_logs : list ReminderLogs.row;
  member_checkins : list MemberCheckins.row
}.

(** Whether the engine carries a unit of work through to its commit, or one
    of its statements raises [sqlite3.Error]; in the second case the open
    transaction is never committed and the file keeps its content. *)
Inductive engine := Healthy | Failing.

(** [DELETE FROM t WHERE key = ?] on a table given as a list of rows. *)
Definition sql_delete_where {R : Type} (key : R -> Z) (v : Z)
    (rows : list R) : list R :=
  filter (fun r => negb (key r =? v)) rows.

(** [SELECT * FROM t WHERE key = ?] *)
Definition sql_select_where {R : Type} (key : R -> Z) (v : Z)
    (rows : list R) : list R :=
  filter (fun r => key r =? v) rows.

(** [DatabaseManager.delete_member]: the four DELETE statements run in one
    transaction; the result is the returned flag and the store afterwards. *)
Definition delete_member (eng : engine) (db : database) (member_id : Z)
    : bool * database :=
  match eng with
  | Failing => (false, db)
  | Healthy =>
      let db1 :=
        {| members := members db;
           payment_history :=
             sql_delete_where PaymentHistory.member_id member_id
               (payment_history db);
           reminder_logs := reminder_logs db;
           member_checkins := member_checkins db |} in
      let db2 :=
        {| members := members db1;
           payment_history := payment_history db1;
           reminder_logs :=
             sql_delete_where ReminderLogs.member_id member_id
               (reminder_logs db1);
           member_checkins := member_checkins db1 |} in
      let db3 :=
        {| members := members db2;
           payment_history := payment_history db2;
           reminder_logs := reminder_logs db2;
           member_checkins :=
             sql_delete_where MemberCheckins.member_id member_id
               (member_checkins db2) |} in
      let db4 :=
        {| members := sql_delete_where Members.id member_id (members db3);
           payment_history := payment_history db3;
           reminder_logs := reminder_logs db3;
           member_checkins := member_checkins db3 |} in
      (true, db4)
  end.

(** *** Active subscriptions *)

(** SQLite's [date(d, '+n days')] on a stored date: NULL ([None]) once the
    result would pass 9999-12-31. *)
Definition sqlite_date_plus (d : date) (n : Z) : option date :=
  let o := d + n in
  if o <=? MAXORDINAL then Some o else None.

(** [a >= b] in SQL, with NULL on the left giving NULL, which a WHERE clause
    treats as not satisfied. *)
Definition sql_where_ge (a : option date) (b : date) : bool :=
  match a with
  | Some x => b <=? x
  | None => false
  end.

(** The WHERE clause of [get_active_subscriptions]. *)
Definition active_row (today : date) (m : Members.row) : bool :=
  sql_where_ge (sqlite_date_plus (Members.payment_date m) 30) today.

(** [DatabaseManager.get_active_subscriptions], with [today] for
    [datetime.now().date()]. *)
Definition get_active_subscriptions (db : database) (today : date) : Z :=
  Z.of_nat (List.length (filter (active_row today) (members db))).

(** *** Pending reminders *)

(** Comparison of TEXT values under SQLite's BINARY collation. *)
Fixpoint str_leb (a b : pystr) : bool :=
  match a, b with
  | [], _ => true
  | _ :: _, [] => false
  | x :: a', y :: b' =>
      if N.ltb x y then true
      else if N.eqb x y then str_leb a' b'
      else false
  end.

Fixpoint insert_by_name (r : Members.row) (sorted : list Members.row)
    : list Members.row :=
  match sorted with
  | [] => [r]
  | x :: rest =>
      if str_leb (Members.name r) (Members.name x) then r :: x :: rest
      else x :: insert_by_name r rest
  end.

(** [SELECT ... FROM members ORDER BY name] *)
Definition select_members_order_by_name (db : database) : list Members.row :=
  fold_right insert_by_name [] (members db).

(** The dictionary appended for a member who needs a reminder. *)
Module Reminder.
Record t := {
  member_id : Z;
  member_name : pystr;
  phone : pystr;
  email : option pystr;
  membership_type : pystr;
  amount : float;
  payment_date : date;
  next_due_date : date;
  days_remaining : Z;
  reminder_type : pystr;
  reminder_days : Z
}.
End Reminder.

(** The body of the loop of [get_pending_reminders] for one fetched row:
    the entry to append, if any.  The row carries its payment date as a
    date, which is what the conversion at the head of the body yields. *)
Definition remind (today : date) (member : Members.row)
    : result (option Reminder.t) :=
  next_due_date <-
    calculate_next_due_date (Members.payment_date member)
      (Members.membership_type member) ;;
  let days_remaining := days_between next_due_date today in
  let '(should_remind, reminder_type) :=
    if days_remaining <? 0 then (true, lit "overdue_reminder")
    else if days_remaining <=? Members.reminder_days member then
      (true, lit "payment_reminder")
    else (false, lit "payment_reminder") in
  Ok (if should_remind : bool then
        Some {| Reminder.member_id := Members.id member;
                Reminder.member_name := Members.name member;
                Reminder.phone := Members.phone member;
                Reminder.email := Members.email member;
                Reminder.membership_type := Members.membership_type member;
                Reminder.amount := Members.amount member;
                Reminder.payment_date := Members.payment_date member;
                Reminder.next_due_date := next_due_date;
                Reminder.days_remaining := days_remaining;
                Reminder.reminder_type := reminder_type;
                Reminder.reminder_days := Members.reminder_days member |}
      else None).

Fixpoint remind_loop (today : date) (fetched : list Members.row)
    (pending_reminders : list Reminder.t) : result (list Reminder.t) :=
  match fetched with
  | [] => Ok pending_reminders
  | member :: rest =>
      entry <- remind today member ;;
      remind_loop today rest
        (match entry with
         | Some e => pending_reminders ++ [e]
         | None => pending_reminders
         end)
  end.

(** [ReminderScheduler.get_pending_reminders], with [today] for
    [datetime.now().date()]. *)
Definition get_pending_reminders (db : database) (today : date)
    : result (list Reminder.t) :=
  remind_loop today (select_members_order_by_name db) [].

(** The entry of a member whose next due date is [due]. *)
Definition entry_of (today : date) (m : Members.row) (due : date)
    : Reminder.t :=
  {| Reminder.member_id := Members.id m;
     Reminder.member_name := Members.name m;
     Reminder.phone := Members.phone m;
     Reminder.email := Members.email m;
     Reminder.membership_type := Members.membership_type m;
     Reminder.amount := Members.amount m;
     Reminder.payment_date := Members.payment_date m;
     Reminder.next_due_date := due;
     Reminder.days_remaining := due - today;
     Reminder.reminder_type :=
       if due - today <? 0 then lit "overdue_reminder"
       else lit "payment_reminder";
     Reminder.reminder_days := Members.reminder_days m |}.

(** Whether a member with [days_remaining] days left is pending. *)
Definition pending (days_remaining reminder_days : Z) : bool :=
  (days_remaining <? 0)
  || ((0 <=? days_remaining) && (days_remaining <=? reminder_days)).

Definition name_le (a b : Reminder.t) : Prop :=
  str_leb (Reminder.member_name a) (Reminder.member_name b) = true.

Definition row_le (a b : Members.row) : Prop :=
  str_leb (Members.name a) (Members.name b) = true.

(** The entries a fetched row contributes to the pending list. *)
Definition pending_entries (today : date) (m : Members.row)
    : list Reminder.t :=
  match calculate_next_due_date (Members.payment_date m)
          (Members.membership_type m) with
  | Ok due =>
      if pending (due - today) (Members.reminder_days m)
      then [entry_of today m due] else []
  | Raise _ => []
  end.

(** A store that holds the given members and nothing else. *)
Definition db_of_members (ms : list Members.row) : database :=
  {| members := ms;
     payment_history := [];
     reminder_logs := [];
     member_checkins := [] |}.

(** ** Text helpers *)

Definition chr (a : ascii) : N := N_of_ascii a.

(** [len(s)] *)
Definition len (s : pystr) : Z := Z.of_nat (List.length s).

(** [s.startswith(prefix)] *)
Fixpoint startswith (s prefix : pystr) {struct prefix} : bool :=
  match prefix with
  | [] => true
  | p :: prefix' =>
      match s with
      | [] => false
      | c :: s' => N.eqb c p && startswith s' prefix'
      end
  end.

(** [s.replace(c, '')] for a one-character [c]. *)
Definition remove_char (c : N) (s : pystr) : pystr :=
  filter (fun x => negb (N.eqb x c)) s.

(** *** UTF-8 and [urllib.parse.quote] *)

Local Open Scope N_scope.

(** The UTF-8 bytes of one code point under the strict error handler: a
    surrogate cannot be encoded (a number from 0x110000 up is not a code
    point and is refused alike). *)
Definition utf8_char (c : N) : result (list N) :=
  if c <? 0x80 then Ok [c]
  else if c <? 0x800 then
    Ok [N.lor 0xC0 (N.shiftr c 6); N.lor 0x80 (N.land c 0x3F)]
  else if c <? 0x10000 then
    if (0xD800 <=? c) && (c <=? 0xDFFF) then Raise UnicodeEncodeError
    else Ok [N.lor 0xE0 (N.shiftr c 12);
             N.lor 0x80 (N.land (N.shiftr c 6) 0x3F);
             N.lor 0x80 (N.land c 0x3F)]
  else if c <? 0x110000 then
    Ok [N.lor 0xF0 (N.shiftr c 18);
        N.lor 0x80 (N.land (N.shiftr c 12) 0x3F);
        N.lor 0x80 (N.land (N.shiftr c 6) 0x3F);
        N.lor 0x80 (N.land c 0x3F)]
  else Raise UnicodeEncodeError.

(** [s.encode('utf-8', 'strict')] *)
Fixpoint utf8_encode (s : pystr) : result (list N) :=
  match s with
  | [] => Ok []
  | c :: s' =>
      b <- utf8_char c ;;
      bs <- utf8_encode s' ;;
      Ok (b ++ bs)
  end.

Definition between (lo hi c : N) : bool := (lo <=? c) && (c <=? hi).

(** The bytes [quote] never escapes: letters, digits and [_.-~]. *)
Definition ALWAYS_SAFE (b : N) : bool :=
  between (chr "A") (chr "Z") b
  || between (chr "a") (chr "z") b
  || between (chr "0") (chr "9") b
  || existsb (N.eqb b) (lit "_.-~").

(** One hexadecimal digit, upper case, as ['%02X'] prints it. *)
Definition hex_digit (n : N) : N :=
  if n <? 10 then chr "0" + n else chr "A" + (n - 10).

(** The quoter of [quote_from_bytes] with the default [safe='/']. *)
Definition quote_byte (b : N) : pystr :=
  if ALWAYS_SAFE b || N.eqb b (chr "/") then [b]
  else [chr "%"; hex_digit (b / 16); hex_digit (b mod 16)].

Definition quote_from_bytes (bs : list N) : pystr := flat_map quote_byte bs.

(** [urllib.parse.quote(s)] *)
Definition quote (s : pystr) : result pystr :=
  bs <- utf8_encode s ;;
  Ok (quote_from_bytes bs).

(** Percent-decoding, the inverse a receiver of the link applies. *)
Definition unhex (c : N) : option N :=
  if between (chr "0") (chr "9") c then Some (c - chr "0")
  else if between (chr "A") (chr "F") c then Some (c - chr "A" + 10)
  else if between (chr "a") (chr "f") c then Some (c - chr "a" + 10)
  else None.

Fixpoint unquote_to_bytes (s : pystr) : list N :=
  match s with
  | [] => []
  | c :: rest =>
      if N.eqb c (chr "%") then
        match rest with
        | h :: l :: rest' =>
            match unhex h, unhex l with
            | Some a, Some b => (16 * a + b) :: unquote_to_bytes rest'
            | _, _ => c :: unquote_to_bytes rest
            end
        | _ => c :: unquote_to_bytes rest
        end
      else c :: unquote_to_bytes rest
  end.

Local Close Scope N_scope.

(** The characters [quote] can put out: unreserved ones, the slash, and the
    percent sign of an escape. *)
Definition url_char (c : N) : bool :=
  ALWAYS_SAFE c || N.eqb c (chr "/") || N.eqb c (chr "%").

(** Whether the quoted form of a byte decodes back to the byte. *)
Definition quote_byte_decodes (b : N) : bool :=
  match quote_byte b with
  | [c] => N.eqb c b && negb (N.eqb c (chr "%"))
  | [p; h; l] =>
      N.eqb p (chr "%")
      && match unhex h, unhex l with
         | Some x, Some y => N.eqb (16 * x + y)%N b
         | _, _ => false
         end
  | _ => false
  end.

(** The characters [send_whatsapp_url] removes from the phone number. *)
Definition phone_separator (c : N) : bool :=
  N.eqb c (chr "+") || N.eqb c (chr " ") || N.eqb c (chr "-").

Definition ascii_digit (c : N) : bool := between (chr "0") (chr "9") c.

(** ** Link generator *)

(** [MessageManager.send_whatsapp_url] *)
Definition send_whatsapp_url (phone message : pystr) : result pystr :=
  let formatted_phone :=
    remove_char (chr "-") (remove_char (chr " ") (remove_char (chr "+") phone)) in
  encoded_message <- quote message ;;
  Ok (lit "https://wa.me/" ++ formatted_phone ++ lit "?text="
        ++ encoded_message).

(** ** Values passed to [str.format] *)

Inductive pyvalue :=
| VStr (s : pystr)
| VInt (z : Z)
| VFloat (f : float).

Fixpoint uint_chars (u : Decimal.uint) : pystr :=
  match u with
  | Decimal.Nil => []
  | Decimal.D0 u' => chr "0" :: uint_chars u'
  | Decimal.D1 u' => chr "1" :: uint_chars u'
  | Decimal.D2 u' => chr "2" :: uint_chars u'
  | Decimal.D3 u' => chr "3" :: uint_chars u'
  | Decimal.D4 u' => chr "4" :: uint_chars u'
  | Decimal.D5 u' => chr "5" :: uint_chars u'
  | Decimal.D6 u' => chr "6" :: uint_chars u'
  | Decimal.D7 u' => chr "7" :: uint_chars u'
  | Decimal.D8 u' => chr "8" :: uint_chars u'
  | Decimal.D9 u' => chr "9" :: uint_chars u'
  end.

(** [str(z)] for an [int] *)
Definition str_int (z : Z) : pystr :=
  match Z.to_int z with
  | Decimal.Pos u => uint_chars u
  | Decimal.Neg u => chr "-" :: uint_chars u
  end.

(** Keyword arguments, in the order of the call. *)
Definition kwargs := list (pystr * pyvalue).

Fixpoint kwargs_get (key : pystr) (kw : kwargs) : option pyvalue :=
  match kw with
  | [] => None
  | (k, v) :: kw' => if str_eqb k key then Some v else kwargs_get key kw'
  end.

(** ** The format-string scanner of [str.format]

    [MarkupIterator_next] and [parse_field] of CPython, as one scanner over
    the template.  A replacement field is cut into its name, its conversion
    character and its format specification. *)

Record field := {
  field_name : pystr;
  conversion : option N;
  format_spec : pystr;
  format_spec_needs_expanding : bool
}.

Inductive chunk :=
| Literal (text : pystr)
| Field (f : field).

Inductive pstate :=
| Text (text_rev : pystr)
| Name (name_rev : pystr)
| Index (name_rev : pystr)
| Conv (name : pystr)
| ConvEnd (name : pystr) (conv : N)
| Spec (name : pystr) (conv : option N) (spec_rev : pystr) (count : nat)
    (expand : bool).

Definition emit (c : chunk) (r : list chunk * option exn)
    : list chunk * option exn :=
  (c :: fst r, snd r).

Definition syntax_error : list chunk * option exn := ([], Some ValueError).

(** The chunks read before the scanner stops, and the [ValueError] it stops
    with on a malformed template.  Doubled braces stay in the running
    literal text. *)
Fixpoint markup (st : pstate) (s : pystr) {struct s}
    : list chunk * option exn :=
  match s with
  | [] =>
      match st with
      | Text l => ([Literal (rev l)], None)
      | _ => syntax_error
      end
  | c :: s' =>
      match st with
      | Text l =>
          if N.eqb c (chr "{") then
            match s' with
            | [] => syntax_error
            | c' :: s'' =>
                if N.eqb c' (chr "{") then markup (Text (c :: l)) s''
                else emit (Literal (rev l)) (markup (Name []) s')
            end
          else if N.eqb c (chr "}") then
            match s' with
            | [] => syntax_error
            | c' :: s'' =>
                if N.eqb c' (chr "}") then markup (Text (c :: l)) s''
                else syntax_error
            end
          else markup (Text (c :: l)) s'
      | Name n =>
          if N.eqb c (chr "{") then syntax_error
          else if N.eqb c (chr "[") then markup (Index (c :: n)) s'
          else if N.eqb c (chr "}") then
            emit (Field {| field_name := rev n; conversion := None;
                           format_spec := [];
                           format_spec_needs_expanding := false |})
                 (markup (Text []) s')
          else if N.eqb c (chr ":") then
            markup (Spec (rev n) None [] 1 false) s'
          else if N.eqb c (chr "!") then markup (Conv (rev n)) s'
          else markup (Name (c :: n)) s'
      | Index n =>
          if N.eqb c (chr "]") then markup (Name (c :: n)) s'
          else markup (Index (c :: n)) s'
      | Conv n => markup (ConvEnd n c) s'
      | ConvEnd n cv =>
          if N.eqb c (chr "}") then
            emit (Field {| field_name := n; conversion := Some cv;
                           format_spec := [];
                           format_spec_needs_expanding := false |})
                 (markup (Text []) s')
          else if N.eqb c (chr ":") then
            markup (Spec n (Some cv) [] 1 false) s'
          else syntax_error
      | Spec n cv sp count expand =>
          if N.eqb c (chr "{") then
            markup (Spec n cv (c :: sp) (S count) true) s'
          else if N.eqb c (chr "}") then
            match count with
            | 0%nat | 1%nat =>
                emit (Field {| field_name := n; conversion := cv;
                               format_spec := rev sp;
                               format_spec_needs_expanding := expand |})
                     (markup (Text []) s')
            | S count' => markup (Spec n cv (c :: sp) count' expand) s'
            end
          else markup (Spec n cv (c :: sp) count expand) s'
      end
  end.

(** [field_name_split]: the part of a field name before its first dot or
    opening bracket, and what follows. *)
Fixpoint split_first (s : pystr) : pystr * pystr :=
  match s with
  | [] => ([], [])
  | c :: s' =>
      if N.eqb c (chr ".") || N.eqb c (chr "[") then ([], s)
      else let '(a, b) := split_first s' in (c :: a, b)
  end.

(** The largest [Py_ssize_t] of a 64-bit interpreter. *)
Definition PY_SSIZE_T_MAX : N := 9223372036854775807.

(** The keys [format_message] reads from [member_data] with [dict.get];
    [None] is a key that is absent. *)
Module MemberData.
Record t := {
  payment_date : option date;
  membership_type : option pystr;
  member_name : option pystr;
  amount : option float
}.
End MemberData.

(** Pieces of a plain template. *)
Inductive piece :=
| PChar (c : N)
| PEscOpen
| PEscClose
| PField (name : pystr).

Definition piece_text (p : piece) : pystr :=
  match p with
  | PChar c => [c]
  | PEscOpen => lit "{{"
  | PEscClose => lit "}}"
  | PField n => chr "{" :: n ++ [chr "}"]
  end.

Definition template_of (ps : list piece) : pystr := flat_map piece_text ps.

(** The characters a plain placeholder name is made of: anything but the
    braces, the opening bracket, the colon, the exclamation mark and the
    dot. *)
Definition name_char (c : N) : bool :=
  negb (N.eqb c (chr "{") || N.eqb c (chr "}") || N.eqb c (chr "[")
        || N.eqb c (chr ":") || N.eqb c (chr "!") || N.eqb c (chr ".")).

Definition plain_piece (p : piece) : bool :=
  match p with
  | PChar c => negb (N.eqb c (chr "{")) && negb (N.eqb c (chr "}"))
  | PEscOpen | PEscClose => true
  | PField n => forallb name_char n
  end.

Definition piece_names (ps : list piece) : list pystr :=
  flat_map (fun p => match p with PField n => [n] | _ => [] end) ps.

(** The keyword names [format_message] passes to [str.format]. *)
Definition passed_names : list pystr :=
  [lit "member_name"; lit "amount"; lit "due_date"; lit "membership_type";
   lit "overdue_days"; lit "court_name"; lit "phone"].

Definition passed (n : pystr) : bool :=
  existsb (fun k => str_eqb k n) passed_names.

(** The field of a placeholder [{n}]. *)
Definition plain (n : pystr) : field :=
  {| field_name := n; conversion := None; format_spec := [];
     format_spec_needs_expanding := false |}.

(** The chunks of a plain template, after the literal text [text_rev]. *)
Fixpoint chunks_of (text_rev : pystr) (ps : list piece) : list chunk :=
  match ps with
  | [] => [Literal (rev text_rev)]
  | PChar c :: ps' => chunks_of (c :: text_rev) ps'
  | PEscOpen :: ps' => chunks_of (chr "{" :: text_rev) ps'
  | PEscClose :: ps' => chunks_of (chr "}" :: text_rev) ps'
  | PField n :: ps' =>
      Literal (rev text_rev) :: Field (plain n) :: chunks_of [] ps'
  end.

Definition brace (c : N) : bool := N.eqb c (chr "{") || N.eqb c (chr "}").

Definition no_brace (s : pystr) : bool := forallb (fun c => negb (brace c)) s.

Definition escape (p : piece) : bool :=
  match p with
  | PEscOpen | PEscClose => true
  | _ => false
  end.

(** The errors a plain template can end in: a name that is not passed
    ([KeyError]), or an empty or numbered one ([IndexError], [ValueError]). *)
Definition format_error (names : list pystr) (e : exn) : Prop :=
  e = IndexError \/ e = ValueError
  \/ exists k, e = KeyError k /\ In k names /\ passed k = false.

(** The payment date and the tier [format_message] works with. *)
Definition member_payment_date (member_data : MemberData.t)
    (now_default : date) : date :=
  match MemberData.payment_date member_data with
  | Some d => d
  | None => now_default
  end.

Definition member_membership_type (member_data : MemberData.t) : pystr :=
  match MemberData.membership_type member_data with
  | Some s => s
  | None => lit "Monthly Subscriber"
  end.

Section Text.

(** [Py_UNICODE_TODECIMAL] outside ASCII: the decimal value of a code point
    of category Nd, from the Unicode tables of the interpreter. *)
Variable unicode_decimal : N -> option N.

Definition todecimal (c : N) : option N :=
  if (c <? 128)%N then
    if between (chr "0") (chr "9") c then Some (c - chr "0")%N else None
  else unicode_decimal c.

(** What [\d] matches in a [str] pattern. *)
Definition isdecimal (c : N) : bool :=
  match todecimal c with
  | Some _ => true
  | None => false
  end.

(** [re.sub(r'\D', '', s)] *)
Definition strip_nondigits (s : pystr) : pystr := filter isdecimal s.

(** ** Phone normalization and validation *)

(** [format_phone_number] *)
Definition format_phone_number (phone : pystr) : pystr :=
  let phone := strip_nondigits phone in
  if startswith phone (lit "91") && (len phone =? 12) then
    lit "+" ++ phone
  else if len phone =? 10 then
    lit "+91" ++ phone
  else if len phone >? 10 then
    lit "+" ++ phone
  else
    phone.

(** [validate_phone_number] *)
Definition validate_phone_number (phone : pystr) : bool :=
  let digits_only := strip_nondigits phone in
  if len digits_only =? 10 then true
  else if (len digits_only =? 12) && startswith digits_only (lit "91") then
    true
  else if (len digits_only =? 13) && startswith phone (lit "+91") then true
  else false.

(** Validation as the specification words it: ten digits, or twelve digits
    starting with 91, or an input of thirteen characters starting with the
    literal +91. *)
Definition spec_validate (p : pystr) : bool :=
  let digits := strip_nondigits p in
  (List.length digits =? 10)%nat
  || ((List.length digits =? 12)%nat && startswith digits (lit "91"))
  || ((List.length p =? 13)%nat && startswith p (lit "+91")).

(** ** [str.format] with keyword arguments only *)

(** [get_integer]: [None] when the text is no number, a [ValueError] when it
    has too many digits for a [Py_ssize_t]. *)
Fixpoint get_integer_from (acc : N) (s : pystr) : option (result N) :=
  match s with
  | [] => Some (Ok acc)
  | c :: s' =>
      match todecimal c with
      | None => None
      | Some d =>
          if ((PY_SSIZE_T_MAX - d) / 10 <? acc)%N then Some (Raise ValueError)
          else get_integer_from (acc * 10 + d)%N s'
      end
  end.

Definition get_integer (s : pystr) : option (result N) :=
  match s with
  | [] => None
  | _ => get_integer_from 0%N s
  end.

(** [repr] of a float, as [str.format] prints a REAL amount. *)
Variable str_float : float -> pystr.

(** [str(v)], which is [format(v, '')] for these types. *)
Definition py_str (v : pyvalue) : pystr :=
  match v with
  | VStr s => s
  | VInt z => str_int z
  | VFloat f => str_float f
  end.

(** What [str.format] does with a field that carries an attribute or index
    accessor, a conversion or a format specification, once the object named
    first has been found: the object protocol and the format mini-language
    of the interpreter.  The arguments are the keyword arguments, the
    object, the accessors after the first name, the conversion, the format
    specification and whether it holds nested fields. *)
Variable format_field_ext :
  kwargs -> pyvalue -> pystr -> option N -> pystr -> bool -> result pystr.

Definition plain_field (rest : pystr) (f : field) : bool :=
  match rest, conversion f, format_spec f with
  | [], None, [] => true
  | _, _, _ => false
  end.

(** [output_markup] for a call without positional arguments: a numbered or
    empty first name indexes the empty argument tuple, any other name is
    looked up among the keyword arguments. *)
Definition render_field (kw : kwargs) (f : field) : result pystr :=
  let '(first, rest) := split_first (field_name f) in
  match get_integer first with
  | Some (Raise e) => Raise e
  | Some (Ok _) => Raise IndexError
  | None =>
      match first with
      | [] => Raise IndexError
      | _ =>
          match kwargs_get first kw with
          | None => Raise (KeyError first)
          | Some obj =>
              if plain_field rest f then Ok (py_str obj)
              else format_field_ext kw obj rest (conversion f)
                     (format_spec f) (format_spec_needs_expanding f)
          end
      end
  end.

Fixpoint render_chunks (kw : kwargs) (cs : list chunk) : result pystr :=
  match cs with
  | [] => Ok []
  | Literal text :: cs' =>
      out <- render_chunks kw cs' ;;
      Ok (text ++ out)
  | Field f :: cs' =>
      v <- render_field kw f ;;
      out <- render_chunks kw cs' ;;
      Ok (v ++ out)
  end.

(** [template.format] on keyword arguments [kw]: the chunks are written out from left to
    right, so an error of a field comes before a later error of syntax. *)
Definition str_format (template : pystr) (kw : kwargs) : result pystr :=
  let '(chunks, err) := markup (Text []) template in
  out <- render_chunks kw chunks ;;
  match err with
  | None => Ok out
  | Some e => Raise e
  end.

(** ** Message formatter *)

(** [due_date.strftime('%d-%m-%Y')] of the C library. *)
Variable strftime_dmy : date -> pystr.

(** [MessageManager.format_message].  [now_default] and [today] are the two
    readings of [datetime.now().date()], the first for the default of
    [.get('payment_date', ...)]; the payment date is a [date] object, as in
    the entries of [get_pending_reminders]. *)
Definition format_message (template : pystr) (member_data : MemberData.t)
    (now_default today : date) : result pystr :=
  let court_name := lit "KJ Badminton Academy" in
  let contact_phone := lit "+91-9876543210" in
  let payment_date :=
    match MemberData.payment_date member_data with
    | Some d => d
    | None => now_default
    end in
  let membership_type :=
    match MemberData.membership_type member_data with
    | Some s => s
    | None => lit "Monthly Subscriber"
    end in
  due_date <-
    (if str_eqb membership_type (lit "Monthly Subscriber") then
       add_days payment_date 30
     else if str_eqb membership_type (lit "Quarterly") then
       add_days payment_date 90
     else if str_eqb membership_type (lit "Half Yearly") then
       add_days payment_date 180
     else if str_eqb membership_type (lit "Annual") then
       add_days payment_date 365
     else
       add_days payment_date 30) ;;
  let overdue_days :=
    if due_date <? today then days_between today due_date else 0 in
  str_format template
    [ (lit "member_name",
       VStr match MemberData.member_name member_data with
            | Some s => s
            | None => lit "Member"
            end);
      (lit "amount",
       match MemberData.amount member_data with
       | Some a => VFloat a
       | None => VInt 0
       end);
      (lit "due_date", VStr (strftime_dmy due_date));
      (lit "membership_type", VStr membership_type);
      (lit "overdue_days", VInt overdue_days);
      (lit "court_name", VStr court_name);
      (lit "phone", VStr contact_phone) ].

(** *** Templates of plain placeholders

    The templates the data model stores: text without braces, doubled
    braces, and placeholders of the form [{name}]. *)

Definition message_kwargs (member_data : MemberData.t) (due_date today : date)
    : kwargs :=
  [ (lit "member_name",
     VStr match MemberData.member_name member_data with
          | Some s => s
          | None => lit "Member"
          end);
    (lit "amount",
     match MemberData.amount member_data with
     | Some a => VFloat a
     | None => VInt 0
     end);
    (lit "due_date", VStr (strftime_dmy due_date));
    (lit "membership_type",
     VStr match MemberData.membership_type member_data with
          | Some s => s
          | None => lit "Monthly Subscriber"
          end);
    (lit "overdue_days",
     VInt (if due_date <? today then days_between today due_date else 0));
    (lit "court_name", VStr (lit "KJ Badminton Academy"));
    (lit "phone", VStr (lit "+91-9876543210")) ].

(** The text a plain template turns into once every placeholder is replaced
    by the text of its value. *)
Fixpoint substitute (kw : kwargs) (ps : list piece) : pystr :=
  match ps with
  | [] => []
  | PChar c :: ps' => c :: substitute kw ps'
  | PEscOpen :: ps' => chr "{" :: substitute kw ps'
  | PEscClose :: ps' => chr "}" :: substitute kw ps'
  | PField n :: ps' =>
      match kwargs_get n kw with
      | Some v => py_str v ++ substitute kw ps'
      | None => substitute kw ps'
      end
  end.

End Text.

(** ** Sample instances of the interpreter's tables

    Used where a statement is evaluated on a concrete input. *)

(** The Arabic-Indic digits U+0660 to U+0669 as the decimals outside ASCII. *)
Definition sample_unicode_decimal (c : N) : option N :=
  if between 1632 1641 c then Some (c - 1632)%N else None.

Definition sample_str_float (f : float) : pystr :=
  if PrimFloat.eqb f 1500%float then lit "1500.0" else lit "0.0".

Definition sample_strftime_dmy (d : date) : pystr :=
  if d =? ymd2ord 2024 1 31 then lit "31-01-2024" else lit "01-01-2024".

Definition sample_format_field_ext (kw : kwargs) (obj : pyvalue)
    (rest : pystr) (conv : option N) (spec : pystr) (expand : bool)
    : result pystr :=
  Raise ValueError.

Definition sample_member : Members.row :=
  {| Members.id := 1;
     Members.name := lit "Asha";
     Members.phone := lit "+919876543210";
     Members.email := None;
     Members.membership_type := lit "Monthly Subscriber";
     Members.amount := 1500%float;
     Members.payment_date := ymd2ord 2024 1 1;
     Members.reminder_days := 30;
     Members.notes := None |}.

Definition sample_quarterly : Members.row :=
  {| Members.id := 2;
     Members.name := lit "Bala";
     Members.phone := lit "+919876500000";
     Members.email := None;
     Members.membership_type := lit "Quarterly";
     Members.amount := 1500%float;
     Members.payment_date := ymd2ord 2024 1 1;
     Members.reminder_days := 15;
     Members.notes := None |}.

Definition sample_db : database :=
  {| members := [sample_quarterly; sample_member];
     payment_history :=
       [ {| PaymentHistory.id := 1; PaymentHistory.member_id := 1;
            PaymentHistory.amount := 1500%float;
            PaymentHistory.payment_date := ymd2ord 2024 1 1;
            PaymentHistory.payment_method := Some (lit "Initial Payment");
            PaymentHistory.notes := Some (lit "Membership registration") |};
         {| PaymentHistory.id := 2; PaymentHistory.member_id := 2;
            PaymentHistory.amount := 1500%float;
            PaymentHistory.payment_date := ymd2ord 2024 1 1;
            PaymentHistory.payment_method := Some (lit "Initial Payment");
            PaymentHistory.notes := Some (lit "Membership registration") |} ];
     reminder_logs :=
       [ {| ReminderLogs.id := 1; ReminderLogs.member_id := 1;
            ReminderLogs.reminder_type := lit "payment_reminder";
            ReminderLogs.message := lit "Hi Asha!";
            ReminderLogs.success := true |} ];
     member_checkins := [] |}.

(** The placeholders the data model of the specification lists. *)
Definition spec_placeholders : list pystr :=
  [lit "member_name"; lit "amount"; lit "due_date"; lit "overdue_days";
   lit "phone"].

Definition sample_template : list piece :=
  List.map PChar (lit "Hi ") ++ [PField (lit "member_name")]
  ++ List.map PChar (lit ", pay ") ++ [PField (lit "amount")]
  ++ List.map PChar (lit " by ") ++ [PField (lit "due_date")].

Definition sample_member_data : MemberData.t :=
  {| MemberData.payment_date := Some (ymd2ord 2024 1 1);
     MemberData.membership_type := Some (lit "Monthly Subscriber");
     MemberData.member_name := Some (lit "Asha");
     MemberData.amount := Some 1500%float |}.

(** * The rest of the store and of the pages

    The operations below complete the model of [DatabaseManager] and of the
    pages that call the operations above. *)

(** ** Tables of the training programme and of the templates

    The [id] of a message template is never read and is left out. *)

Module Kids.
Record row := {
  id : Z;
  kid_name : pystr;
  parent_name : pystr;
  parent_phone : pystr;
  age : Z;
  batch_time : pystr;
  monthly_fee : float;
  start_date : date;
  emergency_contact : option pystr;
  medical_notes : option pystr;
  active : bool
}.
End Kids.

Module KidsPaymentHistory.
Record row := {
  id : Z;
  kid_id : Z;
  amount : float;
  payment_date : date;
  payment_method : option pystr;
  notes : option pystr
}.
End KidsPaymentHistory.

Module MessageTemplates.
Record row := {
  template_type : pystr;
  message_text : pystr
}.
End MessageTemplates.

(** The [sqlite_sequence] entries of the AUTOINCREMENT keys: the largest
    rowid each table has ever held. *)
Record sequences := {
  seq_members : Z;
  seq_payment_history : Z;
  seq_reminder_logs : Z;
  seq_kids_training : Z
}.

Record store := {
  tables : database;
  kids_training : list Kids.row;
  kids_payment_history : list KidsPaymentHistory.row;
  message_templates : list MessageTemplates.row;
  sqlite_sequence : sequences
}.

Definition set_tables (st : store) (db : database) : store :=
  {| tables := db;
     kids_training := kids_training st;
     kids_payment_history := kids_payment_history st;
     message_templates := message_templates st;
     sqlite_sequence := sqlite_sequence st |}.

Definition set_sequences (st : store) (s : sequences) : store :=
  {| tables := tables st;
     kids_training := kids_training st;
     kids_payment_history := kids_payment_history st;
     message_templates := message_templates st;
     sqlite_sequence := s |}.

Definition set_kids (st : store) (kids : list Kids.row)
    (history : list KidsPaymentHistory.row) : store :=
  {| tables := tables st;
     kids_training := kids;
     kids_payment_history := history;
     message_templates := message_templates st;
     sqlite_sequence := sqlite_sequence st |}.

Definition set_templates (st : store) (ts : list MessageTemplates.row)
    : store :=
  {| tables := tables st;
     kids_training := kids_training st;
     kids_payment_history := kids_payment_history st;
     message_templates := ts;
     sqlite_sequence := sqlite_sequence st |}.

(** The largest rowid SQLite can give. *)
Definition MAX_ROWID : Z := 9223372036854775807.

Definition max_rowid (ids : list Z) : Z := fold_right Z.max 0 ids.

(** The rowid of the next row of an AUTOINCREMENT table: one more than the
    largest the table holds or has ever held; none is left past
    [MAX_ROWID], and the INSERT fails. *)
Definition next_rowid (seq : Z) (ids : list Z) : option Z :=
  let n := Z.max seq (max_rowid ids) + 1 in
  if n <=? MAX_ROWID then Some n else None.

(** ** Members and payments *)

(** [DatabaseManager.add_member]: the two INSERT statements run in one
    transaction.  The first fails on a phone number that a member already
    has (the UNIQUE constraint), either fails when no rowid is left; any
    failure is caught, nothing is committed and [False] is returned. *)
Definition add_member (eng : engine) (st : store) (name phone : pystr)
    (email : option pystr) (membership_type : pystr) (amount : float)
    (payment_date : date) (reminder_days : Z) (notes : option pystr)
    : bool * store :=
  match eng with
  | Failing => (false, st)
  | Healthy =>
      let db := tables st in
      let seqs := sqlite_sequence st in
      if existsb (fun m => str_eqb (Members.phone m) phone) (members db)
      then (false, st)
      else
        match next_rowid (seq_members seqs)
                (List.map Members.id (members db)) with
        | None => (false, st)
        | Some member_id =>
            match next_rowid (seq_payment_history seqs)
                    (List.map PaymentHistory.id (payment_history db)) with
            | None => (false, st)
            | Some payment_id =>
                let member :=
                  {| Members.id := member_id;
                     Members.name := name;
                     Members.phone := phone;
                     Members.email := email;
                     Members.membership_type := membership_type;
                     Members.amount := amount;
                     Members.payment_date := payment_date;
                     Members.reminder_days := reminder_days;
                     Members.notes := notes |} in
                let payment :=
                  {| PaymentHistory.id := payment_id;
                     PaymentHistory.member_id := member_id;
                     PaymentHistory.amount := amount;
                     PaymentHistory.payment_date := payment_date;
                     PaymentHistory.payment_method :=
                       Some (lit "Initial Payment");
                     PaymentHistory.notes :=
                       Some (lit "Membership registration") |} in
                (true,
                 set_sequences
                   (set_tables st
                      {| members := members db ++ [member];
                         payment_history := payment_history db ++ [payment];
                         reminder_logs := reminder_logs db;
                         member_checkins := member_checkins db |})
                   {| seq_members := member_id;
                      seq_payment_history := payment_id;
                      seq_reminder_logs := seq_reminder_logs seqs;
                      seq_kids_training := seq_kids_training seqs |})
            end
        end
  end.

(** [UPDATE members SET payment_date = ?, amount = ? WHERE id = ?] *)
Definition update_last_payment (member_id : Z) (amount : float)
    (payment_date : date) (m : Members.row) : Members.row :=
  if Members.id m =? member_id then
    {| Members.id := Members.id m;
       Members.name := Members.name m;
       Members.phone := Members.phone m;
       Members.email := Members.email m;
       Members.membership_type := Members.membership_type m;
       Members.amount := amount;
       Members.payment_date := payment_date;
       Members.reminder_days := Members.reminder_days m;
       Members.notes := Members.notes m |}
  else m.

(** [DatabaseManager.record_payment]: the INSERT into the history and the
    UPDATE of the member, in one transaction. *)
Definition record_payment (eng : engine) (st : store) (member_id : Z)
    (amount : float) (payment_date : date) (payment_method : option pystr)
    (notes : option pystr) : bool * store :=
  match eng with
  | Failing => (false, st)
  | Healthy =>
      let db := tables st in
      let seqs := sqlite_sequence st in
      match next_rowid (seq_payment_history seqs)
              (List.map PaymentHistory.id (payment_history db)) with
      | None => (false, st)
      | Some payment_id =>
          let payment :=
            {| PaymentHistory.id := payment_id;
               PaymentHistory.member_id := member_id;
               PaymentHistory.amount := amount;
               PaymentHistory.payment_date := payment_date;
               PaymentHistory.payment_method := payment_method;
               PaymentHistory.notes := notes |} in
          (true,
           set_sequences
             (set_tables st
                {| members :=
                     List.map (update_last_payment member_id amount
                                 payment_date) (members db);
                   payment_history := payment_history db ++ [payment];
                   reminder_logs := reminder_logs db;
                   member_checkins := member_checkins db |})
             {| seq_members := seq_members seqs;
                seq_payment_history := payment_id;
                seq_reminder_logs := seq_reminder_logs seqs;
                seq_kids_training := seq_kids_training seqs |})
      end
  end.

(** [DatabaseManager.log_reminder] *)
Definition log_reminder (eng : engine) (st : store) (member_id : Z)
    (reminder_type message : pystr) : bool * store :=
  match eng with
  | Failing => (false, st)
  | Healthy =>
      let db := tables st in
      let seqs := sqlite_sequence st in
      match next_rowid (seq_reminder_logs seqs)
              (List.map ReminderLogs.id (reminder_logs db)) with
      | None => (false, st)
      | Some log_id =>
          (true,
           set_sequences
             (set_tables st
                {| members := members db;
                   payment_history := payment_history db;
                   reminder_logs :=
                     reminder_logs db
                     ++ [ {| ReminderLogs.id := log_id;
                             ReminderLogs.member_id := member_id;
                             ReminderLogs.reminder_type := reminder_type;
                             ReminderLogs.message := message;
                             ReminderLogs.success := true |} ];
                   member_checkins := member_checkins db |})
             {| seq_members := seq_members seqs;
                seq_payment_history := seq_payment_history seqs;
                seq_reminder_logs := log_id;
                seq_kids_training := seq_kids_training seqs |})
      end
  end.

(** [DatabaseManager.delete_member] on the whole store. *)
Definition delete_member_from (eng : engine) (st : store) (member_id : Z)
    : bool * store :=
  let '(ok, db) := delete_member eng (tables st) member_id in
  (ok, set_tables st db).

(** [DatabaseManager.get_total_members] *)
Definition get_total_members (st : store) : Z :=
  Z.of_nat (List.length (members (tables st))).

(** No row of the history, of the reminder log or of the check-ins names a
    member that is not in the table (the foreign keys, which the engine is
    not asked to enforce). *)
Definition no_orphans (db : database) : Prop :=
  (forall p, In p (payment_history db) ->
     exists m, In m (members db)
               /\ Members.id m = PaymentHistory.member_id p)
  /\ (forall l, In l (reminder_logs db) ->
        exists m, In m (members db)
                  /\ Members.id m = ReminderLogs.member_id l)
  /\ (forall c, In c (member_checkins db) ->
        exists m, In m (members db)
                  /\ Members.id m = MemberCheckins.member_id c).


(** The calculator gives every member a due date. *)
Definition due_dates_known (db : database) : Prop :=
  Forall (fun m => exists due,
            calculate_next_due_date (Members.payment_date m)
              (Members.membership_type m) = Ok due) (members db).

(** The sample tables with their counters. *)
Definition sample_store : store :=
  {| tables := sample_db;
     kids_training := [];
     kids_payment_history := [];
     message_templates := [];
     sqlite_sequence :=
       {| seq_members := 2; seq_payment_history := 2;
          seq_reminder_logs := 1; seq_kids_training := 0 |} |}.

(** ** The training programme *)

(** [SELECT ... ORDER BY key] on a TEXT column. *)
Fixpoint insert_by {R : Type} (key : R -> pystr) (r : R) (sorted : list R)
    : list R :=
  match sorted with
  | [] => [r]
  | x :: rest =>
      if str_leb (key r) (key x) then r :: x :: rest
      else x :: insert_by key r rest
  end.

Definition sql_order_by {R : Type} (key : R -> pystr) (rows : list R)
    : list R :=
  fold_right (insert_by key) [] rows.

(** [DatabaseManager.add_kid]: a new row is active by the column default. *)
Definition add_kid (eng : engine) (st : store)
    (kid_name parent_name parent_phone : pystr) (age : Z)
    (batch_time : pystr) (monthly_fee : float) (start_date : date)
    (emergency_contact medical_notes : option pystr) : bool * store :=
  match eng with
  | Failing => (false, st)
  | Healthy =>
      let seqs := sqlite_sequence st in
      match next_rowid (seq_kids_training seqs)
              (List.map Kids.id (kids_training st)) with
      | None => (false, st)
      | Some kid_id =>
          (true,
           set_sequences
             (set_kids st
                (kids_training st
                 ++ [ {| Kids.id := kid_id;
                         Kids.kid_name := kid_name;
                         Kids.parent_name := parent_name;
                         Kids.parent_phone := parent_phone;
                         Kids.age := age;
                         Kids.batch_time := batch_time;
                         Kids.monthly_fee := monthly_fee;
                         Kids.start_date := start_date;
                         Kids.emergency_contact := emergency_contact;
                         Kids.medical_notes := medical_notes;
                         Kids.active := true |} ])
                (kids_payment_history st))
             {| seq_members := seq_members seqs;
                seq_payment_history := seq_payment_history seqs;
                seq_reminder_logs := seq_reminder_logs seqs;
                seq_kids_training := kid_id |})
      end
  end.

(** [DatabaseManager.get_all_kids] *)
Definition get_all_kids (st : store) : list Kids.row :=
  sql_order_by Kids.kid_name (filter Kids.active (kids_training st)).

(** [DatabaseManager.get_total_kids] *)
Definition get_total_kids (st : store) : Z :=
  Z.of_nat (List.length (filter Kids.active (kids_training st))).

(** [DatabaseManager.delete_kid] *)
Definition delete_kid (eng : engine) (st : store) (kid_id : Z)
    : bool * store :=
  match eng with
  | Failing => (false, st)
  | Healthy =>
      let history :=
        sql_delete_where KidsPaymentHistory.kid_id kid_id
          (kids_payment_history st) in
      let kids := sql_delete_where Kids.id kid_id (kids_training st) in
      (true, set_kids st kids history)
  end.

(** ** Message templates *)

(** The texts of [default_templates]. *)
Definition DEFAULT_PAYMENT_REMINDER : pystr :=
(lit "Hi {member_name}! "
  ++ [287; 376; 184; 10; 10]
  ++ lit "Your badminton court membership payment of "
  ++ [226; 8218; 185]
  ++ lit "{amount} is due on {due_date}. "
  ++ [10; 10]
  ++ lit "Please make the payment at your earliest convenience."
  ++ [10; 10]
  ++ lit "Thank you for being a valued member!"
  ++ [10; 10]
  ++ lit "Contact us: {phone}")%N.

Definition DEFAULT_OVERDUE_REMINDER : pystr :=
(lit "Dear {member_name},"
  ++ [10; 10]
  ++ lit "Your badminton court membership payment of "
  ++ [226; 8218; 185]
  ++ lit "{amount} is overdue by {overdue_days} days."
  ++ [10; 10]
  ++ lit "Please make the payment immediately to continue enjoying our facilities."
  ++ [10; 10]
  ++ lit "For any queries, contact us: {phone}"
  ++ [10; 10]
  ++ lit "Thank you!")%N.

Definition default_templates : list (pystr * pystr) :=
  [ (lit "payment_reminder", DEFAULT_PAYMENT_REMINDER);
    (lit "overdue_reminder", DEFAULT_OVERDUE_REMINDER) ].

(** [INSERT OR IGNORE INTO message_templates]: a type that is already there
    keeps its row. *)
Definition insert_or_ignore_template (rows : list MessageTemplates.row)
    (t : pystr * pystr) : list MessageTemplates.row :=
  if existsb (fun r => str_eqb (MessageTemplates.template_type r) (fst t))
       rows
  then rows
  else rows ++ [ {| MessageTemplates.template_type := fst t;
                    MessageTemplates.message_text := snd t |} ].

(** [DatabaseManager._insert_default_templates], the part of
    [init_database] that writes rows. *)
Definition _insert_default_templates (st : store) : store :=
  set_templates st
    (fold_left insert_or_ignore_template default_templates
       (message_templates st)).

(** [DatabaseManager.get_message_template] *)
Definition get_message_template (st : store) (template_type : pystr)
    : pystr :=
  match find (fun r => str_eqb (MessageTemplates.template_type r)
                         template_type) (message_templates st) with
  | Some row => MessageTemplates.message_text row
  | None => []
  end.



(** The default templates as pieces. *)
Definition text (s : pystr) : list piece := List.map PChar s.

Definition payment_reminder_pieces : list piece :=
  (text (lit "Hi ") ++ [PField (lit "member_name")]
   ++ text (lit "! " ++ [287; 376; 184; 10; 10]
            ++ lit "Your badminton court membership payment of "
            ++ [226; 8218; 185])
   ++ [PField (lit "amount")] ++ text (lit " is due on ")
   ++ [PField (lit "due_date")]
   ++ text (lit ". " ++ [10; 10]
            ++ lit "Please make the payment at your earliest convenience."
            ++ [10; 10] ++ lit "Thank you for being a valued member!"
            ++ [10; 10] ++ lit "Contact us: ")
   ++ [PField (lit "phone")])%N.

Definition overdue_reminder_pieces : list piece :=
  (text (lit "Dear ") ++ [PField (lit "member_name")]
   ++ text (lit "," ++ [10; 10]
            ++ lit "Your badminton court membership payment of "
            ++ [226; 8218; 185])
   ++ [PField (lit "amount")] ++ text (lit " is overdue by ")
   ++ [PField (lit "overdue_days")]
   ++ text (lit " days." ++ [10; 10]
            ++ lit "Please make the payment immediately to continue enjoying our facilities."
            ++ [10; 10] ++ lit "For any queries, contact us: ")
   ++ [PField (lit "phone")]
   ++ text ([10; 10] ++ lit "Thank you!"))%N.

(** ** Sessions *)

(** The keys of [st.session_state] the login uses; a time is a count of
    microseconds. *)
Module Session.
Record t := {
  authenticated : bool;
  username : option pystr;
  login_time : option Z
}.
End Session.

Inductive page_result :=
| Returns (value : bool) (session : Session.t)
| Reruns (session : Session.t)
| Fails (e : exn).

(** The session after [st.session_state.clear()]: every key is gone, and
    read with its default. *)
Definition cleared_session : Session.t :=
  {| Session.authenticated := false;
     Session.username := None;
     Session.login_time := None |}.

Definition SESSION_TIMEOUT : Z := 14400 * 1000000.

(** A value of the query string as the page reads it with
    [.get(key, default)[0]]: a string, of which [[0]] is the first
    character, or a list of strings, of which it is the first string. *)
Inductive query_value :=
| QStr (s : pystr)
| QList (l : list pystr).

(** ** The pages *)

(** The outcome of the registration form once submitted. *)
Inductive registration :=
| MissingFields
| InvalidPhone
| Registered
| RegistrationFailed.

(** The reminder dictionary passed to [format_message] as [member_data]. *)
Definition member_data_of (reminder : Reminder.t) : MemberData.t :=
  {| MemberData.payment_date := Some (Reminder.payment_date reminder);
     MemberData.membership_type := Some (Reminder.membership_type reminder);
     MemberData.member_name := Some (Reminder.member_name reminder);
     MemberData.amount := Some (Reminder.amount reminder) |}.

(** The two tabs of [show_send_reminders]. *)
Definition overdue_tab (pending_reminders : list Reminder.t)
    : list Reminder.t :=
  filter (fun r => Reminder.days_remaining r <? 0) pending_reminders.

Definition due_soon_tab (pending_reminders : list Reminder.t)
    : list Reminder.t :=
  filter (fun r => Reminder.days_remaining r >=? 0) pending_reminders.

Section Pages.

Variable unicode_decimal : N -> option N.
Variable str_float : float -> pystr.
Variable format_field_ext :
  kwargs -> pyvalue -> pystr -> option N -> pystr -> bool -> result pystr.
Variable strftime_dmy : date -> pystr.

(** [str.lower] of the interpreter. *)
Variable lower : pystr -> pystr.

(** The submitted branch of [show_member_registration]: the required
    fields, the phone check, the normalization and the insert. *)
Definition register_member (eng : engine) (st : store) (name phone : pystr)
    (email : pystr) (membership_type : pystr) (amount : float)
    (payment_date : date) (reminder_days : Z) (notes : pystr)
    : registration * store :=
  if match name with [] => true | _ => false end
     || match phone with [] => true | _ => false end
     || PrimFloat.eqb amount 0%float
  then (MissingFields, st)
  else if negb (validate_phone_number unicode_decimal phone) then
    (InvalidPhone, st)
  else
    let formatted_phone := format_phone_number unicode_decimal phone in
    let '(success, st') :=
      add_member eng st name formatted_phone (Some email) membership_type
        amount payment_date reminder_days (Some notes) in
    if success then (Registered, st') else (RegistrationFailed, st').

(** The link of one entry of a tab of [show_send_reminders]: the template
    of the tab is fetched and filled in, and the link built. *)
Definition whatsapp_link (st : store) (template_type : pystr)
    (reminder : Reminder.t) (now_default today : date) : result pystr :=
  let template := get_message_template st template_type in
  message <-
    format_message unicode_decimal str_float format_field_ext strftime_dmy
      template (member_data_of reminder) now_default today ;;
  send_whatsapp_url (Reminder.phone reminder) message.

(** [check_authentication].  [logout] is what [st.query_params] holds for
    the key of that name, if anything; [now] is the clock. *)
Definition check_authentication (logout : option query_value) (now : Z)
    (session : Session.t) : page_result :=
  match
    match logout with
    | None => Ok []
    | Some (QStr []) => Raise IndexError
    | Some (QStr (c :: _)) => Ok [c]
    | Some (QList []) => Raise IndexError
    | Some (QList (first :: _)) => Ok first
    end
  with
  | Raise e => Fails e
  | Ok first =>
      let logout_param := lower first in
      if str_eqb logout_param (lit "true") then Reruns cleared_session
      else if negb (Session.authenticated session) then
        Returns false session
      else
        match Session.login_time session with
        | Some login_time =>
            if now - login_time >? SESSION_TIMEOUT then
              Returns false
                {| Session.authenticated := false;
                   Session.username := None;
                   Session.login_time := None |}
            else Returns true session
        | None => Returns true session
        end
  end.

End Pages.

(** The submitted branch of [show_login].  [admin_username] and
    [admin_password] are the two environment variables, if set; [now] is
    the clock.  The session is returned as the run leaves it. *)
Definition show_login (admin_username admin_password : option pystr)
    (username password : pystr) (now : Z) (session : Session.t)
    : Session.t :=
  let admin_username :=
    match admin_username with
    | Some s => s
    | None => lit "admin"
    end in
  let admin_password :=
    match admin_password with
    | Some s => s
    | None => lit "kjbadminton2024"
    end in
  if str_eqb username admin_username && str_eqb password admin_password then
    {| Session.authenticated := true;
       Session.username := Some username;
       Session.login_time := Some now |}
  else session.

(** [logout] *)
Definition logout (session : Session.t) : page_result :=
  Reruns {| Session.authenticated := false;
            Session.username := None;
            Session.login_time := None |}.

(** [DatabaseManager.search_members] as [show_bulk_messaging] calls it, with
    the defaults of every parameter: no search term, every tier, by name. *)
Definition search_members (db : database) : list Members.row :=
  select_members_order_by_name db.

(** The signature [show_bulk_messaging] appends. *)
Definition ACADEMY_SIGNATURE : pystr :=
  ([10; 10] ++ lit "---" ++ [10] ++ lit "KJ Badminton Academy" ++ [10]
   ++ lit "Contact: +91-9876543210")%N.

(** What the submitted form of [show_bulk_messaging] shows. *)
Inductive bulk_result :=
| EnterMessage
| NoMembersFound
| BulkLinks (links : list (pystr * pystr))
| BulkFails (e : exn).

(** The loop over the members: the name and the link of each. *)
Fixpoint bulk_links (members : list Members.row) (final_message : pystr)
    : result (list (pystr * pystr)) :=
  match members with
  | [] => Ok []
  | member :: rest =>
      whatsapp_url <- send_whatsapp_url (Members.phone member) final_message ;;
      links <- bulk_links rest final_message ;;
      Ok ((Members.name member, whatsapp_url) :: links)
  end.

Definition show_bulk_messaging (db : database) (message_text : pystr)
    (include_signature : bool) : bulk_result :=
  match message_text with
  | [] => EnterMessage
  | _ =>
      let final_message :=
        if include_signature then message_text ++ ACADEMY_SIGNATURE
        else message_text in
      match search_members db with
      | [] => NoMembersFound
      | members =>
          match bulk_links members final_message with
          | Ok links => BulkLinks links
          | Raise e => BulkFails e
          end
      end
  end.

(** [str.lower] on ASCII, for the sample runs. *)
Definition sample_lower (s : pystr) : pystr :=
  List.map (fun c => if between (chr "A") (chr "Z") c then (c + 32)%N else c)
    s.

(** * Properties *)

(** ** Strings and dates *)

Lemma str_eqb_eq (a b : pystr) : str_eqb a b = true <-> a = b.
Proof.
  revert b; induction a as [|x a IH]; intros [|y b]; simpl;
    try (split; discriminate); [tauto|].
  rewrite andb_true_iff, N.eqb_eq, IH.
  split; [intros [-> ->]; reflexivity | intros H; inversion H; auto].
Qed.

Lemma str_eqb_refl (a : pystr) : str_eqb a a = true.
Proof. apply str_eqb_eq; reflexivity. Qed.


Lemma ymd2ord_max : ymd2ord 9999 12 31 = MAXORDINAL.
Proof. reflexivity. Qed.

Lemma ymd2ord_min : ymd2ord 1 1 1 = 1.
Proof. reflexivity. Qed.

Lemma in_range_valid (o : Z) : in_range o = true <-> valid o.
Proof.
  unfold in_range, valid. rewrite andb_true_iff, Z.ltb_lt, Z.leb_le. lia.
Qed.

Lemma add_days_ok (d : date) (n : Z) :
  in_range (d + n) = true -> add_days d n = Ok (d + n).
Proof. unfold add_days; intros ->; reflexivity. Qed.

Lemma add_days_inv (d : date) (n : Z) (r : date) :
  add_days d n = Ok r -> r = d + n /\ valid r.
Proof.
  unfold add_days. destruct (in_range (d + n)) eqn:E; [|discriminate].
  intros H; inversion H; subst. split; [reflexivity|].
  apply in_range_valid; exact E.
Qed.

Lemma add_days_valid (d : date) (n : Z) :
  valid d -> 0 <= n ->
  add_days d n =
    if d + n <=? MAXORDINAL then Ok (d + n) else Raise OverflowError.
Proof.
  intros [Hlo _] Hn. unfold add_days, in_range.
  replace (0 <? d + n) with true by (symmetry; apply Z.ltb_lt; lia).
  reflexivity.
Qed.

(** ** The due-date calculator *)

Lemma calculate_next_due_date_offset (d : date) (ty : pystr) :
  calculate_next_due_date d ty = add_days d (offset_for ty).
Proof.
  unfold calculate_next_due_date, offset_for.
  destruct (str_eqb ty (lit "Monthly Subscriber")) eqn:E.
  - apply str_eqb_eq in E; subst ty. reflexivity.
  - destruct (str_eqb ty (lit "Quarterly")); [reflexivity|].
    destruct (str_eqb ty (lit "Half Yearly")); [reflexivity|].
    destruct (str_eqb ty (lit "Annual")); reflexivity.
Qed.

Lemma offset_for_label (t : tier) : offset_for (tier_label t) = tier_offset t.
Proof. destruct t; reflexivity. Qed.

Lemma offset_for_unknown (ty : pystr) :
  (forall t, ty <> tier_label t) -> offset_for ty = 30.
Proof.
  intros H. unfold offset_for.
  destruct (str_eqb ty (lit "Quarterly")) eqn:E1;
    [apply str_eqb_eq in E1; exfalso; exact (H Quarterly E1)|].
  destruct (str_eqb ty (lit "Half Yearly")) eqn:E2;
    [apply str_eqb_eq in E2; exfalso; exact (H HalfYearly E2)|].
  destruct (str_eqb ty (lit "Annual")) eqn:E3;
    [apply str_eqb_eq in E3; exfalso; exact (H Annual E3)|].
  reflexivity.
Qed.

Lemma offset_for_bounds (ty : pystr) : 30 <= offset_for ty <= 365.
Proof.
  unfold offset_for.
  destruct (str_eqb ty (lit "Quarterly")); [lia|].
  destruct (str_eqb ty (lit "Half Yearly")); [lia|].
  destruct (str_eqb ty (lit "Annual")); lia.
Qed.

Lemma calculate_next_due_date_inv (d : date) (ty : pystr) (due : date) :
  calculate_next_due_date d ty = Ok due ->
  due = d + offset_for ty /\ valid due.
Proof. rewrite calculate_next_due_date_offset. apply add_days_inv. Qed.

(** C1, as stated, fails on the last representable dates: a Monthly payment
    dated 9999-12-31 has no due date, the date addition raises
    [OverflowError]. *)
Lemma calculate_next_due_date_overflows_at_max :
  mkdate 9999 12 31 = Ok MAXORDINAL
  /\ valid MAXORDINAL
  /\ calculate_next_due_date MAXORDINAL (tier_label Monthly)
     = Raise OverflowError.
Proof. repeat split; vm_compute; congruence. Qed.

(** C1 (amended): for every payment date [d] and tier, the calculator
    returns [d] plus 30, 90, 180 or 365 days for Monthly, Quarterly,
    HalfYearly or Annual, and [d] plus 30 days for any other tier string,
    whenever that day is no later than 9999-12-31; past it, and only then,
    the date addition raises [OverflowError]. *)
Theorem calculate_next_due_date_spec (d : date) :
  valid d ->
  (forall t : tier,
     calculate_next_due_date d (tier_label t) =
       if d + tier_offset t <=? MAXORDINAL then Ok (d + tier_offset t)
       else Raise OverflowError)
  /\ (forall ty : pystr,
        (forall t, ty <> tier_label t) ->
        calculate_next_due_date d ty =
          if d + 30 <=? MAXORDINAL then Ok (d + 30)
          else Raise OverflowError).
Proof.
  intros Hd. split.
  - intros t. rewrite calculate_next_due_date_offset, offset_for_label.
    apply add_days_valid; [exact Hd | destruct t; simpl; lia].
  - intros ty Hty.
    rewrite calculate_next_due_date_offset, (offset_for_unknown ty Hty).
    apply add_days_valid; [exact Hd | lia].
Qed.

(** The names the specification gives the tiers are not the stored labels:
    taken as tier strings they fall under the 30-day default. *)
Lemma calculate_next_due_date_unknown_label :
  calculate_next_due_date (ymd2ord 2024 1 1) (lit "HalfYearly")
  = Ok (ymd2ord 2024 1 31)
  /\ calculate_next_due_date (ymd2ord 2024 1 1) (lit "Half Yearly")
     = Ok (ymd2ord 2024 6 29).
Proof. split; reflexivity. Qed.

Lemma calculate_next_due_date_spec_witness :
  calculate_next_due_date (ymd2ord 2024 1 1) (tier_label Quarterly)
  = Ok (ymd2ord 2024 3 31).
Proof.
  assert (H : valid (ymd2ord 2024 1 1)) by (vm_compute; split; congruence).
  exact (proj1 (calculate_next_due_date_spec (ymd2ord 2024 1 1) H) Quarterly).
Defined.

(** ** Cascading delete *)

Lemma sql_select_delete {R : Type} (key : R -> Z) (v : Z) (rows : list R) :
  sql_select_where key v (sql_delete_where key v rows) = [].
Proof.
  unfold sql_select_where, sql_delete_where.
  induction rows as [|r rows IH]; simpl; [reflexivity|].
  destruct (key r =? v) eqn:E; simpl; [exact IH|].
  rewrite E. exact IH.
Qed.

Lemma sql_delete_where_In {R : Type} (key : R -> Z) (v : Z) (rows : list R)
    (r : R) :
  In r (sql_delete_where key v rows) <-> In r rows /\ key r <> v.
Proof.
  unfold sql_delete_where. rewrite filter_In, negb_true_iff, Z.eqb_neq.
  reflexivity.
Qed.

Lemma delete_member_healthy (eng : engine) (db db' : database) (member_id : Z) :
  delete_member eng db member_id = (true, db') ->
  db' = snd (delete_member Healthy db member_id).
Proof.
  destruct eng; simpl; intros H; inversion H; reflexivity.
Qed.

(** C8: after a delete that reports success, the queries for the payment
    history, the reminder log (and the check-ins) of that member return no
    row and the member row is gone; the rows of every other member are all
    still there. *)
Theorem delete_member_cascades (eng : engine) (db db' : database)
    (member_id : Z) :
  delete_member eng db member_id = (true, db') ->
  sql_select_where PaymentHistory.member_id member_id (payment_history db')
    = []
  /\ sql_select_where ReminderLogs.member_id member_id (reminder_logs db')
     = []
  /\ sql_select_where MemberCheckins.member_id member_id
       (member_checkins db') = []
  /\ sql_select_where Members.id member_id (members db') = []
  /\ (forall r, In r (payment_history db') <->
        In r (payment_history db) /\ PaymentHistory.member_id r <> member_id)
  /\ (forall r, In r (reminder_logs db') <->
        In r (reminder_logs db) /\ ReminderLogs.member_id r <> member_id)
  /\ (forall m, In m (members db') <->
        In m (members db) /\ Members.id m <> member_id).
Proof.
  intros H. apply delete_member_healthy in H. subst db'. simpl.
  split; [apply sql_select_delete|].
  split; [apply sql_select_delete|].
  split; [apply sql_select_delete|].
  split; [apply sql_select_delete|].
  split; [intros r; apply sql_delete_where_In|].
  split; intros r; apply sql_delete_where_In.
Qed.

Lemma delete_member_cascades_witness :
  sql_select_where PaymentHistory.member_id 1
    (payment_history (snd (delete_member Healthy sample_db 1))) = []
  /\ List.length (payment_history (snd (delete_member Healthy sample_db 1)))
     = 1%nat.
Proof.
  split.
  - exact (proj1 (delete_member_cascades Healthy sample_db
                    (snd (delete_member Healthy sample_db 1)) 1 eq_refl)).
  - reflexivity.
Defined.

(** A failing engine reports failure and leaves the store as it was. *)
Lemma delete_member_failing (db : database) (member_id : Z) :
  delete_member Failing db member_id = (false, db).
Proof. reflexivity. Qed.

(** ** Active subscriptions *)

Lemma active_row_iff (today : date) (m : Members.row) :
  active_row today m = true <->
  today <= Members.payment_date m + 30 <= MAXORDINAL.
Proof.
  unfold active_row, sqlite_date_plus, sql_where_ge.
  destruct (Members.payment_date m + 30 <=? MAXORDINAL) eqn:E.
  - apply Z.leb_le in E. rewrite Z.leb_le. lia.
  - apply Z.leb_gt in E. split; [discriminate | lia].
Qed.

Lemma active_row_window (today : date) (m : Members.row) :
  active_row today m
  = (today <=? Members.payment_date m + 30)
    && (Members.payment_date m + 30 <=? MAXORDINAL).
Proof.
  unfold active_row, sqlite_date_plus, sql_where_ge.
  destruct (Members.payment_date m + 30 <=? MAXORDINAL);
    [rewrite andb_true_r | rewrite andb_false_r]; reflexivity.
Qed.

(** C10: the active-subscriptions count keeps exactly the members whose
    payment date plus 30 days is a date on or after today; the membership
    tier plays no part, so a Quarterly, HalfYearly or Annual member more than
    30 days past the payment is not counted although the due date of the
    tier has not passed. *)
Theorem get_active_subscriptions_fixed_window (db : database) (today : date) :
  get_active_subscriptions db today
  = Z.of_nat
      (List.length
         (filter (fun m => (today <=? Members.payment_date m + 30)
                           && (Members.payment_date m + 30 <=? MAXORDINAL))
            (members db)))
  /\ (forall m,
        valid (Members.payment_date m) ->
        (active_row today m = true <->
         exists d30,
           add_days (Members.payment_date m) 30 = Ok d30 /\ today <= d30))
  /\ (forall m m',
        Members.payment_date m = Members.payment_date m' ->
        active_row today m = active_row today m')
  /\ (forall m t due,
        t <> Monthly ->
        Members.membership_type m = tier_label t ->
        calculate_next_due_date (Members.payment_date m)
          (Members.membership_type m) = Ok due ->
        Members.payment_date m + 30 < today <= due ->
        active_row today m = false /\ 0 <= days_between due today).
Proof.
  split.
  { unfold get_active_subscriptions. do 2 f_equal.
    apply filter_ext. intros m. apply active_row_window. }
  split.
  { intros m Hv. rewrite active_row_iff, (add_days_valid _ 30 Hv) by lia.
    destruct (Members.payment_date m + 30 <=? MAXORDINAL) eqn:E.
    - apply Z.leb_le in E. split.
      + intros H. exists (Members.payment_date m + 30). split; [reflexivity|lia].
      + intros [d30 [H1 H2]]. inversion H1; subst. lia.
    - apply Z.leb_gt in E. split; [lia|].
      intros [d30 [H1 _]]. discriminate. }
  split.
  - intros m m' E. unfold active_row. rewrite E. reflexivity.
  - intros m t due _ _ _ [Hlt Hle]. split.
    + destruct (active_row today m) eqn:E; [|reflexivity].
      apply active_row_iff in E. lia.
    + unfold days_between. lia.
Qed.

(** On 2024-03-01 the store holds a Quarterly member who paid on 2024-01-01:
    due on 2024-03-31, yet counted as not active. *)
Lemma get_active_subscriptions_fixed_window_witness :
  get_active_subscriptions sample_db (ymd2ord 2024 3 1) = 0
  /\ calculate_next_due_date (Members.payment_date sample_quarterly)
       (Members.membership_type sample_quarterly) = Ok (ymd2ord 2024 3 31)
  /\ active_row (ymd2ord 2024 3 1) sample_quarterly = false.
Proof.
  split; [reflexivity|]. split; [reflexivity|].
  refine (proj1 (proj2 (proj2 (proj2
    (get_active_subscriptions_fixed_window sample_db (ymd2ord 2024 3 1))))
    sample_quarterly Quarterly (ymd2ord 2024 3 31) _ eq_refl eq_refl _)).
  - discriminate.
  - vm_compute. split; [reflexivity | discriminate].
Defined.

(** ** Ordering by name *)

Lemma str_leb_total (a b : pystr) : str_leb a b = true \/ str_leb b a = true.
Proof.
  revert b; induction a as [|x a IH]; intros [|y b]; simpl; auto.
  destruct (N.ltb_spec x y), (N.ltb_spec y x), (N.eqb_spec x y),
    (N.eqb_spec y x); auto; try lia.
Qed.

Lemma str_leb_trans (a b c : pystr) :
  str_leb a b = true -> str_leb b c = true -> str_leb a c = true.
Proof.
  revert b c; induction a as [|x a IH]; intros [|y b] [|z c]; simpl; auto;
    try discriminate.
  destruct (N.ltb_spec x y), (N.ltb_spec y z), (N.ltb_spec x z),
    (N.eqb_spec x y), (N.eqb_spec y z), (N.eqb_spec x z);
    auto; try discriminate; try lia.
  apply IH.
Qed.

Lemma insert_by_name_In (r x : Members.row) (l : list Members.row) :
  In x (insert_by_name r l) <-> x = r \/ In x l.
Proof.
  induction l as [|y l IH]; simpl.
  - intuition congruence.
  - destruct (str_leb (Members.name r) (Members.name y)); simpl;
      rewrite ?IH; intuition congruence.
Qed.

Lemma insert_by_name_sorted (r : Members.row) (l : list Members.row) :
  StronglySorted row_le l -> StronglySorted row_le (insert_by_name r l).
Proof.
  induction 1 as [|y l Hs IH Hall]; simpl.
  - repeat constructor.
  - destruct (str_leb (Members.name r) (Members.name y)) eqn:E.
    + constructor; [constructor; assumption|].
      constructor; [exact E|].
      eapply Forall_impl; [|exact Hall].
      intros z Hz. unfold row_le in *. eapply str_leb_trans; eassumption.
    + constructor; [exact IH|].
      apply Forall_forall. intros z Hz.
      apply insert_by_name_In in Hz. destruct Hz as [-> | Hz].
      * unfold row_le.
        destruct (str_leb_total (Members.name r) (Members.name y)) as [H|H];
          [congruence | exact H].
      * rewrite Forall_forall in Hall. apply Hall, Hz.
Qed.

Lemma insert_by_name_perm (r : Members.row) (l : list Members.row) :
  Permutation (insert_by_name r l) (r :: l).
Proof.
  induction l as [|y l IH]; simpl; [apply Permutation_refl|].
  destruct (str_leb (Members.name r) (Members.name y));
    [apply Permutation_refl|].
  eapply perm_trans; [apply perm_skip, IH | apply perm_swap].
Qed.

Lemma select_members_perm (db : database) :
  Permutation (select_members_order_by_name db) (members db).
Proof.
  unfold select_members_order_by_name.
  induction (members db) as [|x l IH]; simpl; [constructor|].
  eapply perm_trans; [apply insert_by_name_perm | apply perm_skip, IH].
Qed.

Lemma select_members_In (db : database) (m : Members.row) :
  In m (select_members_order_by_name db) <-> In m (members db).
Proof.
  unfold select_members_order_by_name.
  induction (members db) as [|x l IH]; simpl; [tauto|].
  rewrite insert_by_name_In, IH. intuition congruence.
Qed.

Lemma select_members_sorted (db : database) :
  StronglySorted row_le (select_members_order_by_name db).
Proof.
  unfold select_members_order_by_name.
  induction (members db) as [|x l IH]; simpl; [constructor|].
  apply insert_by_name_sorted, IH.
Qed.

(** ** The reminder classifier *)

Lemma remind_ok (today : date) (m : Members.row) (due : date) :
  calculate_next_due_date (Members.payment_date m)
    (Members.membership_type m) = Ok due ->
  remind today m =
    Ok (if pending (due - today) (Members.reminder_days m)
        then Some (entry_of today m due) else None).
Proof.
  intros H. unfold remind. rewrite H. simpl.
  unfold pending, entry_of, days_between.
  destruct (due - today <? 0) eqn:E1; simpl; [reflexivity|].
  apply Z.ltb_ge in E1.
  replace (0 <=? due - today) with true by (symmetry; apply Z.leb_le; lia).
  simpl.
  destruct (due - today <=? Members.reminder_days m); reflexivity.
Qed.

Lemma remind_loop_spec (today : date) (rows : list Members.row) :
  Forall (fun m => exists due,
            calculate_next_due_date (Members.payment_date m)
              (Members.membership_type m) = Ok due) rows ->
  forall acc,
    remind_loop today rows acc
    = Ok (acc ++ flat_map (pending_entries today) rows).
Proof.
  induction 1 as [|m rows [due Hdue] _ IH]; intros acc; simpl.
  - rewrite app_nil_r. reflexivity.
  - rewrite (remind_ok today m due Hdue). simpl.
    unfold pending_entries at 1. rewrite Hdue.
    destruct (pending (due - today) (Members.reminder_days m)).
    + rewrite IH, <- app_assoc. reflexivity.
    + rewrite IH. reflexivity.
Qed.

Lemma pending_entries_In (today : date) (m : Members.row) (e : Reminder.t) :
  In e (pending_entries today m) <->
  exists due,
    calculate_next_due_date (Members.payment_date m)
      (Members.membership_type m) = Ok due
    /\ pending (due - today) (Members.reminder_days m) = true
    /\ e = entry_of today m due.
Proof.
  unfold pending_entries.
  destruct (calculate_next_due_date _ _) as [due|err].
  - destruct (pending (due - today) (Members.reminder_days m)) eqn:E; simpl.
    + split.
      * intros [<- | []]. exists due. auto.
      * intros [due' [H1 [_ ->]]]. inversion H1; subst. auto.
    + split; [tauto|]. intros [due' [H1 [H2 _]]].
      inversion H1; subst. congruence.
  - simpl. split; [tauto|]. intros [due' [H1 _]]. discriminate.
Qed.

Lemma pending_iff (dr lead : Z) :
  pending dr lead = true <-> dr < 0 \/ 0 <= dr <= lead.
Proof.
  unfold pending.
  rewrite orb_true_iff, andb_true_iff, Z.ltb_lt, !Z.leb_le. tauto.
Qed.

Lemma pending_entries_sorted (today : date) (rows : list Members.row) :
  StronglySorted row_le rows ->
  StronglySorted name_le (flat_map (pending_entries today) rows).
Proof.
  induction 1 as [|m rows Hs IH Hall]; simpl; [constructor|].
  unfold pending_entries at 1.
  destruct (calculate_next_due_date _ _) as [due|err]; simpl; [|exact IH].
  destruct (pending _ _); simpl; [|exact IH].
  constructor; [exact IH|].
  apply Forall_forall. intros e He.
  apply in_flat_map in He. destruct He as [m' [Hm' He]].
  apply pending_entries_In in He. destruct He as [due' [_ [_ ->]]].
  rewrite Forall_forall in Hall. exact (Hall m' Hm').
Qed.



(** Without a due date for some member there is no list at all: the
    [OverflowError] of the calculator leaves the classifier. *)
Lemma get_pending_reminders_overflow (m : Members.row) (today : date) :
  Members.payment_date m = MAXORDINAL ->
  get_pending_reminders (db_of_members [m]) today = Raise OverflowError.
Proof.
  intros H. unfold get_pending_reminders, db_of_members,
    select_members_order_by_name. cbn [members fold_right insert_by_name].
  cbn [remind_loop]. unfold remind.
  rewrite calculate_next_due_date_offset, H.
  pose proof (offset_for_bounds (Members.membership_type m)) as Hb.
  unfold add_days, in_range.
  replace (MAXORDINAL + offset_for (Members.membership_type m) <=? MAXORDINAL)
    with false by (symmetry; apply Z.leb_gt; lia).
  rewrite andb_false_r. reflexivity.
Qed.

(** C3, as stated, fails: for the member who paid on 2024-01-01 the
    classifier computes 11 days remaining on 2024-01-20 (30 days after
    2024-01-01 is 2024-01-31), not 10. *)
Lemma days_remaining_on_2024_01_20_is_not_10 :
  exists e,
    get_pending_reminders (db_of_members [sample_member]) (ymd2ord 2024 1 20)
    = Ok [e]
    /\ Members.payment_date sample_member = ymd2ord 2024 1 1
    /\ Members.membership_type sample_member = tier_label Monthly
    /\ Members.reminder_days sample_member = 30
    /\ (Reminder.days_remaining e =? 10) = false.
Proof.
  eexists. split; [vm_compute; reflexivity|]. repeat split.
Qed.

(** C3 (amended): for a member with payment date 2024-01-01, tier Monthly
    and 30 reminder days, evaluated on 2024-01-20, the classifier computes
    the due date 2024-01-31 and [days_remaining] = 11, and classifies the
    member as due soon (a payment reminder). *)
Theorem get_pending_reminders_2024_01_20 (id : Z) (name phone : pystr)
    (email notes : option pystr) (amount : float) :
  let m :=
    {| Members.id := id; Members.name := name; Members.phone := phone;
       Members.email := email;
       Members.membership_type := tier_label Monthly;
       Members.amount := amount;
       Members.payment_date := ymd2ord 2024 1 1;
       Members.reminder_days := 30;
       Members.notes := notes |} in
  let today := ymd2ord 2024 1 20 in
  mkdate 2024 1 1 = Ok (Members.payment_date m)
  /\ mkdate 2024 1 20 = Ok today
  /\ calculate_next_due_date (Members.payment_date m)
       (Members.membership_type m) = mkdate 2024 1 31
  /\ exists e,
       get_pending_reminders (db_of_members [m]) today = Ok [e]
       /\ e = entry_of today m (ymd2ord 2024 1 31)
       /\ Reminder.days_remaining e = 11
       /\ Reminder.reminder_type e = lit "payment_reminder"
       /\ 0 <= Reminder.days_remaining e <= Reminder.reminder_days e.
Proof.
  intros m today.
  split; [reflexivity|]. split; [reflexivity|]. split; [reflexivity|].
  eexists. split; [reflexivity|].
  split; [reflexivity|]. split; [reflexivity|]. split; [reflexivity|].
  simpl. lia.
Qed.

(** ** Phone numbers *)

Section PhoneProperties.

Variable ud : N -> option N.

Lemma strip_nondigits_all (s : pystr) :
  Forall (fun c => isdecimal ud c = true) (strip_nondigits ud s).
Proof.
  apply Forall_forall. intros c Hc. apply filter_In in Hc. tauto.
Qed.

Lemma strip_nondigits_id (s : pystr) :
  Forall (fun c => isdecimal ud c = true) s -> strip_nondigits ud s = s.
Proof.
  induction 1 as [|c s Hc _ IH]; simpl; [reflexivity|].
  unfold strip_nondigits in *. simpl. rewrite Hc, IH. reflexivity.
Qed.

Lemma strip_nondigits_idem (s : pystr) :
  strip_nondigits ud (strip_nondigits ud s) = strip_nondigits ud s.
Proof. apply strip_nondigits_id, strip_nondigits_all. Qed.

Lemma strip_nondigits_In (s : pystr) (c : N) :
  In c (strip_nondigits ud s) <-> In c s /\ isdecimal ud c = true.
Proof. apply filter_In. Qed.

Lemma len_cons (c : N) (s : pystr) : len (c :: s) = len s + 1.
Proof. unfold len. simpl List.length. lia. Qed.

Lemma len_nonneg (s : pystr) : 0 <= len s.
Proof. unfold len. lia. Qed.

(** The normalizer as a function of the digits that are left. *)
Lemma format_phone_number_digits (p : pystr) :
  format_phone_number ud p =
    let d := strip_nondigits ud p in
    if startswith d (lit "91") && (len d =? 12) then chr "+" :: d
    else if len d =? 10 then chr "+" :: chr "9" :: chr "1" :: d
    else if len d >? 10 then chr "+" :: d
    else d.
Proof. reflexivity. Qed.

(** C4: normalization strips every character that is not a digit; twelve
    digits starting with 91 get a [+]; exactly ten digits get [+91]; more
    than ten digits get a [+]; fewer than ten are returned as they are.  So
    9876543210 becomes +919876543210 and 12345 stays 12345. *)
Theorem format_phone_number_spec (p : pystr) :
  let digits := strip_nondigits ud p in
  Forall (fun c => isdecimal ud c = true) digits
  /\ (forall c, In c digits <-> In c p /\ isdecimal ud c = true)
  /\ (Forall (fun c => isdecimal ud c = true) p -> digits = p)
  /\ (startswith digits (lit "91") = true /\ len digits = 12 ->
      format_phone_number ud p = lit "+" ++ digits)
  /\ (len digits = 10 -> format_phone_number ud p = lit "+91" ++ digits)
  /\ (10 < len digits -> format_phone_number ud p = lit "+" ++ digits)
  /\ (len digits < 10 -> format_phone_number ud p = digits)
  /\ format_phone_number ud (lit "9876543210") = lit "+919876543210"
  /\ format_phone_number ud (lit "12345") = lit "12345".
Proof.
  intros digits.
  split; [apply strip_nondigits_all|].
  split; [intros c; apply strip_nondigits_In|].
  split; [apply strip_nondigits_id|].
  rewrite format_phone_number_digits. fold digits. cbv zeta.
  split; [intros [H1 H2]; rewrite H1, H2; reflexivity|].
  split.
  { intros H. rewrite H. rewrite andb_false_r. reflexivity. }
  split.
  { intros H.
    destruct (startswith digits (lit "91") && (len digits =? 12));
      [reflexivity|].
    replace (len digits =? 10) with false by (symmetry; apply Z.eqb_neq; lia).
    replace (len digits >? 10) with true
      by (symmetry; apply Z.gtb_lt; lia).
    reflexivity. }
  split.
  { intros H.
    replace (len digits =? 12) with false by (symmetry; apply Z.eqb_neq; lia).
    rewrite andb_false_r.
    replace (len digits =? 10) with false by (symmetry; apply Z.eqb_neq; lia).
    replace (len digits >? 10) with false.
    - reflexivity.
    - symmetry. rewrite Z.gtb_ltb. apply Z.ltb_ge. lia. }
  split; reflexivity.
Qed.

(** C5 (amended): validation accepts an input exactly when it has ten
    digits, or twelve digits starting with 91, or thirteen digits while the
    raw input starts with the literal +91.  So 9876543210 is valid and 12345
    is not. *)
Theorem validate_phone_number_spec (p : pystr) :
  (validate_phone_number ud p = true <->
   len (strip_nondigits ud p) = 10
   \/ (len (strip_nondigits ud p) = 12
       /\ startswith (strip_nondigits ud p) (lit "91") = true)
   \/ (len (strip_nondigits ud p) = 13 /\ startswith p (lit "+91") = true))
  /\ validate_phone_number ud (lit "9876543210") = true
  /\ validate_phone_number ud (lit "12345") = false.
Proof.
  split; [|split; reflexivity].
  unfold validate_phone_number. cbv zeta.
  destruct (len (strip_nondigits ud p) =? 10) eqn:E10.
  { apply Z.eqb_eq in E10. tauto. }
  apply Z.eqb_neq in E10.
  destruct (len (strip_nondigits ud p) =? 12) eqn:E12; cbn [andb].
  - apply Z.eqb_eq in E12.
    destruct (startswith (strip_nondigits ud p) (lit "91")) eqn:S91.
    + tauto.
    + replace (len (strip_nondigits ud p) =? 13) with false
        by (symmetry; apply Z.eqb_neq; lia).
      cbn [andb]. split; [discriminate|].
      intros [H | [[_ H] | [H _]]]; [lia | discriminate | lia].
  - apply Z.eqb_neq in E12.
    destruct (len (strip_nondigits ud p) =? 13) eqn:E13; cbn [andb].
    + apply Z.eqb_eq in E13.
      destruct (startswith p (lit "+91")) eqn:S.
      * tauto.
      * split; [discriminate|].
        intros [H | [[H _] | [_ H]]]; [lia | lia | discriminate].
    + apply Z.eqb_neq in E13. split; [discriminate|].
      intros [H | [[H _] | [H _]]]; lia.
Qed.

Lemma strip_nondigits_cons (c : N) (s : pystr) :
  strip_nondigits ud (c :: s) =
    if isdecimal ud c then c :: strip_nondigits ud s
    else strip_nondigits ud s.
Proof. reflexivity. Qed.

Lemma isdecimal_plus : isdecimal ud (chr "+") = false.
Proof. reflexivity. Qed.

Lemma isdecimal_9 : isdecimal ud (chr "9") = true.
Proof. reflexivity. Qed.

Lemma isdecimal_1 : isdecimal ud (chr "1") = true.
Proof. reflexivity. Qed.

Lemma startswith_91 (d : pystr) :
  startswith (chr "9" :: chr "1" :: d) (lit "91") = true.
Proof. reflexivity. Qed.

Lemma strip_plus_digits (d : pystr) :
  Forall (fun c => isdecimal ud c = true) d ->
  strip_nondigits ud (chr "+" :: d) = d.
Proof.
  intros H. rewrite strip_nondigits_cons, isdecimal_plus.
  apply strip_nondigits_id, H.
Qed.

Lemma strip_plus91_digits (d : pystr) :
  Forall (fun c => isdecimal ud c = true) d ->
  strip_nondigits ud (chr "+" :: chr "9" :: chr "1" :: d)
  = chr "9" :: chr "1" :: d.
Proof.
  intros H.
  rewrite !strip_nondigits_cons, isdecimal_plus, isdecimal_9, isdecimal_1.
  f_equal. f_equal. apply strip_nondigits_id, H.
Qed.

(** C9: normalizing a normalized phone number changes nothing. *)
Theorem format_phone_number_idempotent (p : pystr) :
  format_phone_number ud (format_phone_number ud p) = format_phone_number ud p.
Proof.
  rewrite (format_phone_number_digits p). cbv zeta.
  pose proof (strip_nondigits_all p) as Hd.
  set (d := strip_nondigits ud p) in *.
  destruct (startswith d (lit "91") && (len d =? 12)) eqn:A.
  - rewrite format_phone_number_digits. cbv zeta.
    rewrite (strip_plus_digits d Hd), A. reflexivity.
  - destruct (len d =? 10) eqn:B.
    + rewrite format_phone_number_digits. cbv zeta.
      rewrite (strip_plus91_digits d Hd).
      apply Z.eqb_eq in B.
      replace (len (chr "9" :: chr "1" :: d) =? 12) with true
        by (symmetry; apply Z.eqb_eq; rewrite !len_cons; lia).
      rewrite startswith_91. reflexivity.
    + destruct (len d >? 10) eqn:C.
      * rewrite format_phone_number_digits. cbv zeta.
        rewrite (strip_plus_digits d Hd), A, B, C. reflexivity.
      * rewrite format_phone_number_digits. cbv zeta.
        rewrite (strip_nondigits_id d Hd), A, B, C. reflexivity.
Qed.

End PhoneProperties.

(** C5, as stated, fails in both directions: +91 followed by eleven digits
    has fourteen characters and is accepted, and thirteen characters that
    start with +91 but hold only two digits are rejected. *)
Lemma validate_phone_number_counts_digits :
  validate_phone_number sample_unicode_decimal (lit "+9198765432101") = true
  /\ spec_validate sample_unicode_decimal (lit "+9198765432101") = false
  /\ validate_phone_number sample_unicode_decimal (lit "+91abcdefghij")
     = false
  /\ spec_validate sample_unicode_decimal (lit "+91abcdefghij") = true.
Proof. repeat split. Qed.

(** ** The link generator *)

Lemma remove_char_filter (phone : pystr) :
  remove_char (chr "-") (remove_char (chr " ") (remove_char (chr "+") phone))
  = filter (fun c => negb (phone_separator c)) phone.
Proof.
  unfold remove_char, phone_separator.
  induction phone as [|c s IH]; [reflexivity|].
  cbn [filter].
  destruct (N.eqb c (chr "+")); cbn [filter negb orb]; [exact IH|].
  destruct (N.eqb c (chr " ")); cbn [filter negb orb]; [exact IH|].
  destruct (N.eqb c (chr "-")); cbn [filter negb orb]; [exact IH|].
  rewrite IH. reflexivity.
Qed.

Lemma lor_lt_256 (a b : N) :
  (a < 256 -> b < 256 -> N.lor a b < 256)%N.
Proof.
  intros Ha Hb.
  destruct (N.eq_dec (N.lor a b) 0) as [E|E]; [rewrite E; lia|].
  change 256%N with (2 ^ 8)%N.
  apply N.log2_lt_pow2; [lia|].
  rewrite N.log2_lor.
  assert (La : (N.log2 a < 8)%N).
  { destruct (N.eq_dec a 0) as [->|Na]; [vm_compute; reflexivity|].
    apply N.log2_lt_pow2; [lia | exact Ha]. }
  assert (Lb : (N.log2 b < 8)%N).
  { destruct (N.eq_dec b 0) as [->|Nb]; [vm_compute; reflexivity|].
    apply N.log2_lt_pow2; [lia | exact Hb]. }
  lia.
Qed.

Lemma land_63_lt (x : N) : (N.land x 63 < 64)%N.
Proof.
  destruct (N.eq_dec (N.land x 63) 0) as [E|E]; [rewrite E; lia|].
  change 64%N with (2 ^ 6)%N.
  apply N.log2_lt_pow2; [lia|].
  pose proof (N.log2_land x 63) as H.
  change (N.log2 63) with 5%N in H. lia.
Qed.

Lemma shiftr_lt (c k bound : N) :
  (c < bound * 2 ^ k -> N.shiftr c k < bound)%N.
Proof.
  intros H. rewrite N.shiftr_div_pow2.
  apply N.Div0.div_lt_upper_bound. lia.
Qed.

Lemma cont_byte_lt (x : N) : (N.lor 128 (N.land x 63) < 256)%N.
Proof. apply lor_lt_256; [lia|]. pose proof (land_63_lt x). lia. Qed.

Local Opaque N.lor N.land N.shiftr.

Lemma utf8_char_bytes (c : N) (bs : list N) :
  utf8_char c = Ok bs -> Forall (fun b => (b < 256)%N) bs.
Proof.
  unfold utf8_char.
  destruct (N.ltb_spec c 128).
  { intros [= <-]. repeat constructor. lia. }
  destruct (N.ltb_spec c 2048).
  { intros [= <-].
    repeat constructor; [|apply cont_byte_lt].
    apply lor_lt_256; [lia|].
    assert (N.shiftr c 6 < 32)%N by (apply shiftr_lt; simpl; lia). lia. }
  destruct (N.ltb_spec c 65536).
  { destruct ((55296 <=? c)%N && (c <=? 57343)%N); [discriminate|].
    intros [= <-].
    repeat constructor; try apply cont_byte_lt.
    apply lor_lt_256; [lia|].
    assert (N.shiftr c 12 < 16)%N by (apply shiftr_lt; simpl; lia). lia. }
  destruct (N.ltb_spec c 1114112); [|discriminate].
  intros [= <-].
  repeat constructor; try apply cont_byte_lt.
  apply lor_lt_256; [lia|].
  assert (N.shiftr c 18 < 5)%N by (apply shiftr_lt; simpl; lia). lia.
Qed.

Local Transparent N.lor N.land N.shiftr.

Lemma utf8_encode_bytes (s : pystr) (bs : list N) :
  utf8_encode s = Ok bs -> Forall (fun b => (b < 256)%N) bs.
Proof.
  revert bs; induction s as [|c s IH]; simpl; intros bs.
  - intros E; inversion E; constructor.
  - destruct (utf8_char c) as [b|e] eqn:Ec; simpl; [|discriminate].
    destruct (utf8_encode s) as [bs'|e] eqn:Es; simpl; [|discriminate].
    intros E; inversion E; subst.
    apply Forall_app. split; [eapply utf8_char_bytes; eassumption|].
    apply IH; reflexivity.
Qed.

Lemma utf8_encode_error (s : pystr) (e : exn) :
  utf8_encode s = Raise e -> e = UnicodeEncodeError.
Proof.
  induction s as [|c s IH]; simpl; [discriminate|].
  destruct (utf8_char c) as [b|e'] eqn:Ec; simpl.
  - destruct (utf8_encode s) as [bs'|e'']; simpl; [discriminate|].
    intros E; inversion E; subst. apply IH; reflexivity.
  - intros E; inversion E; subst. revert Ec. unfold utf8_char.
    repeat match goal with
           | |- context [if ?b then _ else _] => destruct b
           end; congruence.
Qed.

Lemma utf8_encode_ascii (s : pystr) :
  Forall (fun c => (c < 128)%N) s -> utf8_encode s = Ok s.
Proof.
  induction 1 as [|c s Hc _ IH]; simpl; [reflexivity|].
  unfold utf8_char.
  replace (c <? 128)%N with true by (symmetry; apply N.ltb_lt; exact Hc).
  simpl. rewrite IH. reflexivity.
Qed.

Lemma byte_cases (P : N -> bool) :
  forallb P (List.map N.of_nat (seq 0 256)) = true ->
  forall b, (b < 256)%N -> P b = true.
Proof.
  intros H b Hb. rewrite forallb_forall in H. apply H.
  rewrite <- (N2Nat.id b). apply in_map, in_seq. lia.
Qed.

Lemma quote_byte_decodes_all (b : N) :
  (b < 256)%N -> quote_byte_decodes b = true.
Proof. apply byte_cases. vm_compute. reflexivity. Qed.

Lemma quote_byte_url_chars (b : N) :
  (b < 256)%N -> forallb url_char (quote_byte b) = true.
Proof.
  apply (byte_cases (fun b => forallb url_char (quote_byte b))).
  vm_compute. reflexivity.
Qed.

Lemma unquote_quote_byte (b : N) (rest : pystr) :
  (b < 256)%N ->
  unquote_to_bytes (quote_byte b ++ rest) = b :: unquote_to_bytes rest.
Proof.
  intros Hb. pose proof (quote_byte_decodes_all b Hb) as H.
  unfold quote_byte_decodes in H.
  destruct (quote_byte b) as [|c [|h [|l [|x q]]]]; try discriminate.
  - apply andb_true_iff in H. destruct H as [H1 H2].
    apply N.eqb_eq in H1. subst c. apply negb_true_iff in H2.
    cbn [app unquote_to_bytes]. rewrite H2. reflexivity.
  - apply andb_true_iff in H. destruct H as [H1 H2].
    apply N.eqb_eq in H1. subst c.
    cbn [app unquote_to_bytes]. rewrite N.eqb_refl.
    destruct (unhex h) as [x|]; [|discriminate].
    destruct (unhex l) as [y|]; [|discriminate].
    apply N.eqb_eq in H2. rewrite H2. reflexivity.
Qed.

Lemma unquote_quote_from_bytes (bs : list N) :
  Forall (fun b => (b < 256)%N) bs ->
  unquote_to_bytes (quote_from_bytes bs) = bs.
Proof.
  unfold quote_from_bytes.
  induction 1 as [|b bs Hb _ IH]; simpl; [reflexivity|].
  rewrite (unquote_quote_byte b _ Hb), IH. reflexivity.
Qed.

Lemma quote_from_bytes_url_chars (bs : list N) :
  Forall (fun b => (b < 256)%N) bs ->
  Forall (fun c => url_char c = true) (quote_from_bytes bs).
Proof.
  unfold quote_from_bytes.
  induction 1 as [|b bs Hb _ IH]; simpl; [constructor|].
  apply Forall_app. split; [|exact IH].
  apply Forall_forall. apply forallb_forall. apply quote_byte_url_chars, Hb.
Qed.

(** C6, as stated, fails: only [+], space and [-] are taken out of the
    phone number, so other formatting characters reach the link and its
    number part is not made of digits only. *)
Lemma send_whatsapp_url_keeps_parentheses :
  send_whatsapp_url (lit "(98765) 43210") (lit "Hi Asha!")
  = Ok (lit "https://wa.me/" ++ lit "(98765)43210" ++ lit "?text="
          ++ lit "Hi%20Asha%21")
  /\ forallb ascii_digit (lit "(98765)43210") = false.
Proof. split; reflexivity. Qed.

(** C6 (amended): the link is [https://wa.me/], then the phone number with
    every [+], space and [-] removed and every other character kept in
    place (so that part holds none of the three, and holds digits only when
    the phone number is made of digits and those three), then [?text=], then
    the UTF-8 bytes of the message percent-encoded: letters, digits,
    [_.-~] and [/] as they are, any other byte as [%XX], which decodes back
    to the bytes.  A message with a lone surrogate cannot be encoded and
    raises [UnicodeEncodeError].  The result is a value computed from the
    two arguments alone. *)
Theorem send_whatsapp_url_spec (phone message : pystr) :
  let formatted_phone := filter (fun c => negb (phone_separator c)) phone in
  (forall c, In c formatted_phone <->
     In c phone /\ c <> chr "+" /\ c <> chr " " /\ c <> chr "-")
  /\ (Forall (fun c => ascii_digit c = true \/ phone_separator c = true)
        phone ->
      Forall (fun c => ascii_digit c = true) formatted_phone)
  /\ (Forall (fun c => (c < 128)%N) message -> utf8_encode message = Ok message)
  /\ match utf8_encode message with
     | Ok bytes =>
         send_whatsapp_url phone message
         = Ok (lit "https://wa.me/" ++ formatted_phone ++ lit "?text="
                 ++ quote_from_bytes bytes)
         /\ unquote_to_bytes (quote_from_bytes bytes) = bytes
         /\ Forall (fun c => url_char c = true) (quote_from_bytes bytes)
     | Raise _ => send_whatsapp_url phone message = Raise UnicodeEncodeError
     end.
Proof.
  intros formatted_phone. split; [|split; [|split]].
  - intros c. unfold formatted_phone, phone_separator.
    rewrite filter_In, negb_true_iff, !orb_false_iff, !N.eqb_neq. tauto.
  - intros H. apply Forall_forall. intros c Hc.
    apply filter_In in Hc. destruct Hc as [Hc Hs].
    rewrite Forall_forall in H. destruct (H c Hc) as [D|S]; [exact D|].
    rewrite S in Hs. discriminate.
  - apply utf8_encode_ascii.
  - unfold send_whatsapp_url, quote. rewrite remove_char_filter.
    fold formatted_phone.
    destruct (utf8_encode message) as [bytes|e] eqn:E; simpl.
    + pose proof (utf8_encode_bytes message bytes E) as Hb.
      split; [reflexivity|].
      split; [apply unquote_quote_from_bytes, Hb
             | apply quote_from_bytes_url_chars, Hb].
    + rewrite (utf8_encode_error message e E). reflexivity.
Qed.

(** ** The format-string scanner on plain templates *)

Lemma name_char_tests (c : N) :
  name_char c = true ->
  N.eqb c (chr "{") = false /\ N.eqb c (chr "}") = false
  /\ N.eqb c (chr "[") = false /\ N.eqb c (chr ":") = false
  /\ N.eqb c (chr "!") = false /\ N.eqb c (chr ".") = false.
Proof.
  unfold name_char. rewrite negb_true_iff, !orb_false_iff. tauto.
Qed.

Lemma markup_name_step (c : N) (acc s : pystr) :
  name_char c = true ->
  markup (Name acc) (c :: s) = markup (Name (c :: acc)) s.
Proof.
  intros H. destruct (name_char_tests c H) as [H1 [H2 [H3 [H4 [H5 _]]]]].
  cbn [markup]. rewrite H1, H3, H2, H4, H5. reflexivity.
Qed.

Lemma markup_name (n : pystr) :
  forallb name_char n = true ->
  forall acc rest,
    markup (Name acc) (n ++ chr "}" :: rest)
    = emit (Field (plain (rev acc ++ n))) (markup (Text []) rest).
Proof.
  induction n as [|c n IH]; intros H acc rest.
  - rewrite app_nil_r. reflexivity.
  - cbn [forallb] in H. apply andb_true_iff in H. destruct H as [Hc Hn].
    cbn [app]. rewrite (markup_name_step c acc _ Hc), (IH Hn).
    cbn [rev]. rewrite <- app_assoc. reflexivity.
Qed.

Lemma template_of_cons (p : piece) (ps : list piece) :
  template_of (p :: ps) = piece_text p ++ template_of ps.
Proof. reflexivity. Qed.

Lemma markup_plain (ps : list piece) :
  forallb plain_piece ps = true ->
  forall l, markup (Text l) (template_of ps) = (chunks_of l ps, None).
Proof.
  induction ps as [|p ps IH]; intros H l; [reflexivity|].
  cbn [forallb] in H. apply andb_true_iff in H. destruct H as [Hp Hps].
  rewrite template_of_cons.
  destruct p as [c| | |n]; cbn [piece_text chunks_of].
  - cbn [plain_piece] in Hp. apply andb_true_iff in Hp.
    destruct Hp as [H1 H2]. apply negb_true_iff in H1, H2.
    cbn [app markup]. rewrite H1, H2. apply IH, Hps.
  - transitivity (markup (Text (chr "{" :: l)) (template_of ps));
      [reflexivity | apply IH, Hps].
  - transitivity (markup (Text (chr "}" :: l)) (template_of ps));
      [reflexivity | apply IH, Hps].
  - cbn [plain_piece] in Hp.
    transitivity (emit (Literal (rev l))
                    (markup (Name []) (n ++ chr "}" :: template_of ps))).
    + cbn [app]. rewrite <- app_assoc. cbn [app].
      destruct n as [|c0 n'].
      * reflexivity.
      * cbn [forallb] in Hp. apply andb_true_iff in Hp.
        destruct Hp as [Hc _].
        destruct (name_char_tests c0 Hc) as [H1 _].
        cbn [app markup]. rewrite N.eqb_refl, H1. reflexivity.
    + rewrite (markup_name n Hp), (IH Hps). reflexivity.
Qed.

Lemma split_first_plain (n : pystr) :
  forallb name_char n = true -> split_first n = (n, []).
Proof.
  induction n as [|c n IH]; intros H; [reflexivity|].
  cbn [forallb] in H. apply andb_true_iff in H. destruct H as [Hc Hn].
  destruct (name_char_tests c Hc) as [_ [_ [H3 [_ [_ H6]]]]].
  cbn [split_first]. rewrite H3, H6, (IH Hn). reflexivity.
Qed.

Lemma kwargs_get_In (k : pystr) (kw : kwargs) (v : pyvalue) :
  kwargs_get k kw = Some v -> In (k, v) kw.
Proof.
  induction kw as [|[k' v'] kw IH]; cbn [kwargs_get]; [discriminate|].
  destruct (str_eqb k' k) eqn:E.
  - apply str_eqb_eq in E. intros [= <-]. subst. left. reflexivity.
  - intros H. right. apply IH, H.
Qed.

Section FormatProperties.

Variable ud : N -> option N.
Variable str_float : float -> pystr.
Variable format_field_ext :
  kwargs -> pyvalue -> pystr -> option N -> pystr -> bool -> result pystr.
Variable strftime_dmy : date -> pystr.

Lemma get_integer_from_error (s : pystr) :
  forall acc e, get_integer_from ud acc s = Some (Raise e) -> e = ValueError.
Proof.
  induction s as [|c s IH]; intros acc e; cbn [get_integer_from];
    [discriminate|].
  destruct (todecimal ud c) as [d|]; [|discriminate].
  destruct ((PY_SSIZE_T_MAX - d) / 10 <? acc)%N; [congruence | apply IH].
Qed.

Lemma get_integer_error (s : pystr) (e : exn) :
  get_integer ud s = Some (Raise e) -> e = ValueError.
Proof.
  destruct s; [discriminate|]. apply get_integer_from_error.
Qed.

Lemma render_field_plain (kw : kwargs) (n : pystr) :
  forallb name_char n = true ->
  render_field ud str_float format_field_ext kw (plain n) =
    match get_integer ud n with
    | Some (Raise e) => Raise e
    | Some (Ok _) => Raise IndexError
    | None =>
        match n with
        | [] => Raise IndexError
        | _ =>
            match kwargs_get n kw with
            | None => Raise (KeyError n)
            | Some obj => Ok (py_str str_float obj)
            end
        end
    end.
Proof.
  intros H. unfold render_field. cbn [field_name plain].
  rewrite (split_first_plain n H). reflexivity.
Qed.

Lemma passed_cases (n : pystr) :
  passed n = true ->
  n = lit "member_name" \/ n = lit "amount" \/ n = lit "due_date"
  \/ n = lit "membership_type" \/ n = lit "overdue_days"
  \/ n = lit "court_name" \/ n = lit "phone".
Proof.
  unfold passed, passed_names. cbn [existsb].
  rewrite !orb_true_iff, !str_eqb_eq.
  intuition (try discriminate; auto).
Qed.

Lemma passed_keyword (n : pystr) :
  passed n = true -> get_integer ud n = None /\ n <> [].
Proof.
  intros H.
  destruct (passed_cases n H) as [->|[->|[->|[->|[->|[->| ->]]]]]];
    split; solve [reflexivity | discriminate].
Qed.

Lemma kwargs_get_passed (md : MemberData.t) (due today : date) (n : pystr) :
  kwargs_get n (message_kwargs strftime_dmy md due today)
  = if passed n
    then kwargs_get n (message_kwargs strftime_dmy md due today)
    else None.
Proof.
  destruct (passed n) eqn:E; [reflexivity|].
  unfold passed, passed_names in E. cbn [existsb] in E.
  rewrite !orb_false_iff in E.
  destruct E as [E1 [E2 [E3 [E4 [E5 [E6 [E7 _]]]]]]].
  unfold message_kwargs. cbn [kwargs_get].
  rewrite E1, E2, E3, E4, E5, E6, E7. reflexivity.
Qed.

Lemma kwargs_get_passed_some (md : MemberData.t) (due today : date)
    (n : pystr) :
  passed n = true ->
  exists v, kwargs_get n (message_kwargs strftime_dmy md due today) = Some v.
Proof.
  intros H.
  destruct (passed_cases n H) as [->|[->|[->|[->|[->|[->| ->]]]]]];
    eexists; reflexivity.
Qed.

Lemma render_field_message (md : MemberData.t) (due today : date)
    (n : pystr) :
  forallb name_char n = true ->
  let kw := message_kwargs strftime_dmy md due today in
  (passed n = true ->
   exists v, kwargs_get n kw = Some v
             /\ render_field ud str_float format_field_ext kw (plain n)
                = Ok (py_str str_float v))
  /\ (passed n = false ->
      exists e, render_field ud str_float format_field_ext kw (plain n)
                = Raise e
                /\ (e = IndexError \/ e = ValueError \/ e = KeyError n)).
Proof.
  intros Hn kw. rewrite (render_field_plain kw n Hn). split; intros Hp.
  - destruct (passed_keyword n Hp) as [Hi Hne].
    destruct (kwargs_get_passed_some md due today n Hp) as [v Hv].
    exists v. split; [exact Hv|]. rewrite Hi. fold kw in Hv. rewrite Hv.
    destruct n; [congruence | reflexivity].
  - destruct (get_integer ud n) as [[k|e]|] eqn:Hi.
    + exists IndexError. auto.
    + exists e. split; [reflexivity|]. right. left.
      apply (get_integer_error n e Hi).
    + destruct n as [|c n']; [exists IndexError; auto|].
      unfold kw. rewrite kwargs_get_passed, Hp.
      exists (KeyError (c :: n')). auto.
Qed.

Lemma render_chunks_plain (md : MemberData.t) (due today : date)
    (ps : list piece) :
  forallb plain_piece ps = true ->
  let kw := message_kwargs strftime_dmy md due today in
  forall l,
    (forallb passed (piece_names ps) = true ->
     render_chunks ud str_float format_field_ext kw (chunks_of l ps)
     = Ok (rev l ++ substitute str_float kw ps))
    /\ (forallb passed (piece_names ps) = false ->
        exists e,
          render_chunks ud str_float format_field_ext kw (chunks_of l ps)
          = Raise e
          /\ format_error (piece_names ps) e).
Proof.
  intros H kw. induction ps as [|p ps IH]; intros l.
  - split; [|discriminate]. intros _. cbn. rewrite app_nil_r. reflexivity.
  - cbn [forallb] in H. apply andb_true_iff in H. destruct H as [Hp Hps].
    specialize (IH Hps).
    destruct p as [c| | |n]; cbn [chunks_of substitute piece_names flat_map app].
    + destruct (IH (c :: l)) as [IH1 IH2]. split.
      * intros Hall. rewrite (IH1 Hall). cbn [rev].
        rewrite <- app_assoc. reflexivity.
      * exact IH2.
    + destruct (IH (chr "{" :: l)) as [IH1 IH2]. split.
      * intros Hall. rewrite (IH1 Hall). cbn [rev].
        rewrite <- app_assoc. reflexivity.
      * exact IH2.
    + destruct (IH (chr "}" :: l)) as [IH1 IH2]. split.
      * intros Hall. rewrite (IH1 Hall). cbn [rev].
        rewrite <- app_assoc. reflexivity.
      * exact IH2.
    + cbn [plain_piece] in Hp.
      destruct (render_field_message md due today n Hp) as [F1 F2].
      fold kw in F1, F2.
      destruct (IH []) as [IH1 IH2].
      cbn [forallb render_chunks]. split.
      * intros Hall. apply andb_true_iff in Hall. destruct Hall as [Hn Hall].
        destruct (F1 Hn) as [v [Hv Hr]].
        rewrite Hr, (IH1 Hall), Hv. reflexivity.
      * intros Hall. destruct (passed n) eqn:Hn.
        -- destruct (F1 eq_refl) as [v [Hv Hr]]. cbn [andb] in Hall.
           destruct (IH2 Hall) as [e [He Hf]].
           exists e. rewrite Hr, He. split; [reflexivity|].
           destruct Hf as [Hf|[Hf|[k [Hk [Hin Hpk]]]]].
           ++ left. exact Hf.
           ++ right. left. exact Hf.
           ++ right. right. exists k. split; [exact Hk|].
              split; [right; exact Hin | exact Hpk].
        -- destruct (F2 eq_refl) as [e [Hr He]].
           exists e. rewrite Hr. split; [reflexivity|].
           destruct He as [He|[He|He]].
           ++ left. exact He.
           ++ right. left. exact He.
           ++ right. right. exists n. split; [exact He|].
              split; [left; reflexivity | exact Hn].
Qed.

Lemma substitute_no_brace (kw : kwargs) (ps : list piece) :
  forallb plain_piece ps = true ->
  existsb escape ps = false ->
  (forall k v, kwargs_get k kw = Some v ->
               no_brace (py_str str_float v) = true) ->
  no_brace (substitute str_float kw ps) = true.
Proof.
  intros H He Hv. induction ps as [|p ps IH]; [reflexivity|].
  cbn [forallb] in H. apply andb_true_iff in H. destruct H as [Hp Hps].
  cbn [existsb] in He. apply orb_false_iff in He. destruct He as [Hpe Hese].
  specialize (IH Hps Hese).
  destruct p as [c| | |n]; cbn [substitute]; try discriminate.
  - unfold no_brace in *. cbn [forallb]. rewrite IH, andb_true_r.
    cbn [plain_piece] in Hp. unfold brace.
    apply andb_true_iff in Hp. destruct Hp as [H1 H2].
    apply negb_true_iff in H1, H2. rewrite H1, H2. reflexivity.
  - destruct (kwargs_get n kw) as [v|] eqn:E; [|exact IH].
    unfold no_brace in *. rewrite forallb_app, IH, andb_true_r.
    apply (Hv n v E).
Qed.

Lemma format_message_due_date (template : pystr) (md : MemberData.t)
    (now_default today : date) :
  format_message ud str_float format_field_ext strftime_dmy template md
    now_default today
  = (due <- calculate_next_due_date (member_payment_date md now_default)
              (member_membership_type md) ;;
     str_format ud str_float format_field_ext template
       (message_kwargs strftime_dmy md due today)).
Proof. reflexivity. Qed.

(** C7 (amended): for every member record whose due date can be computed,
    and every template made of text without braces, doubled braces and
    placeholders [{name}]: formatting succeeds when every name is one of
    the seven keyword arguments the formatter passes (member_name, amount,
    due_date, membership_type, overdue_days, court_name, phone), and then
    yields the text of the template with each placeholder replaced by the
    text of its value, which holds no brace at all when the template has no
    doubled brace and the values have none; when some name is not one of
    the seven, formatting fails with a formatting error: [KeyError] for a
    name that is not passed, [IndexError] or [ValueError] for an empty or
    numbered one. *)
Theorem format_message_plain_template (md : MemberData.t)
    (now_default today due : date) (ps : list piece) :
  forallb plain_piece ps = true ->
  calculate_next_due_date (member_payment_date md now_default)
    (member_membership_type md) = Ok due ->
  let kw := message_kwargs strftime_dmy md due today in
  let formatted :=
    format_message ud str_float format_field_ext strftime_dmy
      (template_of ps) md now_default today in
  (forallb passed (piece_names ps) = true ->
   formatted = Ok (substitute str_float kw ps)
   /\ (existsb escape ps = false ->
       (forall k v, kwargs_get k kw = Some v ->
                    no_brace (py_str str_float v) = true) ->
       no_brace (substitute str_float kw ps) = true))
  /\ (forallb passed (piece_names ps) = false ->
      exists e, formatted = Raise e /\ format_error (piece_names ps) e).
Proof.
  intros Hplain Hdue kw formatted. unfold formatted.
  rewrite format_message_due_date, Hdue. cbn [bind]. fold kw.
  unfold str_format. rewrite (markup_plain ps Hplain []).
  destruct (render_chunks_plain md due today ps Hplain []) as [R1 R2].
  fold kw in R1, R2. split.
  - intros Hall. rewrite (R1 Hall). split; [reflexivity|].
    intros He Hv. apply substitute_no_brace; assumption.
  - intros Hall. destruct (R2 Hall) as [e [He Hf]].
    exists e. rewrite He. split; [reflexivity | exact Hf].
Qed.

(** Whatever the template, a due date past 9999-12-31 stops the formatter
    first. *)
Lemma format_message_overflow (template : pystr) (md : MemberData.t)
    (now_default today : date) (e : exn) :
  calculate_next_due_date (member_payment_date md now_default)
    (member_membership_type md) = Raise e ->
  format_message ud str_float format_field_ext strftime_dmy template md
    now_default today = Raise e.
Proof. intros H. rewrite format_message_due_date, H. reflexivity. Qed.

End FormatProperties.

(** C7, as stated, fails: the formatter also passes [court_name] and
    [membership_type], so a template that uses them, outside the listed
    five, is formatted; a template that names only [member_name] but leaves
    the brace open fails; and doubled braces around a name come out as a
    brace-enclosed token. *)
Lemma format_message_beyond_listed_placeholders :
  format_message sample_unicode_decimal sample_str_float
    sample_format_field_ext sample_strftime_dmy
    (lit "{court_name}: {membership_type}") sample_member_data
    (ymd2ord 2024 1 20) (ymd2ord 2024 1 20)
  = Ok (lit "KJ Badminton Academy: Monthly Subscriber")
  /\ existsb (str_eqb (lit "court_name")) spec_placeholders = false
  /\ existsb (str_eqb (lit "membership_type")) spec_placeholders = false
  /\ format_message sample_unicode_decimal sample_str_float
       sample_format_field_ext sample_strftime_dmy
       (lit "Dear {member_name") sample_member_data
       (ymd2ord 2024 1 20) (ymd2ord 2024 1 20)
     = Raise ValueError
  /\ format_message sample_unicode_decimal sample_str_float
       sample_format_field_ext sample_strftime_dmy
       (lit "{{member_name}}") sample_member_data
       (ymd2ord 2024 1 20) (ymd2ord 2024 1 20)
     = Ok (lit "{member_name}").
Proof. repeat split. Qed.

Lemma format_message_plain_template_witness :
  format_message sample_unicode_decimal sample_str_float
    sample_format_field_ext sample_strftime_dmy
    (lit "Hi {member_name}, pay {amount} by {due_date}") sample_member_data
    (ymd2ord 2024 1 20) (ymd2ord 2024 1 20)
  = Ok (lit "Hi Asha, pay 1500.0 by 31-01-2024").
Proof.
  exact (proj1 (proj1 (format_message_plain_template
    sample_unicode_decimal sample_str_float sample_format_field_ext
    sample_strftime_dmy sample_member_data (ymd2ord 2024 1 20)
    (ymd2ord 2024 1 20) (ymd2ord 2024 1 31) sample_template
    eq_refl eq_refl) eq_refl)).
Defined.

(** * Further properties *)

(** ** Registered phone numbers *)

Section RegisteredPhones.

Variable ud : N -> option N.

Lemma startswith_cons (c x : N) (s prefix : pystr) :
  startswith (c :: s) (x :: prefix) = N.eqb c x && startswith s prefix.
Proof. reflexivity. Qed.

Lemma startswith_nil (x : N) (prefix : pystr) :
  startswith [] (x :: prefix) = false.
Proof. reflexivity. Qed.

Lemma startswith_plus91_digits (p : pystr) :
  startswith p (lit "+91") = true ->
  startswith (strip_nondigits ud p) (lit "91") = true.
Proof.
  change (lit "+91") with [chr "+"; chr "9"; chr "1"].
  destruct p as [|a p]; [rewrite startswith_nil; discriminate|].
  rewrite startswith_cons.
  destruct p as [|b p]; [rewrite startswith_nil, andb_false_r; discriminate|].
  rewrite startswith_cons.
  destruct p as [|c p];
    [rewrite startswith_nil, !andb_false_r; discriminate|].
  rewrite startswith_cons. intros H.
  apply andb_true_iff in H. destruct H as [Ha H].
  apply andb_true_iff in H. destruct H as [Hb H].
  apply andb_true_iff in H. destruct H as [Hc _].
  apply N.eqb_eq in Ha, Hb, Hc. subst a b c.
  rewrite !strip_nondigits_cons, isdecimal_plus, isdecimal_9, isdecimal_1.
  apply startswith_91.
Qed.

Lemma len_cons_cons (a b : N) (s : pystr) : len (a :: b :: s) = len s + 2.
Proof. rewrite !len_cons. lia. Qed.

(** The shape of a phone number that passes the check, once normalized. *)
Lemma format_of_valid (p : pystr) :
  validate_phone_number ud p = true ->
  exists digits,
    format_phone_number ud p = chr "+" :: digits
    /\ Forall (fun c => isdecimal ud c = true) digits
    /\ (len digits = 12 \/ len digits = 13)
    /\ startswith digits (lit "91") = true.
Proof.
  unfold validate_phone_number. cbv zeta.
  rewrite format_phone_number_digits. cbv zeta.
  pose proof (strip_nondigits_all ud p) as Hd.
  set (d := strip_nondigits ud p) in *.
  destruct (len d =? 10) eqn:E10.
  - intros _. apply Z.eqb_eq in E10.
    replace (len d =? 12) with false by (symmetry; apply Z.eqb_neq; lia).
    rewrite andb_false_r.
    exists (chr "9" :: chr "1" :: d).
    split; [reflexivity|]. split.
    + constructor; [apply isdecimal_9|].
      constructor; [apply isdecimal_1 | exact Hd].
    + split; [left; rewrite len_cons_cons; lia | apply startswith_91].
  - destruct (len d =? 12) eqn:E12; cbn [andb].
    + destruct (startswith d (lit "91")) eqn:S.
      * intros _. exists d. apply Z.eqb_eq in E12. cbn [andb]. auto.
      * replace (len d =? 13) with false
          by (symmetry; apply Z.eqb_neq; apply Z.eqb_eq in E12; lia).
        cbn [andb]. discriminate.
    + destruct (len d =? 13) eqn:E13; cbn [andb]; [|discriminate].
      destruct (startswith p (lit "+91")) eqn:S; [|discriminate].
      intros _. apply Z.eqb_eq in E13. rewrite andb_false_r.
      replace (len d >? 10) with true by (symmetry; apply Z.gtb_lt; lia).
      exists d. split; [reflexivity|]. split; [exact Hd|].
      split; [right; exact E13|].
      apply startswith_plus91_digits, S.
Qed.

(** X1: a phone number that passes [validate_phone_number] is normalized to
    a [+] followed by 12 or 13 decimal digits that start with 91, and the
    normalized number passes the check again. *)
Theorem valid_phone_normal_form (p : pystr) :
  validate_phone_number ud p = true ->
  exists digits,
    format_phone_number ud p = chr "+" :: digits
    /\ Forall (fun c => isdecimal ud c = true) digits
    /\ (len digits = 12 \/ len digits = 13)
    /\ startswith digits (lit "91") = true
    /\ validate_phone_number ud (format_phone_number ud p) = true.
Proof.
  intros H. destruct (format_of_valid p H) as [e [He [Hd [Hl Hs]]]].
  exists e. repeat (split; [assumption|]).
  rewrite He. unfold validate_phone_number. cbv zeta.
  rewrite (strip_plus_digits ud e Hd).
  destruct Hl as [Hl|Hl]; rewrite Hl.
  - cbn [Z.eqb Pos.eqb andb]. rewrite Hs. reflexivity.
  - assert (Hp : startswith (chr "+" :: e) (lit "+91") = true).
    { change (lit "+91") with (chr "+" :: lit "91").
      rewrite startswith_cons, Hs. reflexivity. }
    rewrite Hp. reflexivity.
Qed.

Lemma decimal_not_separator (c : N) :
  isdecimal ud c = true -> phone_separator c = false.
Proof.
  unfold phone_separator. intros H.
  destruct (N.eqb_spec c (chr "+")) as [->|_]; [discriminate H|].
  destruct (N.eqb_spec c (chr " ")) as [->|_]; [discriminate H|].
  destruct (N.eqb_spec c (chr "-")) as [->|_]; [discriminate H|].
  reflexivity.
Qed.

Lemma separators_of_digits (e : pystr) :
  Forall (fun c => isdecimal ud c = true) e ->
  filter (fun c => negb (phone_separator c)) e = e.
Proof.
  induction 1 as [|c e Hc _ IH]; [reflexivity|].
  cbn [filter]. rewrite (decimal_not_separator c Hc), IH. reflexivity.
Qed.

(** X2: the link built from the normalized form of a phone number that
    passes the check has, between [https://wa.me/] and [?text=], exactly
    the digits of that number, 12 or 13 decimal digits and nothing else. *)
Theorem valid_phone_link (p message : pystr) (bytes : list N) :
  validate_phone_number ud p = true ->
  utf8_encode message = Ok bytes ->
  let digits := strip_nondigits ud (format_phone_number ud p) in
  send_whatsapp_url (format_phone_number ud p) message
  = Ok (lit "https://wa.me/" ++ digits ++ lit "?text="
          ++ quote_from_bytes bytes)
  /\ Forall (fun c => isdecimal ud c = true) digits
  /\ (len digits = 12 \/ len digits = 13).
Proof.
  intros H Hm digits.
  destruct (format_of_valid p H) as [e [He [Hd [Hl _]]]].
  assert (Hdig : digits = e).
  { unfold digits. rewrite He. apply strip_plus_digits, Hd. }
  rewrite Hdig. split; [|split; assumption].
  unfold send_whatsapp_url, quote. rewrite remove_char_filter, Hm, He.
  cbn [bind filter].
  change (phone_separator (chr "+")) with true. cbn [negb].
  rewrite (separators_of_digits e Hd). reflexivity.
Qed.

(** X3: a ten-digit number and the same number written with the country
    code 91 in front, whatever the punctuation of either, are normalized to
    the same text. *)
Theorem same_number_same_phone (p q : pystr) :
  len (strip_nondigits ud p) = 10 ->
  strip_nondigits ud q = lit "91" ++ strip_nondigits ud p ->
  format_phone_number ud q = format_phone_number ud p
  /\ format_phone_number ud p = lit "+91" ++ strip_nondigits ud p.
Proof.
  intros Hl Hq. rewrite !format_phone_number_digits. cbv zeta.
  rewrite Hq, Hl.
  change (lit "91" ++ strip_nondigits ud p)
    with (chr "9" :: chr "1" :: strip_nondigits ud p).
  rewrite startswith_91, len_cons_cons, Hl.
  cbn [Z.eqb Z.add Pos.add Pos.eqb Pos.succ andb].
  rewrite andb_false_r. split; reflexivity.
Qed.

End RegisteredPhones.

Lemma valid_phone_normal_form_witness :
  exists digits,
    format_phone_number sample_unicode_decimal (lit "98765 43210")
    = chr "+" :: digits
    /\ digits = lit "919876543210".
Proof.
  destruct (valid_phone_normal_form sample_unicode_decimal
              (lit "98765 43210") eq_refl) as [e [He _]].
  exists e. split; [exact He|].
  vm_compute in He. injection He as <-. reflexivity.
Defined.

Lemma valid_phone_link_witness :
  send_whatsapp_url
    (format_phone_number sample_unicode_decimal (lit "+91 98765-43210"))
    (lit "Hi Asha!")
  = Ok (lit "https://wa.me/919876543210?text=Hi%20Asha%21").
Proof.
  exact (proj1 (valid_phone_link sample_unicode_decimal
                  (lit "+91 98765-43210") (lit "Hi Asha!") (lit "Hi Asha!")
                  eq_refl eq_refl)).
Defined.

Lemma same_number_same_phone_witness :
  format_phone_number sample_unicode_decimal (lit "+91 98765-43210")
  = format_phone_number sample_unicode_decimal (lit "(98765) 43210").
Proof.
  exact (proj1 (same_number_same_phone sample_unicode_decimal
                  (lit "(98765) 43210") (lit "+91 98765-43210")
                  eq_refl eq_refl)).
Defined.

(** ** The pending list, the tabs and the dashboard *)

Lemma get_pending_reminders_eq (db : database) (today : date) :
  due_dates_known db ->
  get_pending_reminders db today
  = Ok (flat_map (pending_entries today) (select_members_order_by_name db)).
Proof.
  intros Hall. unfold get_pending_reminders.
  rewrite remind_loop_spec; [reflexivity|].
  unfold due_dates_known in Hall. rewrite Forall_forall in *.
  intros m Hm. apply Hall, select_members_In, Hm.
Qed.

Lemma pending_list_In (db : database) (today : date) (e : Reminder.t) :
  In e (flat_map (pending_entries today) (select_members_order_by_name db))
  <-> exists m due,
        In m (members db)
        /\ calculate_next_due_date (Members.payment_date m)
             (Members.membership_type m) = Ok due
        /\ pending (due - today) (Members.reminder_days m) = true
        /\ e = entry_of today m due.
Proof.
  rewrite in_flat_map. split.
  - intros [m [Hm He]]. apply pending_entries_In in He.
    destruct He as [due He]. exists m, due.
    split; [apply select_members_In, Hm | exact He].
  - intros [m [due [Hm He]]]. exists m.
    split; [apply select_members_In, Hm|].
    apply pending_entries_In. exists due. exact He.
Qed.

Lemma entry_in_pending_list (db : database) (today : date) (m : Members.row)
    (due : date) :
  In m (members db) ->
  calculate_next_due_date (Members.payment_date m)
    (Members.membership_type m) = Ok due ->
  (In (entry_of today m due)
      (flat_map (pending_entries today) (select_members_order_by_name db))
   <-> pending (due - today) (Members.reminder_days m) = true).
Proof.
  intros Hm Hdue. rewrite pending_list_In. split.
  - intros [m' [due' [_ [_ [Hp He]]]]].
    assert (E1 : due - today = due' - today)
      by exact (f_equal Reminder.days_remaining He).
    assert (E2 : Members.reminder_days m = Members.reminder_days m')
      by exact (f_equal Reminder.reminder_days He).
    rewrite E1, E2. exact Hp.
  - intros Hp. exists m, due. auto.
Qed.

(** X4: with a lead time that is not negative, a member is in the pending
    list from the day [reminder_days] before the due date on, and on every
    later day; so a member whose lead time is at least the period of the
    tier (a Monthly member with the 30 days the form proposes) is in the
    list on every day from the payment on. *)
Theorem pending_from_lead_day (db : database) (today : date) :
  due_dates_known db ->
  exists out,
    get_pending_reminders db today = Ok out
    /\ forall m due,
         In m (members db) ->
         calculate_next_due_date (Members.payment_date m)
           (Members.membership_type m) = Ok due ->
         0 <= Members.reminder_days m ->
         (In (entry_of today m due) out <->
          due - Members.reminder_days m <= today)
         /\ (offset_for (Members.membership_type m)
             <= Members.reminder_days m ->
             Members.payment_date m <= today ->
             In (entry_of today m due) out).
Proof.
  intros Hall. eexists. split; [apply get_pending_reminders_eq, Hall|].
  intros m due Hm Hdue Hlead.
  rewrite (entry_in_pending_list db today m due Hm Hdue), pending_iff.
  split; [lia|].
  intros Hoff Hpaid.
  apply calculate_next_due_date_inv in Hdue. destruct Hdue as [-> _]. lia.
Qed.

Lemma pending_from_lead_day_witness :
  exists out,
    get_pending_reminders sample_db (ymd2ord 2024 1 1) = Ok out
    /\ In (entry_of (ymd2ord 2024 1 1) sample_member (ymd2ord 2024 1 31)) out.
Proof.
  assert (H : due_dates_known sample_db).
  { repeat constructor; eexists; reflexivity. }
  destruct (pending_from_lead_day sample_db (ymd2ord 2024 1 1) H)
    as [out [Hout Hin]].
  exists out. split; [exact Hout|].
  refine (proj2 (Hin sample_member (ymd2ord 2024 1 31) _ eq_refl _) _ _).
  - right. left. reflexivity.
  - vm_compute. discriminate.
  - vm_compute. discriminate.
  - vm_compute. discriminate.
Defined.

Lemma Permutation_filter_same {A : Type} (f : A -> bool) (l l' : list A) :
  Permutation l l' -> Permutation (filter f l) (filter f l').
Proof.
  induction 1 as [|x l l' _ IH|x y l|l l' l'' _ IH1 _ IH2]; simpl.
  - constructor.
  - destruct (f x); [apply perm_skip|]; exact IH.
  - destruct (f x), (f y); try apply Permutation_refl.
    apply perm_swap.
  - eapply perm_trans; eassumption.
Qed.

Lemma filter_partition_perm {A : Type} (f g : A -> bool) (l : list A) :
  (forall x, g x = negb (f x)) ->
  Permutation (filter f l ++ filter g l) l.
Proof.
  intros Hg. induction l as [|x l IH]; simpl; [constructor|].
  rewrite (Hg x). destruct (f x); simpl.
  - apply perm_skip, IH.
  - eapply perm_trans; [apply Permutation_sym, Permutation_middle|].
    apply perm_skip, IH.
Qed.

Lemma StronglySorted_filter {A : Type} (R : A -> A -> Prop) (f : A -> bool)
    (l : list A) :
  StronglySorted R l -> StronglySorted R (filter f l).
Proof.
  induction 1 as [|x l Hs IH Hall]; simpl; [constructor|].
  destruct (f x); [|exact IH].
  constructor; [exact IH|].
  apply Forall_forall. intros y Hy. apply filter_In in Hy.
  rewrite Forall_forall in Hall. apply Hall. tauto.
Qed.

Lemma entry_of_type (today : date) (m : Members.row) (due : date) :
  str_eqb (Reminder.reminder_type (entry_of today m due))
    (lit "overdue_reminder")
  = (Reminder.days_remaining (entry_of today m due) <? 0)
  /\ str_eqb (Reminder.reminder_type (entry_of today m due))
       (lit "payment_reminder")
     = (Reminder.days_remaining (entry_of today m due) >=? 0).
Proof.
  unfold entry_of. cbn [Reminder.reminder_type Reminder.days_remaining].
  rewrite Z.geb_leb.
  destruct (due - today <? 0) eqn:E.
  - apply Z.ltb_lt in E.
    replace (0 <=? due - today) with false
      by (symmetry; apply Z.leb_gt; lia).
    split; reflexivity.
  - apply Z.ltb_ge in E.
    replace (0 <=? due - today) with true by (symmetry; apply Z.leb_le; lia).
    split; reflexivity.
Qed.

(** X5: the two tabs of the reminders page split the pending list: every
    entry is in exactly one of them, the overdue tab holds the entries
    whose [reminder_type] is the overdue template it fetches and the other
    tab those of the payment template, and each tab is still ordered by
    name. *)
Theorem send_reminders_tabs (db : database) (today : date) :
  due_dates_known db ->
  exists out,
    get_pending_reminders db today = Ok out
    /\ overdue_tab out
       = filter (fun e => str_eqb (Reminder.reminder_type e)
                            (lit "overdue_reminder")) out
    /\ due_soon_tab out
       = filter (fun e => str_eqb (Reminder.reminder_type e)
                            (lit "payment_reminder")) out
    /\ Permutation (overdue_tab out ++ due_soon_tab out) out
    /\ (forall e, In e (overdue_tab out) -> In e (due_soon_tab out) -> False)
    /\ StronglySorted name_le (overdue_tab out)
    /\ StronglySorted name_le (due_soon_tab out).
Proof.
  intros Hall. eexists. split; [apply get_pending_reminders_eq, Hall|].
  set (out := flat_map (pending_entries today)
                (select_members_order_by_name db)).
  assert (Hs : StronglySorted name_le out)
    by apply pending_entries_sorted, select_members_sorted.
  split; [|split; [|split; [|split; [|split]]]].
  - unfold overdue_tab. apply filter_ext_in. intros e He.
    apply pending_list_In in He. destruct He as [m [due [_ [_ [_ ->]]]]].
    symmetry. apply entry_of_type.
  - unfold due_soon_tab. apply filter_ext_in. intros e He.
    apply pending_list_In in He. destruct He as [m [due [_ [_ [_ ->]]]]].
    symmetry. apply entry_of_type.
  - apply filter_partition_perm. intros e. rewrite Z.geb_leb.
    destruct (Reminder.days_remaining e <? 0) eqn:E.
    + apply Z.ltb_lt in E. apply Z.leb_gt. lia.
    + apply Z.ltb_ge in E. apply Z.leb_le. lia.
  - unfold overdue_tab, due_soon_tab. intros e H1 H2.
    apply filter_In in H1, H2. destruct H1 as [_ H1], H2 as [_ H2].
    apply Z.ltb_lt in H1. rewrite Z.geb_leb in H2. apply Z.leb_le in H2. lia.
  - apply StronglySorted_filter, Hs.
  - apply StronglySorted_filter, Hs.
Qed.

Lemma send_reminders_tabs_witness :
  exists out,
    get_pending_reminders sample_db (ymd2ord 2024 2 15) = Ok out
    /\ List.map Reminder.member_name (overdue_tab out) = [lit "Asha"]
    /\ due_soon_tab out = [].
Proof.
  assert (H : due_dates_known sample_db).
  { repeat constructor; eexists; reflexivity. }
  destruct (send_reminders_tabs sample_db (ymd2ord 2024 2 15) H)
    as [out [Hout _]].
  exists out. split; [exact Hout|].
  vm_compute in Hout. injection Hout as <-. split; reflexivity.
Defined.

Lemma dashboard_counts_list (today : date) (l : list Members.row) :
  Forall (fun m => exists due,
            calculate_next_due_date (Members.payment_date m)
              (Members.membership_type m) = Ok due) l ->
  (List.length (filter (active_row today) l)
   + List.length (overdue_tab (flat_map (pending_entries today) l))
   <= List.length l)%nat
  /\ (Forall (fun m => offset_for (Members.membership_type m) = 30) l ->
      (List.length (filter (active_row today) l)
       + List.length (overdue_tab (flat_map (pending_entries today) l))
       = List.length l)%nat).
Proof.
  induction 1 as [|m l [due Hdue] _ [IH1 IH2]]; [split; reflexivity|].
  assert (Hover : List.length
            (overdue_tab (flat_map (pending_entries today) (m :: l)))
          = ((if (due - today <? 0)%Z then 1 else 0)
             + List.length
                 (overdue_tab (flat_map (pending_entries today) l)))%nat).
  { cbn [flat_map]. unfold overdue_tab at 1. rewrite filter_app, length_app.
    f_equal. unfold pending_entries. rewrite Hdue. unfold pending.
    destruct (due - today <? 0) eqn:E; cbn [orb].
    - cbn [filter entry_of Reminder.days_remaining]. rewrite E. reflexivity.
    - destruct ((0 <=? due - today)
                && (due - today <=? Members.reminder_days m));
        [|reflexivity].
      cbn [filter entry_of Reminder.days_remaining]. rewrite E. reflexivity. }
  rewrite Hover. cbn [filter List.length].
  pose proof (calculate_next_due_date_inv _ _ _ Hdue) as [Ed Hv].
  pose proof (offset_for_bounds (Members.membership_type m)) as Hb.
  pose proof (active_row_iff today m) as Ha.
  unfold valid in Hv.
  split.
  - destruct (active_row today m) eqn:A; destruct (due - today <? 0) eqn:E;
      cbn [List.length]; lia.
  - intros H30. pose proof (Forall_inv H30) as Hm.
    pose proof (Forall_inv_tail H30) as Hl. cbv beta in Hm.
    specialize (IH2 Hl).
    destruct (active_row today m) eqn:A; destruct (due - today <? 0) eqn:E;
      cbn [List.length]; lia.
Qed.

(** X6: on the dashboard, the active subscriptions and the overdue members
    never add up to more than the total of members, a member being never
    both; and they add up to the total when every member has a 30-day
    tier. *)
Theorem dashboard_counts (st : store) (today : date) :
  due_dates_known (tables st) ->
  exists out,
    get_pending_reminders (tables st) today = Ok out
    /\ get_active_subscriptions (tables st) today
       + Z.of_nat (List.length (overdue_tab out))
       <= get_total_members st
    /\ (Forall (fun m => offset_for (Members.membership_type m) = 30)
          (members (tables st)) ->
        get_active_subscriptions (tables st) today
        + Z.of_nat (List.length (overdue_tab out))
        = get_total_members st).
Proof.
  intros Hall. eexists.
  split; [apply get_pending_reminders_eq, Hall|].
  pose proof (select_members_perm (tables st)) as Hperm.
  assert (Hlen : List.length
            (overdue_tab (flat_map (pending_entries today)
                            (select_members_order_by_name (tables st))))
          = List.length
              (overdue_tab (flat_map (pending_entries today)
                              (members (tables st))))).
  { apply Permutation_length. unfold overdue_tab.
    apply Permutation_filter_same, Permutation_flat_map, Hperm. }
  rewrite Hlen. unfold get_active_subscriptions, get_total_members.
  destruct (dashboard_counts_list today (members (tables st)) Hall)
    as [H1 H2].
  split; [lia|]. intros H30. specialize (H2 H30). lia.
Qed.

Lemma dashboard_counts_witness :
  get_active_subscriptions sample_db (ymd2ord 2024 2 15) = 0
  /\ get_total_members
       {| tables := sample_db; kids_training := [];
          kids_payment_history := []; message_templates := [];
          sqlite_sequence :=
            {| seq_members := 2; seq_payment_history := 2;
               seq_reminder_logs := 1; seq_kids_training := 0 |} |} = 2
  /\ exists out,
       get_pending_reminders sample_db (ymd2ord 2024 2 15) = Ok out
       /\ List.length (overdue_tab out) = 1%nat.
Proof.
  split; [reflexivity|]. split; [reflexivity|].
  assert (H : due_dates_known sample_db).
  { repeat constructor; eexists; reflexivity. }
  destruct (dashboard_counts
              {| tables := sample_db; kids_training := [];
                 kids_payment_history := []; message_templates := [];
                 sqlite_sequence :=
                   {| seq_members := 2; seq_payment_history := 2;
                      seq_reminder_logs := 1; seq_kids_training := 0 |} |}
              (ymd2ord 2024 2 15) H) as [out [Hout _]].
  exists out. split; [exact Hout|].
  vm_compute in Hout. injection Hout as <-. reflexivity.
Defined.

(** ** Adding members and recording payments *)

Lemma max_rowid_ge (ids : list Z) (x : Z) : In x ids -> x <= max_rowid ids.
Proof.
  induction ids as [|y ids IH]; simpl; [tauto|].
  intros [->|H]; [lia|]. specialize (IH H). lia.
Qed.

Lemma next_rowid_fresh (seq : Z) (ids : list Z) (n : Z) :
  next_rowid seq ids = Some n ->
  seq < n /\ n <= MAX_ROWID /\ forall x, In x ids -> x < n.
Proof.
  unfold next_rowid. cbv zeta.
  destruct (Z.max seq (max_rowid ids) + 1 <=? MAX_ROWID) eqn:E;
    [|discriminate].
  intros [= <-]. apply Z.leb_le in E.
  split; [lia|]. split; [exact E|].
  intros x Hx. pose proof (max_rowid_ge ids x Hx). lia.
Qed.

Lemma phone_taken_iff (rows : list Members.row) (phone : pystr) :
  existsb (fun m => str_eqb (Members.phone m) phone) rows = true
  <-> In phone (List.map Members.phone rows).
Proof.
  rewrite existsb_exists, in_map_iff. split.
  - intros [m [Hm E]]. apply str_eqb_eq in E. exists m. auto.
  - intros [m [E Hm]]. exists m. split; [exact Hm|].
    apply str_eqb_eq, E.
Qed.

(** What a successful [add_member] has done. *)
Lemma add_member_inv (eng : engine) (st st' : store) (name phone : pystr)
    (email : option pystr) (membership_type : pystr) (amount : float)
    (payment_date : date) (reminder_days : Z) (notes : option pystr) :
  add_member eng st name phone email membership_type amount payment_date
    reminder_days notes = (true, st') ->
  exists member_id payment_id,
    ~ In phone (List.map Members.phone (members (tables st)))
    /\ next_rowid (seq_members (sqlite_sequence st))
         (List.map Members.id (members (tables st))) = Some member_id
    /\ next_rowid (seq_payment_history (sqlite_sequence st))
         (List.map PaymentHistory.id (payment_history (tables st)))
       = Some payment_id
    /\ st' =
       set_sequences
         (set_tables st
            {| members :=
                 members (tables st)
                 ++ [ {| Members.id := member_id;
                         Members.name := name;
                         Members.phone := phone;
                         Members.email := email;
                         Members.membership_type := membership_type;
                         Members.amount := amount;
                         Members.payment_date := payment_date;
                         Members.reminder_days := reminder_days;
                         Members.notes := notes |} ];
               payment_history :=
                 payment_history (tables st)
                 ++ [ {| PaymentHistory.id := payment_id;
                         PaymentHistory.member_id := member_id;
                         PaymentHistory.amount := amount;
                         PaymentHistory.payment_date := payment_date;
                         PaymentHistory.payment_method :=
                           Some (lit "Initial Payment");
                         PaymentHistory.notes :=
                           Some (lit "Membership registration") |} ];
               reminder_logs := reminder_logs (tables st);
               member_checkins := member_checkins (tables st) |})
         {| seq_members := member_id;
            seq_payment_history := payment_id;
            seq_reminder_logs := seq_reminder_logs (sqlite_sequence st);
            seq_kids_training := seq_kids_training (sqlite_sequence st) |}.
Proof.
  unfold add_member. destruct eng; [|discriminate]. cbv zeta.
  destruct (existsb _ (members (tables st))) eqn:Ex; [discriminate|].
  destruct (next_rowid (seq_members _) _) as [member_id|] eqn:Em;
    [|discriminate].
  destruct (next_rowid (seq_payment_history _) _) as [payment_id|] eqn:Ep;
    [|discriminate].
  intros [= <-]. exists member_id, payment_id.
  split; [|split; [reflexivity|split; reflexivity]].
  intros Hin. apply phone_taken_iff in Hin. congruence.
Qed.





Lemma sql_delete_where_none {R : Type} (key : R -> Z) (v : Z)
    (rows : list R) :
  (forall r, In r rows -> key r <> v) -> sql_delete_where key v rows = rows.
Proof.
  unfold sql_delete_where. induction rows as [|r rows IH]; intros H;
    [reflexivity|].
  cbn [filter].
  replace (key r =? v) with false
    by (symmetry; apply Z.eqb_neq, H; left; reflexivity).
  cbn [negb]. f_equal. apply IH. intros x Hx. apply H. right. exact Hx.
Qed.

Lemma sql_delete_where_app {R : Type} (key : R -> Z) (v : Z)
    (rows rows' : list R) :
  sql_delete_where key v (rows ++ rows')
  = sql_delete_where key v rows ++ sql_delete_where key v rows'.
Proof. apply filter_app. Qed.

(** X9: in a store without orphan rows, deleting the member that
    [add_member] has just added gives back the tables as they were before
    the registration. *)
Theorem add_then_delete_member (st st' : store) (name phone : pystr)
    (email : option pystr) (membership_type : pystr) (amount : float)
    (payment_date : date) (reminder_days : Z) (notes : option pystr) :
  no_orphans (tables st) ->
  add_member Healthy st name phone email membership_type amount payment_date
    reminder_days notes = (true, st') ->
  exists member,
    members (tables st') = members (tables st) ++ [member]
    /\ fst (delete_member_from Healthy st' (Members.id member)) = true
    /\ tables (snd (delete_member_from Healthy st' (Members.id member)))
       = tables st.
Proof.
  intros [Hp [Hl Hc]] H. apply add_member_inv in H.
  destruct H as [member_id [payment_id [_ [Hm [_ ->]]]]].
  apply next_rowid_fresh in Hm. destruct Hm as [_ [_ Hfresh]].
  eexists. split; [reflexivity|]. split; [reflexivity|].
  cbn [Members.id]. unfold delete_member_from, delete_member.
  cbn [tables set_sequences set_tables snd members payment_history
       reminder_logs member_checkins].
  assert (Hother : forall m, In m (members (tables st)) ->
                             Members.id m <> member_id).
  { intros m Hin. specialize (Hfresh _ (in_map Members.id _ _ Hin)). lia. }
  rewrite !sql_delete_where_app.
  rewrite (sql_delete_where_none Members.id member_id _ Hother).
  rewrite (sql_delete_where_none PaymentHistory.member_id member_id
             (payment_history (tables st))).
  2:{ intros r Hr E. destruct (Hp r Hr) as [m [Hin Hid]].
      apply (Hother m Hin). congruence. }
  rewrite (sql_delete_where_none ReminderLogs.member_id member_id).
  2:{ intros r Hr E. destruct (Hl r Hr) as [m [Hin Hid]].
      apply (Hother m Hin). congruence. }
  rewrite (sql_delete_where_none MemberCheckins.member_id member_id).
  2:{ intros r Hr E. destruct (Hc r Hr) as [m [Hin Hid]].
      apply (Hother m Hin). congruence. }
  unfold sql_delete_where. cbn [filter Members.id PaymentHistory.member_id].
  rewrite Z.eqb_refl. cbn [negb]. rewrite !app_nil_r.
  destruct (tables st); reflexivity.
Qed.

(** What a successful [record_payment] has done. *)
Lemma record_payment_inv (eng : engine) (st st' : store) (member_id : Z)
    (amount : float) (payment_date : date) (payment_method : option pystr)
    (notes : option pystr) :
  record_payment eng st member_id amount payment_date payment_method notes
  = (true, st') ->
  exists payment_id,
    next_rowid (seq_payment_history (sqlite_sequence st))
      (List.map PaymentHistory.id (payment_history (tables st)))
    = Some payment_id
    /\ members (tables st')
       = List.map (update_last_payment member_id amount payment_date)
           (members (tables st))
    /\ payment_history (tables st')
       = payment_history (tables st)
         ++ [ {| PaymentHistory.id := payment_id;
                 PaymentHistory.member_id := member_id;
                 PaymentHistory.amount := amount;
                 PaymentHistory.payment_date := payment_date;
                 PaymentHistory.payment_method := payment_method;
                 PaymentHistory.notes := notes |} ]
    /\ reminder_logs (tables st') = reminder_logs (tables st)
    /\ member_checkins (tables st') = member_checkins (tables st).
Proof.
  unfold record_payment. destruct eng; [|discriminate]. cbv zeta.
  destruct (next_rowid _ _) as [payment_id|] eqn:Ep; [|discriminate].
  intros [= <-]. exists payment_id. cbn. repeat split.
Qed.

Lemma update_last_payment_id (member_id : Z) (amount : float)
    (payment_date : date) (m : Members.row) :
  Members.id (update_last_payment member_id amount payment_date m)
  = Members.id m.
Proof.
  unfold update_last_payment. destruct (Members.id m =? member_id);
    reflexivity.
Qed.




Lemma add_then_delete_member_witness :
  tables (snd (delete_member_from Healthy
                 (snd (add_member Healthy (set_tables sample_store
                                             (db_of_members [sample_member]))
                         (lit "Chitra") (lit "+919000000001") None
                         (lit "Annual") 9000%float (ymd2ord 2024 2 1) 15
                         None)) 3))
  = db_of_members [sample_member].
Proof.
  assert (Ho : no_orphans
                 (tables (set_tables sample_store
                            (db_of_members [sample_member])))).
  { repeat split; intros r [].  }
  destruct (add_then_delete_member
              (set_tables sample_store (db_of_members [sample_member]))
              (snd (add_member Healthy (set_tables sample_store
                                          (db_of_members [sample_member]))
                      (lit "Chitra") (lit "+919000000001") None
                      (lit "Annual") 9000%float (ymd2ord 2024 2 1) 15 None))
              (lit "Chitra") (lit "+919000000001") None (lit "Annual")
              9000%float (ymd2ord 2024 2 1) 15 None Ho eq_refl)
    as [member [Hm [_ Ht]]].
  vm_compute in Hm. injection Hm as <-. exact Ht.
Defined.

(** X11: once a payment dated today is recorded, the member is in the
    pending list of that day only if the lead time covers the whole period
    of the tier: a Quarterly member leaves the list, a Monthly member with
    30 reminder days stays in it. *)
Theorem paid_today_pending (eng : engine) (st st' : store) (m : Members.row)
    (amount : float) (today : date) (payment_method notes : option pystr) :
  In m (members (tables st)) ->
  record_payment eng st (Members.id m) amount today payment_method notes
  = (true, st') ->
  due_dates_known (tables st') ->
  let m' := update_last_payment (Members.id m) amount today m in
  let due := today + offset_for (Members.membership_type m) in
  exists out,
    get_pending_reminders (tables st') today = Ok out
    /\ calculate_next_due_date (Members.payment_date m')
         (Members.membership_type m') = Ok due
    /\ (In (entry_of today m' due) out <->
        offset_for (Members.membership_type m) <= Members.reminder_days m).
Proof.
  intros Hin H Hall m' due.
  apply record_payment_inv in H. destruct H as [pid [_ [Hm _]]].
  assert (Hin' : In m' (members (tables st')))
    by (rewrite Hm; apply in_map, Hin).
  assert (Em : m' = {| Members.id := Members.id m;
                       Members.name := Members.name m;
                       Members.phone := Members.phone m;
                       Members.email := Members.email m;
                       Members.membership_type := Members.membership_type m;
                       Members.amount := amount;
                       Members.payment_date := today;
                       Members.reminder_days := Members.reminder_days m;
                       Members.notes := Members.notes m |}).
  { unfold m', update_last_payment. rewrite Z.eqb_refl. reflexivity. }
  assert (Hdue : calculate_next_due_date (Members.payment_date m')
                   (Members.membership_type m') = Ok due).
  { unfold due_dates_known in Hall. rewrite Forall_forall in Hall.
    destruct (Hall m' Hin') as [d Hd]. rewrite Hd.
    apply calculate_next_due_date_inv in Hd. destruct Hd as [-> _].
    rewrite Em. reflexivity. }
  eexists. split; [apply get_pending_reminders_eq, Hall|].
  split; [exact Hdue|].
  rewrite (entry_in_pending_list (tables st') today m' due Hin' Hdue).
  rewrite pending_iff.
  pose proof (offset_for_bounds (Members.membership_type m)) as Hb.
  replace (Members.reminder_days m') with (Members.reminder_days m)
    by (rewrite Em; reflexivity).
  unfold due. lia.
Qed.

Lemma paid_today_pending_witness :
  exists out,
    get_pending_reminders
      (tables (snd (record_payment Healthy sample_store 2 1500%float
                      (ymd2ord 2024 2 15) (Some (lit "Cash")) (Some []))))
      (ymd2ord 2024 2 15) = Ok out
    /\ List.map Reminder.member_id out = [1].
Proof.
  assert (Hin : In sample_quarterly (members (tables sample_store))).
  { left. reflexivity. }
  assert (Hall : due_dates_known
            (tables (snd (record_payment Healthy sample_store 2 1500%float
                            (ymd2ord 2024 2 15) (Some (lit "Cash"))
                            (Some []))))).
  { repeat constructor; eexists; reflexivity. }
  destruct (paid_today_pending Healthy sample_store
              (snd (record_payment Healthy sample_store 2 1500%float
                      (ymd2ord 2024 2 15) (Some (lit "Cash")) (Some [])))
              sample_quarterly 1500%float (ymd2ord 2024 2 15)
              (Some (lit "Cash")) (Some []) Hin eq_refl Hall)
    as [out [Hout _]].
  exists out. split; [exact Hout|].
  vm_compute in Hout. injection Hout as <-. reflexivity.
Defined.



Lemma add_member_false (eng : engine) (st st' : store) (name phone : pystr)
    (email : option pystr) (membership_type : pystr) (amount : float)
    (payment_date : date) (reminder_days : Z) (notes : option pystr) :
  add_member eng st name phone email membership_type amount payment_date
    reminder_days notes = (false, st') ->
  st' = st.
Proof.
  unfold add_member. destruct eng; [|congruence]. cbv zeta.
  destruct (existsb _ _); [congruence|].
  destruct (next_rowid _ _); [|congruence].
  destruct (next_rowid _ _); congruence.
Qed.

Lemma record_payment_false (eng : engine) (st st' : store) (member_id : Z)
    (amount : float) (payment_date : date)
    (payment_method notes : option pystr) :
  record_payment eng st member_id amount payment_date payment_method notes
  = (false, st') ->
  st' = st.
Proof.
  unfold record_payment. destruct eng; [|congruence]. cbv zeta.
  destruct (next_rowid _ _); congruence.
Qed.

Lemma no_orphans_add_member (eng : engine) (st st' : store) (ok : bool)
    (name phone : pystr) (email : option pystr) (membership_type : pystr)
    (amount : float) (payment_date : date) (reminder_days : Z)
    (notes : option pystr) :
  no_orphans (tables st) ->
  add_member eng st name phone email membership_type amount payment_date
    reminder_days notes = (ok, st') ->
  no_orphans (tables st').
Proof.
  intros Ho H. destruct ok;
    [|apply add_member_false in H; subst; exact Ho].
  apply add_member_inv in H.
  destruct H as [member_id [payment_id [_ [_ [_ ->]]]]].
  destruct Ho as [Hp [Hl Hc]]. unfold no_orphans. cbn.
  split; [|split].
  - intros p Hin. apply in_app_or in Hin. destruct Hin as [Hin|[<-|[]]].
    + destruct (Hp p Hin) as [m [Hm E]]. exists m.
      split; [apply in_or_app; left; exact Hm | exact E].
    + eexists. split; [apply in_or_app; right; left; reflexivity|].
      reflexivity.
  - intros l Hin. destruct (Hl l Hin) as [m [Hm E]]. exists m.
    split; [apply in_or_app; left; exact Hm | exact E].
  - intros c Hin. destruct (Hc c Hin) as [m [Hm E]]. exists m.
    split; [apply in_or_app; left; exact Hm | exact E].
Qed.

Lemma no_orphans_delete_member (eng : engine) (db : database)
    (member_id : Z) :
  no_orphans db -> no_orphans (snd (delete_member eng db member_id)).
Proof.
  intros Ho. destruct eng; [|exact Ho].
  destruct Ho as [Hp [Hl Hc]]. unfold no_orphans. cbn.
  split; [|split].
  - intros p Hin. apply sql_delete_where_In in Hin.
    destruct Hin as [Hin Hne]. destruct (Hp p Hin) as [m [Hm E]].
    exists m. split; [|exact E].
    apply sql_delete_where_In. split; [exact Hm | congruence].
  - intros l Hin. apply sql_delete_where_In in Hin.
    destruct Hin as [Hin Hne]. destruct (Hl l Hin) as [m [Hm E]].
    exists m. split; [|exact E].
    apply sql_delete_where_In. split; [exact Hm | congruence].
  - intros c Hin. apply sql_delete_where_In in Hin.
    destruct Hin as [Hin Hne]. destruct (Hc c Hin) as [m [Hm E]].
    exists m. split; [|exact E].
    apply sql_delete_where_In. split; [exact Hm | congruence].
Qed.

Lemma no_orphans_record_payment (eng : engine) (st st' : store) (ok : bool)
    (member_id : Z) (amount : float) (payment_date : date)
    (payment_method notes : option pystr) :
  no_orphans (tables st) ->
  (exists m, In m (members (tables st)) /\ Members.id m = member_id) ->
  record_payment eng st member_id amount payment_date payment_method notes
  = (ok, st') ->
  no_orphans (tables st').
Proof.
  intros Ho [m0 [Hm0 Hid0]] H. destruct ok;
    [|apply record_payment_false in H; subst; exact Ho].
  apply record_payment_inv in H.
  destruct H as [payment_id [_ [Hm [Hp [Hl Hc]]]]].
  destruct Ho as [Op [Ol Oc]].
  assert (Hkeep : forall m, In m (members (tables st)) ->
            exists m', In m' (members (tables st'))
                       /\ Members.id m' = Members.id m).
  { intros m Hin.
    exists (update_last_payment member_id amount payment_date m).
    split; [rewrite Hm; apply in_map, Hin | apply update_last_payment_id]. }
  unfold no_orphans. rewrite Hp, Hl, Hc. split; [|split].
  - intros p Hin. apply in_app_or in Hin. destruct Hin as [Hin|[<-|[]]].
    + destruct (Op p Hin) as [m [Hin' E]].
      destruct (Hkeep m Hin') as [m' [H1 H2]]. exists m'.
      split; [exact H1 | congruence].
    + destruct (Hkeep m0 Hm0) as [m' [H1 H2]]. exists m'.
      split; [exact H1 | cbn; congruence].
  - intros l Hin. destruct (Ol l Hin) as [m [Hin' E]].
    destruct (Hkeep m Hin') as [m' [H1 H2]]. exists m'.
    split; [exact H1 | congruence].
  - intros c Hin. destruct (Oc c Hin) as [m [Hin' E]].
    destruct (Hkeep m Hin') as [m' [H1 H2]]. exists m'.
    split; [exact H1 | congruence].
Qed.

(** X13: the store never gets an orphan row from [add_member], from
    [delete_member], or from [record_payment] for a member of the table:
    if every row of the history, of the reminder log and of the check-ins
    names a member before, every row does after, whether the operation
    succeeds or fails. *)
Theorem no_orphans_kept (st : store) :
  no_orphans (tables st) ->
  (forall eng name phone email membership_type amount payment_date
          reminder_days notes,
     no_orphans
       (tables (snd (add_member eng st name phone email membership_type
                       amount payment_date reminder_days notes))))
  /\ (forall eng member_id,
        no_orphans (tables (snd (delete_member_from eng st member_id))))
  /\ (forall eng m amount payment_date payment_method notes,
        In m (members (tables st)) ->
        no_orphans
          (tables (snd (record_payment eng st (Members.id m) amount
                          payment_date payment_method notes)))).
Proof.
  intros Ho. split; [|split].
  - intros. eapply no_orphans_add_member; [exact Ho|].
    apply surjective_pairing.
  - intros eng member_id. unfold delete_member_from.
    pose proof (no_orphans_delete_member eng (tables st) member_id Ho) as H.
    destruct (delete_member eng (tables st) member_id) as [ok db].
    exact H.
  - intros eng m amount payment_date payment_method notes Hin.
    eapply no_orphans_record_payment; [exact Ho | |apply surjective_pairing].
    exists m. auto.
Qed.

Lemma no_orphans_kept_witness :
  no_orphans (tables (snd (delete_member_from Healthy sample_store 1))).
Proof.
  assert (Ho : no_orphans (tables sample_store)).
  { repeat split.
    - intros p [<-|[<-|[]]];
        [exists sample_member | exists sample_quarterly];
        split; try reflexivity; cbn; auto.
    - intros l [<-|[]]. exists sample_member.
      split; [cbn; auto | reflexivity].
    - intros c []. }
  exact (proj1 (proj2 (no_orphans_kept sample_store Ho)) Healthy 1).
Defined.

(** ** Message templates *)

















(** ** The links of the reminder page *)

Section ReminderLinks.

Variable ud : N -> option N.
Variable str_float : float -> pystr.
Variable format_field_ext :
  kwargs -> pyvalue -> pystr -> option N -> pystr -> bool -> result pystr.
Variable strftime_dmy : date -> pystr.

Lemma default_templates_pieces :
  template_of payment_reminder_pieces = DEFAULT_PAYMENT_REMINDER
  /\ template_of overdue_reminder_pieces = DEFAULT_OVERDUE_REMINDER.
Proof. split; vm_compute; reflexivity. Qed.

Lemma format_message_pieces (ps : list piece) (reminder : Reminder.t)
    (now_default today due : date) :
  forallb plain_piece ps = true ->
  calculate_next_due_date (Reminder.payment_date reminder)
    (Reminder.membership_type reminder) = Ok due ->
  let kw := message_kwargs strftime_dmy (member_data_of reminder) due today in
  (forallb passed (piece_names ps) = true ->
   format_message ud str_float format_field_ext strftime_dmy (template_of ps)
     (member_data_of reminder) now_default today
   = Ok (substitute str_float kw ps))
  /\ (forallb passed (piece_names ps) = false ->
      exists e,
        format_message ud str_float format_field_ext strftime_dmy
          (template_of ps) (member_data_of reminder) now_default today
        = Raise e
        /\ format_error (piece_names ps) e).
Proof.
  intros Hplain Hdue kw.
  rewrite format_message_due_date.
  change (member_payment_date (member_data_of reminder) now_default)
    with (Reminder.payment_date reminder).
  change (member_membership_type (member_data_of reminder))
    with (Reminder.membership_type reminder).
  rewrite Hdue. cbn [bind]. fold kw.
  unfold str_format. rewrite (markup_plain ps Hplain []).
  destruct (render_chunks_plain ud str_float format_field_ext strftime_dmy
              (member_data_of reminder) due today ps Hplain [])
    as [R1 R2].
  fold kw in R1, R2. split.
  - intros Hall. rewrite (R1 Hall). reflexivity.
  - intros Hall. destruct (R2 Hall) as [e [He Hf]].
    exists e. rewrite He. split; [reflexivity | exact Hf].
Qed.

Lemma whatsapp_link_failure (phone message : pystr) (e : exn) :
  send_whatsapp_url phone message = Raise e -> e = UnicodeEncodeError.
Proof.
  unfold send_whatsapp_url, quote.
  destruct (utf8_encode message) as [bs|e'] eqn:E; cbn [bind];
    [discriminate|].
  intros [= <-]. apply (utf8_encode_error message e' E).
Qed.

Lemma whatsapp_link_encoded (phone message : pystr) (bytes : list N) :
  utf8_encode message = Ok bytes ->
  send_whatsapp_url phone message
  = Ok (lit "https://wa.me/"
          ++ filter (fun c => negb (phone_separator c)) phone
          ++ lit "?text=" ++ quote_from_bytes bytes).
Proof.
  intros H. unfold send_whatsapp_url, quote.
  rewrite remove_char_filter, H. reflexivity.
Qed.

(** X16: with the default template in the table, the link of a member of
    the due-soon tab carries the default text with the name of the member,
    the amount as [str] prints it and the due date the classifier
    computed, whatever the day; building it can only fail on a text that
    has no UTF-8 encoding. *)
Theorem due_soon_link (st : store) (m : Members.row)
    (today now_default today' due : date) :
  get_message_template st (lit "payment_reminder")
  = DEFAULT_PAYMENT_REMINDER ->
  calculate_next_due_date (Members.payment_date m)
    (Members.membership_type m) = Ok due ->
  let reminder := entry_of today m due in
  let message :=
    (lit "Hi " ++ Members.name m ++ lit "! " ++ [287; 376; 184; 10; 10]
     ++ lit "Your badminton court membership payment of "
     ++ [226; 8218; 185] ++ str_float (Members.amount m)
     ++ lit " is due on " ++ strftime_dmy due ++ lit ". " ++ [10; 10]
     ++ lit "Please make the payment at your earliest convenience."
     ++ [10; 10] ++ lit "Thank you for being a valued member!"
     ++ [10; 10] ++ lit "Contact us: " ++ lit "+91-9876543210")%N in
  let link :=
    whatsapp_link ud str_float format_field_ext strftime_dmy st
      (lit "payment_reminder") reminder now_default today' in
  format_message ud str_float format_field_ext strftime_dmy
    DEFAULT_PAYMENT_REMINDER (member_data_of reminder) now_default today'
  = Ok message
  /\ link = send_whatsapp_url (Members.phone m) message
  /\ (forall e, link = Raise e -> e = UnicodeEncodeError)
  /\ (forall bytes,
        utf8_encode message = Ok bytes ->
        link = Ok (lit "https://wa.me/"
                     ++ filter (fun c => negb (phone_separator c))
                          (Members.phone m)
                     ++ lit "?text=" ++ quote_from_bytes bytes)).
Proof.
  intros Ht Hdue reminder message link.
  assert (Hf : format_message ud str_float format_field_ext strftime_dmy
                 DEFAULT_PAYMENT_REMINDER (member_data_of reminder)
                 now_default today' = Ok message).
  { rewrite <- (proj1 default_templates_pieces).
    destruct (format_message_pieces payment_reminder_pieces reminder
                now_default today' due eq_refl Hdue) as [F _].
    rewrite (F eq_refl). reflexivity. }
  assert (Hl : link = send_whatsapp_url (Members.phone m) message).
  { unfold link, whatsapp_link. rewrite Ht, Hf. reflexivity. }
  split; [exact Hf|]. split; [exact Hl|]. split.
  - intros e He. rewrite Hl in He. apply (whatsapp_link_failure _ _ _ He).
  - intros bytes Hb. rewrite Hl. apply whatsapp_link_encoded, Hb.
Qed.

(** X17: with the default template in the table, the link of a member of
    the overdue tab carries the default text with the number of days
    between the due date and the day the message is written, which is the
    opposite of the days remaining of the entry when both are computed on
    the same day; building it can only fail on a text that has no UTF-8
    encoding. *)
Theorem overdue_link (st : store) (m : Members.row)
    (today now_default today' due : date) :
  get_message_template st (lit "overdue_reminder")
  = DEFAULT_OVERDUE_REMINDER ->
  calculate_next_due_date (Members.payment_date m)
    (Members.membership_type m) = Ok due ->
  let reminder := entry_of today m due in
  let overdue_days := if due <? today' then today' - due else 0 in
  let message :=
    (lit "Dear " ++ Members.name m ++ lit "," ++ [10; 10]
     ++ lit "Your badminton court membership payment of "
     ++ [226; 8218; 185] ++ str_float (Members.amount m)
     ++ lit " is overdue by " ++ str_int overdue_days ++ lit " days."
     ++ [10; 10]
     ++ lit "Please make the payment immediately to continue enjoying our facilities."
     ++ [10; 10] ++ lit "For any queries, contact us: "
     ++ lit "+91-9876543210" ++ [10; 10] ++ lit "Thank you!")%N in
  let link :=
    whatsapp_link ud str_float format_field_ext strftime_dmy st
      (lit "overdue_reminder") reminder now_default today' in
  format_message ud str_float format_field_ext strftime_dmy
    DEFAULT_OVERDUE_REMINDER (member_data_of reminder) now_default today'
  = Ok message
  /\ link = send_whatsapp_url (Members.phone m) message
  /\ (forall e, link = Raise e -> e = UnicodeEncodeError)
  /\ (In reminder (overdue_tab [reminder]) -> today' = today ->
      overdue_days = - Reminder.days_remaining reminder /\ 0 < overdue_days).
Proof.
  intros Ht Hdue reminder overdue_days message link.
  assert (Hf : format_message ud str_float format_field_ext strftime_dmy
                 DEFAULT_OVERDUE_REMINDER (member_data_of reminder)
                 now_default today' = Ok message).
  { rewrite <- (proj2 default_templates_pieces).
    destruct (format_message_pieces overdue_reminder_pieces reminder
                now_default today' due eq_refl Hdue) as [F _].
    rewrite (F eq_refl). reflexivity. }
  assert (Hl : link = send_whatsapp_url (Members.phone m) message).
  { unfold link, whatsapp_link. rewrite Ht, Hf. reflexivity. }
  split; [exact Hf|]. split; [exact Hl|]. split.
  - intros e He. rewrite Hl in He. apply (whatsapp_link_failure _ _ _ He).
  - intros Hin ->. unfold overdue_tab in Hin. apply filter_In in Hin.
    destruct Hin as [_ Hneg]. apply Z.ltb_lt in Hneg.
    unfold reminder in Hneg. cbn [Reminder.days_remaining entry_of] in Hneg.
    unfold overdue_days, reminder. cbn [Reminder.days_remaining entry_of].
    replace (due <? today) with true by (symmetry; apply Z.ltb_lt; lia).
    lia.
Qed.



End ReminderLinks.

Lemma due_soon_link_witness :
  exists url,
    whatsapp_link sample_unicode_decimal sample_str_float
      sample_format_field_ext sample_strftime_dmy
      (_insert_default_templates sample_store) (lit "payment_reminder")
      (entry_of (ymd2ord 2024 1 20) sample_member (ymd2ord 2024 1 31))
      (ymd2ord 2024 1 20) (ymd2ord 2024 1 20) = Ok url
    /\ startswith url (lit "https://wa.me/919876543210?text=Hi%20Asha%21")
       = true.
Proof.
  eexists. split.
  - apply (proj2 (proj2 (proj2 (due_soon_link sample_unicode_decimal
             sample_str_float sample_format_field_ext sample_strftime_dmy
             (_insert_default_templates sample_store) sample_member
             (ymd2ord 2024 1 20) (ymd2ord 2024 1 20) (ymd2ord 2024 1 20)
             (ymd2ord 2024 1 31) eq_refl eq_refl)))).
    vm_compute. reflexivity.
  - vm_compute. reflexivity.
Defined.

Lemma overdue_link_witness :
  exists message,
    format_message sample_unicode_decimal sample_str_float
      sample_format_field_ext sample_strftime_dmy DEFAULT_OVERDUE_REMINDER
      (member_data_of
         (entry_of (ymd2ord 2024 2 15) sample_member (ymd2ord 2024 1 31)))
      (ymd2ord 2024 2 15) (ymd2ord 2024 2 15) = Ok message
    /\ startswith message (lit "Dear Asha,") = true.
Proof.
  eexists. split.
  - apply (proj1 (overdue_link sample_unicode_decimal sample_str_float
             sample_format_field_ext sample_strftime_dmy
             (_insert_default_templates sample_store) sample_member
             (ymd2ord 2024 2 15) (ymd2ord 2024 2 15) (ymd2ord 2024 2 15)
             (ymd2ord 2024 1 31) eq_refl eq_refl)).
  - vm_compute. reflexivity.
Defined.



(** ** The registration form *)

Section Registration.

Variable ud : N -> option N.

Lemma add_member_phone_taken (eng : engine) (st : store)
    (name phone : pystr) (email : option pystr) (membership_type : pystr)
    (amount : float) (payment_date : date) (reminder_days : Z)
    (notes : option pystr) :
  In phone (List.map Members.phone (members (tables st))) ->
  add_member eng st name phone email membership_type amount payment_date
    reminder_days notes = (false, st).
Proof.
  intros H. apply phone_taken_iff in H.
  unfold add_member. destruct eng; [|reflexivity].
  cbv zeta. rewrite H. reflexivity.
Qed.

Lemma register_member_inv (eng : engine) (st st' : store)
    (name phone email membership_type : pystr) (amount : float)
    (payment_date : date) (reminder_days : Z) (notes : pystr) :
  register_member ud eng st name phone email membership_type amount
    payment_date reminder_days notes = (Registered, st') ->
  name <> [] /\ phone <> [] /\ PrimFloat.eqb amount 0%float = false
  /\ validate_phone_number ud phone = true
  /\ add_member eng st name (format_phone_number ud phone) (Some email)
       membership_type amount payment_date reminder_days (Some notes)
     = (true, st').
Proof.
  unfold register_member.
  destruct name as [|c name]; [discriminate|].
  destruct phone as [|d phone]; [discriminate|].
  cbn [orb].
  destruct (PrimFloat.eqb amount 0%float); [discriminate|].
  destruct (validate_phone_number ud (d :: phone)); cbn [negb];
    [|discriminate].
  destruct (add_member _ _ _ _ _ _ _ _ _ _) as [[|] st1]; [|discriminate].
  intros [= <-]. repeat split; discriminate.
Qed.

(** X20: a registration that succeeds stores the phone number in its
    normal form, a [+] and 12 or 13 decimal digits that start with 91, which
    no earlier member has; the name and the phone number typed are not
    empty and the amount is not zero. *)
Theorem register_member_registered (eng : engine) (st st' : store)
    (name phone email membership_type : pystr) (amount : float)
    (payment_date : date) (reminder_days : Z) (notes : pystr) :
  register_member ud eng st name phone email membership_type amount
    payment_date reminder_days notes = (Registered, st') ->
  exists member digits,
    members (tables st') = members (tables st) ++ [member]
    /\ Members.name member = name
    /\ Members.phone member = format_phone_number ud phone
    /\ Members.phone member = chr "+" :: digits
    /\ Forall (fun c => isdecimal ud c = true) digits
    /\ (len digits = 12 \/ len digits = 13)
    /\ startswith digits (lit "91") = true
    /\ ~ In (Members.phone member)
           (List.map Members.phone (members (tables st)))
    /\ name <> [] /\ phone <> [] /\ PrimFloat.eqb amount 0%float = false.
Proof.
  intros H. apply register_member_inv in H.
  destruct H as [Hn [Hp [Ha [Hv H]]]].
  apply add_member_inv in H.
  destruct H as [member_id [payment_id [Hfresh [_ [_ ->]]]]].
  destruct (format_of_valid ud phone Hv) as [digits [Hf [Hd [Hl Hs]]]].
  eexists. exists digits. cbn.
  split; [reflexivity|]. split; [reflexivity|]. split; [reflexivity|].
  split; [exact Hf|]. auto 10.
Qed.

(** X21: once a number is registered, a second registration of the same
    number is refused however the number is typed, and leaves the store as
    it is. *)
Theorem register_same_number_twice (eng eng' : engine) (st st' : store)
    (name phone email membership_type : pystr) (amount : float)
    (payment_date : date) (reminder_days : Z) (notes : pystr)
    (name' phone' email' membership_type' : pystr) (amount' : float)
    (payment_date' : date) (reminder_days' : Z) (notes' : pystr) :
  register_member ud eng st name phone email membership_type amount
    payment_date reminder_days notes = (Registered, st') ->
  format_phone_number ud phone' = format_phone_number ud phone ->
  exists outcome,
    register_member ud eng' st' name' phone' email' membership_type' amount'
      payment_date' reminder_days' notes' = (outcome, st')
    /\ (outcome = MissingFields \/ outcome = InvalidPhone
        \/ outcome = RegistrationFailed).
Proof.
  intros H Hsame. apply register_member_inv in H.
  destruct H as [_ [_ [_ [_ H]]]].
  apply add_member_inv in H.
  destruct H as [member_id [payment_id [_ [_ [_ Hst]]]]].
  assert (Htaken : In (format_phone_number ud phone')
                     (List.map Members.phone (members (tables st')))).
  { rewrite Hst. cbn. rewrite map_app. apply in_or_app. right. left.
    cbn. symmetry. exact Hsame. }
  unfold register_member.
  destruct (_ || _ || _); [exists MissingFields; auto|].
  destruct (negb _); [exists InvalidPhone; auto|].
  rewrite (add_member_phone_taken eng' st' name'
             (format_phone_number ud phone') (Some email') membership_type'
             amount' payment_date' reminder_days' (Some notes') Htaken).
  exists RegistrationFailed. auto.
Qed.

End Registration.

Lemma register_member_registered_witness :
  exists member,
    members (tables (snd (register_member sample_unicode_decimal Healthy
                            sample_store (lit "Chitra") (lit "90000 00001")
                            [] (lit "Annual") 9000%float (ymd2ord 2024 2 1)
                            15 [])))
    = members sample_db ++ [member]
    /\ Members.phone member = lit "+919000000001".
Proof.
  destruct (register_member_registered sample_unicode_decimal Healthy
              sample_store
              (snd (register_member sample_unicode_decimal Healthy
                      sample_store (lit "Chitra") (lit "90000 00001") []
                      (lit "Annual") 9000%float (ymd2ord 2024 2 1) 15 []))
              (lit "Chitra") (lit "90000 00001") [] (lit "Annual")
              9000%float (ymd2ord 2024 2 1) 15 [] eq_refl)
    as [member [digits [Hm [_ [Hp _]]]]].
  exists member. split; [exact Hm|]. rewrite Hp. reflexivity.
Defined.

Lemma register_same_number_twice_witness :
  exists outcome,
    register_member sample_unicode_decimal Healthy
      (snd (register_member sample_unicode_decimal Healthy sample_store
              (lit "Chitra") (lit "90000 00001") [] (lit "Annual")
              9000%float (ymd2ord 2024 2 1) 15 []))
      (lit "Chitra D") (lit "+91 90000-00001") [] (lit "Quarterly")
      4000%float (ymd2ord 2024 3 1) 30 []
    = (outcome,
       snd (register_member sample_unicode_decimal Healthy sample_store
              (lit "Chitra") (lit "90000 00001") [] (lit "Annual")
              9000%float (ymd2ord 2024 2 1) 15 []))
    /\ outcome = RegistrationFailed.
Proof.
  destruct (register_same_number_twice sample_unicode_decimal Healthy
              Healthy sample_store
              (snd (register_member sample_unicode_decimal Healthy
                      sample_store (lit "Chitra") (lit "90000 00001") []
                      (lit "Annual") 9000%float (ymd2ord 2024 2 1) 15 []))
              (lit "Chitra") (lit "90000 00001") [] (lit "Annual")
              9000%float (ymd2ord 2024 2 1) 15 []
              (lit "Chitra D") (lit "+91 90000-00001") [] (lit "Quarterly")
              4000%float (ymd2ord 2024 3 1) 30 [] eq_refl eq_refl)
    as [outcome [H _]].
  exists outcome. split; [exact H|].
  vm_compute in H. injection H as <-. reflexivity.
Defined.

(** ** The training programme *)

Lemma insert_by_In {R : Type} (key : R -> pystr) (r x : R) (l : list R) :
  In x (insert_by key r l) <-> x = r \/ In x l.
Proof.
  induction l as [|y l IH]; cbn [insert_by In].
  - intuition congruence.
  - destruct (str_leb (key r) (key y)); cbn [In];
      rewrite ?IH; intuition congruence.
Qed.

Lemma insert_by_sorted {R : Type} (key : R -> pystr) (r : R) (l : list R) :
  StronglySorted (fun a b => str_leb (key a) (key b) = true) l ->
  StronglySorted (fun a b => str_leb (key a) (key b) = true)
    (insert_by key r l).
Proof.
  induction 1 as [|y l Hs IH Hall]; cbn [insert_by].
  - repeat constructor.
  - destruct (str_leb (key r) (key y)) eqn:E.
    + constructor; [constructor; assumption|].
      constructor; [exact E|].
      eapply Forall_impl; [|exact Hall].
      intros z Hz. eapply str_leb_trans; eassumption.
    + constructor; [exact IH|].
      apply Forall_forall. intros z Hz.
      apply insert_by_In in Hz. destruct Hz as [-> | Hz].
      * destruct (str_leb_total (key r) (key y)) as [H|H];
          [congruence | exact H].
      * rewrite Forall_forall in Hall. apply Hall, Hz.
Qed.

Lemma insert_by_perm {R : Type} (key : R -> pystr) (r : R) (l : list R) :
  Permutation (insert_by key r l) (r :: l).
Proof.
  induction l as [|y l IH]; cbn [insert_by]; [apply Permutation_refl|].
  destruct (str_leb (key r) (key y)); [apply Permutation_refl|].
  eapply perm_trans; [apply perm_skip, IH | apply perm_swap].
Qed.

Lemma sql_order_by_perm {R : Type} (key : R -> pystr) (rows : list R) :
  Permutation (sql_order_by key rows) rows.
Proof.
  unfold sql_order_by.
  induction rows as [|x l IH]; cbn [fold_right]; [constructor|].
  eapply perm_trans; [apply insert_by_perm | apply perm_skip, IH].
Qed.

Lemma sql_order_by_sorted {R : Type} (key : R -> pystr) (rows : list R) :
  StronglySorted (fun a b => str_leb (key a) (key b) = true)
    (sql_order_by key rows).
Proof.
  unfold sql_order_by.
  induction rows as [|x l IH]; cbn [fold_right]; [constructor|].
  apply insert_by_sorted, IH.
Qed.

(** X22: the list of [get_all_kids] holds each active kid once, in the
    order of the names, and [get_total_kids], the number of the dashboard,
    is its length. *)
Theorem get_all_kids_listing (st : store) :
  Permutation (get_all_kids st) (filter Kids.active (kids_training st))
  /\ StronglySorted
       (fun a b => str_leb (Kids.kid_name a) (Kids.kid_name b) = true)
       (get_all_kids st)
  /\ (forall k, In k (get_all_kids st) <->
                In k (kids_training st) /\ Kids.active k = true)
  /\ get_total_kids st = Z.of_nat (List.length (get_all_kids st)).
Proof.
  pose proof (sql_order_by_perm Kids.kid_name
                (filter Kids.active (kids_training st))) as Hp.
  fold (get_all_kids st) in Hp.
  split; [exact Hp|]. split; [apply sql_order_by_sorted|]. split.
  - intros k. rewrite <- filter_In. split; intros H.
    + apply (Permutation_in k Hp H).
    + apply (Permutation_in k (Permutation_sym Hp) H).
  - unfold get_total_kids. rewrite (Permutation_length Hp). reflexivity.
Qed.


Lemma add_kid_inv (eng : engine) (st st' : store)
    (kid_name parent_name parent_phone : pystr) (age : Z)
    (batch_time : pystr) (monthly_fee : float) (start_date : date)
    (emergency_contact medical_notes : option pystr) :
  add_kid eng st kid_name parent_name parent_phone age batch_time monthly_fee
    start_date emergency_contact medical_notes = (true, st') ->
  exists kid_id,
    next_rowid (seq_kids_training (sqlite_sequence st))
      (List.map Kids.id (kids_training st)) = Some kid_id
    /\ kids_training st'
       = kids_training st
         ++ [ {| Kids.id := kid_id;
                 Kids.kid_name := kid_name;
                 Kids.parent_name := parent_name;
                 Kids.parent_phone := parent_phone;
                 Kids.age := age;
                 Kids.batch_time := batch_time;
                 Kids.monthly_fee := monthly_fee;
                 Kids.start_date := start_date;
                 Kids.emergency_contact := emergency_contact;
                 Kids.medical_notes := medical_notes;
                 Kids.active := true |} ]
    /\ kids_payment_history st' = kids_payment_history st
    /\ tables st' = tables st
    /\ message_templates st' = message_templates st.
Proof.
  unfold add_kid. destruct eng; [|discriminate]. cbv zeta.
  destruct (next_rowid _ _) as [kid_id|]; [|discriminate].
  intros [= <-]. exists kid_id. repeat split.
Qed.

(** X24: a kid added by [add_kid] gets an id above every id of the table,
    is active, is in the list of [get_all_kids] and raises the count of
    [get_total_kids] by one; deleting it again with [delete_kid] gives back
    the kids there were when no payment was left over under that id. *)
Theorem add_kid_listed (eng : engine) (st st' : store)
    (kid_name parent_name parent_phone : pystr) (age : Z)
    (batch_time : pystr) (monthly_fee : float) (start_date : date)
    (emergency_contact medical_notes : option pystr) :
  add_kid eng st kid_name parent_name parent_phone age batch_time monthly_fee
    start_date emergency_contact medical_notes = (true, st') ->
  exists kid,
    kids_training st' = kids_training st ++ [kid]
    /\ Kids.kid_name kid = kid_name
    /\ Kids.parent_phone kid = parent_phone
    /\ Kids.active kid = true
    /\ (forall k, In k (kids_training st) -> Kids.id k < Kids.id kid)
    /\ In kid (get_all_kids st')
    /\ get_total_kids st' = get_total_kids st + 1
    /\ tables st' = tables st
    /\ kids_training (snd (delete_kid Healthy st' (Kids.id kid)))
       = kids_training st.
Proof.
  intros H. apply add_kid_inv in H.
  destruct H as [kid_id [Hid [Hk [Hh [Ht _]]]]].
  destruct (next_rowid_fresh _ _ _ Hid) as [_ [_ Hfresh]].
  eexists. split; [exact Hk|]. cbn [Kids.kid_name Kids.parent_phone
    Kids.active Kids.id].
  split; [reflexivity|]. split; [reflexivity|]. split; [reflexivity|].
  assert (Hlt : forall k, In k (kids_training st) -> Kids.id k < kid_id).
  { intros k Hin. apply Hfresh, in_map, Hin. }
  split; [exact Hlt|]. split; [|split; [|split; [exact Ht|]]].
  - apply (Permutation_in _
             (Permutation_sym (sql_order_by_perm Kids.kid_name _))).
    apply filter_In. rewrite Hk. split; [|reflexivity].
    apply in_or_app. right. left. reflexivity.
  - unfold get_total_kids. rewrite Hk, filter_app, length_app.
    cbn [filter Kids.active List.length]. lia.
  - cbn [delete_kid snd set_kids kids_training]. rewrite Hk.
    rewrite sql_delete_where_app, sql_delete_where_none.
    + unfold sql_delete_where. cbn [filter Kids.id].
      rewrite Z.eqb_refl. cbn [negb]. apply app_nil_r.
    + intros k Hin. specialize (Hlt k Hin). lia.
Qed.

Lemma add_kid_listed_witness :
  exists kid,
    kids_training (snd (add_kid Healthy sample_store (lit "Dev")
                          (lit "Esha") (lit "+919000000002") 9
                          (lit "Morning (6:00-7:00 AM)") 1000%float
                          (ymd2ord 2024 2 1) (Some []) (Some [])))
    = [kid]
    /\ Kids.id kid = 1.
Proof.
  destruct (add_kid_listed Healthy sample_store
              (snd (add_kid Healthy sample_store (lit "Dev") (lit "Esha")
                      (lit "+919000000002") 9 (lit "Morning (6:00-7:00 AM)")
                      1000%float (ymd2ord 2024 2 1) (Some []) (Some [])))
              (lit "Dev") (lit "Esha") (lit "+919000000002") 9
              (lit "Morning (6:00-7:00 AM)") 1000%float (ymd2ord 2024 2 1)
              (Some []) (Some []) eq_refl) as [kid [Hk _]].
  exists kid. split; [exact Hk|].
  cbn in Hk. injection Hk as <-. reflexivity.
Defined.

(** ** The reminder log *)

(** X25: [log_reminder] appends one row, marked as a success, under an id
    above every id of the log, whether or not a member has the given id; it
    changes nothing the scheduler reads, so the pending list of any day is
    the same before and after. *)
Theorem log_reminder_keeps_pending (eng : engine) (st st' : store)
    (member_id : Z) (reminder_type message : pystr) :
  log_reminder eng st member_id reminder_type message = (true, st') ->
  exists log,
    reminder_logs (tables st') = reminder_logs (tables st) ++ [log]
    /\ ReminderLogs.member_id log = member_id
    /\ ReminderLogs.reminder_type log = reminder_type
    /\ ReminderLogs.message log = message
    /\ ReminderLogs.success log = true
    /\ (forall l, In l (reminder_logs (tables st)) ->
                  ReminderLogs.id l < ReminderLogs.id log)
    /\ members (tables st') = members (tables st)
    /\ payment_history (tables st') = payment_history (tables st)
    /\ (forall today,
          get_pending_reminders (tables st') today
          = get_pending_reminders (tables st) today).
Proof.
  unfold log_reminder. destruct eng; [|discriminate]. cbv zeta.
  destruct (next_rowid _ _) as [log_id|] eqn:Hid; [|discriminate].
  intros [= <-]. destruct (next_rowid_fresh _ _ _ Hid) as [_ [_ Hfresh]].
  eexists. cbn. split; [reflexivity|]. repeat (split; [reflexivity|]).
  split; [|repeat split].
  intros l Hin. apply Hfresh, in_map, Hin.
Qed.

Lemma log_reminder_keeps_pending_witness :
  get_pending_reminders
    (tables (snd (log_reminder Healthy sample_store 1
                    (lit "overdue_reminder") (lit "Dear Asha,"))))
    (ymd2ord 2024 2 15)
  = get_pending_reminders sample_db (ymd2ord 2024 2 15).
Proof.
  destruct (log_reminder_keeps_pending Healthy sample_store
              (snd (log_reminder Healthy sample_store 1
                      (lit "overdue_reminder") (lit "Dear Asha,")))
              1 (lit "overdue_reminder") (lit "Dear Asha,") eq_refl)
    as [log [_ [_ [_ [_ [_ [_ [_ [_ H]]]]]]]]].
  exact (H (ymd2ord 2024 2 15)).
Defined.

(** ** Sessions *)

Section Authentication.

Variable lower : pystr -> pystr.

(** What the proofs need of [str.lower]: the empty string stays empty, and
    no single character turns into the four letters of [true]. *)
Hypothesis lower_nil : lower [] = [].
Hypothesis lower_char : forall c, lower [c] <> lit "true".

Lemma check_authentication_no_parameter (now : Z) (session : Session.t) :
  check_authentication lower None now session
  = if negb (Session.authenticated session) then Returns false session
    else
      match Session.login_time session with
      | Some login_time =>
          if now - login_time >? SESSION_TIMEOUT then
            Returns false cleared_session
          else Returns true session
      | None => Returns true session
      end.
Proof.
  unfold check_authentication. cbv zeta. rewrite lower_nil. reflexivity.
Qed.

(** X26: without a logout parameter, a logged-in session is accepted up to
    and including four hours after the login and refused after that; a
    refusal resets the session, which is then refused at any time; a
    session that is marked as authenticated but has no login time is never
    timed out. *)
Theorem session_timeout (session : Session.t) (now : Z) :
  Session.authenticated session = true ->
  (forall login_time,
     Session.login_time session = Some login_time ->
     (now - login_time <= 14400 * 1000000 ->
      check_authentication lower None now session = Returns true session)
     /\ (14400 * 1000000 < now - login_time ->
         exists session',
           check_authentication lower None now session
           = Returns false session'
           /\ Session.authenticated session' = false
           /\ Session.username session' = None
           /\ Session.login_time session' = None
           /\ forall now',
                check_authentication lower None now' session'
                = Returns false session'))
  /\ (Session.login_time session = None ->
      check_authentication lower None now session = Returns true session).
Proof.
  intros Ha. rewrite check_authentication_no_parameter, Ha. cbn [negb].
  split.
  - intros login_time Ht. rewrite Ht. unfold SESSION_TIMEOUT. split.
    + intros H.
      replace (now - login_time >? 14400 * 1000000) with false
        by (symmetry; rewrite Z.gtb_ltb; apply Z.ltb_ge; lia).
      reflexivity.
    + intros H.
      replace (now - login_time >? 14400 * 1000000) with true
        by (symmetry; rewrite Z.gtb_ltb; apply Z.ltb_lt; lia).
      exists cleared_session. repeat (split; [reflexivity|]).
      intros now'. rewrite check_authentication_no_parameter. reflexivity.
  - intros Ht. rewrite Ht. reflexivity.
Qed.


End Authentication.


Lemma session_timeout_witness :
  check_authentication sample_lower None (14400 * 1000000)
    {| Session.authenticated := true;
       Session.username := Some (lit "admin");
       Session.login_time := Some 0 |}
  = Returns true
      {| Session.authenticated := true;
         Session.username := Some (lit "admin");
         Session.login_time := Some 0 |}.
Proof.
  exact (proj1 (proj1 (session_timeout sample_lower eq_refl
                         {| Session.authenticated := true;
                            Session.username := Some (lit "admin");
                            Session.login_time := Some 0 |}
                         (14400 * 1000000) eq_refl) 0 eq_refl)
           ltac:(vm_compute; discriminate)).
Defined.


Section Login.

Variable lower : pystr -> pystr.
Hypothesis lower_nil : lower [] = [].

(** X28: a login with the configured user name and password, or with the
    built-in pair when the environment sets neither, opens a session that
    [check_authentication] accepts for four hours from the login and
    refuses afterwards; any other pair leaves the session as it is, and
    [logout] leaves one that is refused. *)
Theorem login_session (admin_username admin_password : option pystr)
    (username password : pystr) (now : Z) (session : Session.t) :
  let session' :=
    show_login admin_username admin_password username password now session in
  let accepted :=
    username = match admin_username with Some s => s | None => lit "admin" end
    /\ password = match admin_password with
                  | Some s => s
                  | None => lit "kjbadminton2024"
                  end in
  (accepted ->
   Session.authenticated session' = true
   /\ Session.username session' = Some username
   /\ forall now',
        check_authentication lower None now' session'
        = if now' - now >? 14400 * 1000000
          then Returns false cleared_session
          else Returns true session')
  /\ (~ accepted -> session' = session)
  /\ (forall s now',
        logout session = Reruns s ->
        check_authentication lower None now' s = Returns false s).
Proof.
  intros session' accepted. split; [|split].
  - intros [Hu Hp].
    assert (E : session' = {| Session.authenticated := true;
                              Session.username := Some username;
                              Session.login_time := Some now |}).
    { unfold session', show_login. cbv zeta.
      rewrite (proj2 (str_eqb_eq _ _) Hu), (proj2 (str_eqb_eq _ _) Hp).
      reflexivity. }
    rewrite E. split; [reflexivity|]. split; [reflexivity|].
    intros now'. unfold check_authentication. cbv zeta.
    rewrite lower_nil. reflexivity.
  - intros Hn. unfold session', show_login. cbv zeta.
    destruct (str_eqb username _) eqn:Eu; [|reflexivity].
    destruct (str_eqb password _) eqn:Ep; [|reflexivity].
    exfalso. apply Hn. split; apply str_eqb_eq; assumption.
  - intros s now' [= <-]. unfold check_authentication. cbv zeta.
    rewrite lower_nil. reflexivity.
Qed.

End Login.

Lemma login_session_witness :
  check_authentication sample_lower None 3600000000
    (show_login None None (lit "admin") (lit "kjbadminton2024") 0
       cleared_session)
  = Returns true
      {| Session.authenticated := true;
         Session.username := Some (lit "admin");
         Session.login_time := Some 0 |}.
Proof.
  destruct (proj1 (login_session sample_lower eq_refl None None (lit "admin")
                     (lit "kjbadminton2024") 0 cleared_session)
              (conj eq_refl eq_refl)) as [_ [_ H]].
  rewrite (H 3600000000). reflexivity.
Defined.

(** ** Bulk messages *)

Lemma bulk_links_encoded (members : list Members.row)
    (final_message : pystr) (bytes : list N) :
  utf8_encode final_message = Ok bytes ->
  bulk_links members final_message
  = Ok (List.map
          (fun m =>
             (Members.name m,
              lit "https://wa.me/"
              ++ filter (fun c => negb (phone_separator c)) (Members.phone m)
              ++ lit "?text=" ++ quote_from_bytes bytes))
          members).
Proof.
  intros H. induction members as [|m rest IH]; [reflexivity|].
  cbn [bulk_links List.map].
  rewrite (whatsapp_link_encoded (Members.phone m) final_message bytes H).
  cbn [bind]. rewrite IH. reflexivity.
Qed.

Lemma sorted_names (l : list Members.row) :
  StronglySorted row_le l ->
  StronglySorted (fun a b => str_leb a b = true) (List.map Members.name l).
Proof.
  induction 1 as [|m l Hs IH Hall]; [constructor|].
  cbn [List.map]. constructor; [exact IH|].
  rewrite Forall_map. exact Hall.
Qed.

(** X29: for a message that is not empty and can be encoded, the bulk page
    gives one link for every member of the table, in the order of the
    names; every link holds the phone number of its member without
    separators and the same encoded text, which decodes back to the bytes
    of the message with the signature when that is asked for. *)
Theorem bulk_messaging_links (db : database) (message_text : pystr)
    (include_signature : bool) (bytes : list N) :
  message_text <> [] ->
  members db <> [] ->
  utf8_encode (if include_signature then message_text ++ ACADEMY_SIGNATURE
               else message_text) = Ok bytes ->
  exists links,
    show_bulk_messaging db message_text include_signature = BulkLinks links
    /\ List.length links = List.length (members db)
    /\ Permutation (List.map fst links) (List.map Members.name (members db))
    /\ StronglySorted (fun a b => str_leb a b = true) (List.map fst links)
    /\ (forall name url,
          In (name, url) links <->
          exists m, In m (members db) /\ name = Members.name m
                    /\ url = lit "https://wa.me/"
                             ++ filter (fun c => negb (phone_separator c))
                                  (Members.phone m)
                             ++ lit "?text=" ++ quote_from_bytes bytes)
    /\ unquote_to_bytes (quote_from_bytes bytes) = bytes.
Proof.
  intros Hm Hdb Hb.
  set (link := fun m : Members.row =>
         (Members.name m,
          lit "https://wa.me/"
          ++ filter (fun c => negb (phone_separator c)) (Members.phone m)
          ++ lit "?text=" ++ quote_from_bytes bytes)).
  exists (List.map link (select_members_order_by_name db)).
  pose proof (select_members_perm db) as Hperm.
  assert (Hnames : List.map fst
                     (List.map link (select_members_order_by_name db))
                   = List.map Members.name (select_members_order_by_name db)).
  { rewrite map_map. reflexivity. }
  split; [|split; [|split; [|split; [|split]]]].
  - unfold show_bulk_messaging, search_members.
    destruct message_text as [|c rest]; [contradiction|]. cbv zeta.
    destruct (select_members_order_by_name db) as [|m l] eqn:E.
    + apply Permutation_nil in Hperm. contradiction.
    + rewrite (bulk_links_encoded _ _ bytes Hb). reflexivity.
  - rewrite length_map. apply Permutation_length, Hperm.
  - rewrite Hnames. apply Permutation_map, Hperm.
  - rewrite Hnames. apply sorted_names, select_members_sorted.
  - intros name url. rewrite in_map_iff. split.
    + intros [m [E Hin]]. exists m.
      apply select_members_In in Hin. unfold link in E.
      injection E as <- <-. auto.
    + intros [m [Hin [-> ->]]]. exists m. split; [reflexivity|].
      apply select_members_In, Hin.
  - apply unquote_quote_from_bytes, (utf8_encode_bytes _ _ Hb).
Qed.

Lemma bulk_messaging_links_witness :
  exists links,
    show_bulk_messaging sample_db (lit "Closed on Monday") false
    = BulkLinks links
    /\ links
       = [ (lit "Asha",
            lit "https://wa.me/919876543210?text=Closed%20on%20Monday");
           (lit "Bala",
            lit "https://wa.me/919876500000?text=Closed%20on%20Monday") ].
Proof.
  destruct (bulk_messaging_links sample_db (lit "Closed on Monday") false
              (lit "Closed on Monday")
              ltac:(discriminate) ltac:(discriminate) eq_refl)
    as [links [H _]].
  exists links. split; [exact H|].
  vm_compute in H. injection H as <-. reflexivity.
Defined.
